(** * SmartRiceAgri: the bid service, the shared HTTP client and the
      allocation list

    A shallow embedding of
      - [src/services/bidService.jsx]  (class [BidService]),
      - [src/api/axios.js]             (the shared axios instance and its
                                        response interceptor),
      - [AllocationList]               (the pagination controls of the
                                        fertilizer allocation table),
    followed by the properties of the specification that concern them.

    JavaScript values are modelled by [JsVal], their Numbers by the doubles
    of [JsNumber]; an [async] method that awaits
    one HTTP call is a state-passing function over a [World] that records the
    requests handed to the transport and the lines written to the console.
    What the JavaScript runtime and the remote backend decide (the clock, the
    time zone, date parsing and printing, the backend's answers) is a
    [Runtime] record the operations are parameterised by. *)

From stdpp Require Import gmap strings list fin_maps pretty.
From Stdlib Require Import ZArith Lia Ascii.

#[local] Set Warnings "-register-all".
#[local] Open Scope Z_scope.

(** ** Numbers

    The Number type of ECMAScript: the IEEE 754 binary64 values.  A finite
    value is written exactly, as an integer or as an odd numerator over a
    power of two; [Int n] and [Frac m e] stand for the Number value of the
    real number they write (ECMA-262's 𝔽), so that an integer beyond 2^53
    that no double equals stands for the double nearest to it. *)

Module JsNumber.

Inductive Number :=
| NaN
| Infinity (negative : bool)
| NegZero                          (* -0 *)
| Int (n : Z)                      (* 𝔽(n); [Int 0] is +0 *)
| Frac (m : Z) (e : positive).     (* 𝔽(m / 2^e) *)

(** The binary64 format: 53 bits of precision, least exponent of a unit in
    the last place -1074, and 2^1024 the first power of two out of range. *)
Definition prec : Z := 53.
Definition emin : Z := -1074.
Definition emax : Z := 1024.

(** Number of bits of [a > 0]. *)
Definition bits (a : Z) : Z := Z.log2 a + 1.

(** [a / 2^s] rounded to the nearest integer, ties to even ([s > 0]). *)
Definition shift_rne (a s : Z) : Z :=
  let q := a / 2 ^ s in
  let r := a mod 2 ^ s in
  let half := 2 ^ (s - 1) in
  if r <? half then q
  else if half <? r then q + 1
  else if Z.even q then q else q + 1.

(** Number of trailing zero bits of [m <> 0]. *)
Definition trailing_zeros (m : Z) : Z := Z.log2 (Z.land m (- m)).

(** The way [m * 2^e] is written, [m <> 0]. *)
Definition dyadic (m e : Z) : Number :=
  if 0 <=? e then Int (m * 2 ^ e)
  else
    let k := Z.min (trailing_zeros m) (- e) in
    let m' := m / 2 ^ k in
    let e' := e + k in
    if e' =? 0 then Int m' else Frac m' (Z.to_pos (- e')).

(** 𝔽(m * 2^e): round to nearest, ties to even. *)
Definition F (m e : Z) : Number :=
  if m =? 0 then Int 0
  else
    let a := Z.abs m in
    let q := Z.max (bits a + e - prec) emin in
    if q <=? e then
      if bits a + e <=? emax then dyadic m e else Infinity (m <? 0)
    else
      let a' := shift_rne a (q - e) in
      if a' =? 0 then (if m <? 0 then NegZero else Int 0)
      else if bits a' + q <=? emax then dyadic (Z.sgn m * a') q
      else Infinity (m <? 0).

(** The Number value a term stands for, written in the one way [F] writes
    it. *)
Definition value (x : Number) : Number :=
  match x with
  | Int n => F n 0
  | Frac m e => F m (- Z.pos e)
  | _ => x
  end.

(** Numerator and binary exponent of a finite value. *)
Definition exact (x : Number) : Z * Z :=
  match x with
  | Int n => (n, 0)
  | Frac m e => (m, - Z.pos e)
  | _ => (0, 0)
  end.

(** [ToBoolean]: +0, -0 and NaN are falsy. *)
Definition toBoolean (x : Number) : bool :=
  match value x with
  | NaN | NegZero | Int 0 => false
  | _ => true
  end.

(** [Number::unaryMinus] *)
Definition unaryMinus (x : Number) : Number :=
  match value x with
  | NaN => NaN
  | Infinity s => Infinity (negb s)
  | NegZero => Int 0
  | Int 0 => NegZero
  | Int n => Int (- n)
  | Frac m e => Frac (- m) e
  end.

(** [Number::add] *)
Definition add (x y : Number) : Number :=
  match value x, value y with
  | NaN, _ | _, NaN => NaN
  | Infinity a, Infinity b => if Bool.eqb a b then Infinity a else NaN
  | Infinity a, _ => Infinity a
  | _, Infinity b => Infinity b
  | NegZero, y' => y'
  | x', NegZero => x'
  | x', y' =>
      let '(m1, e1) := exact x' in
      let '(m2, e2) := exact y' in
      let e := Z.min e1 e2 in
      F (m1 * 2 ^ (e1 - e) + m2 * 2 ^ (e2 - e)) e
  end.

(** [Number::subtract] *)
Definition subtract (x y : Number) : Number := add x (unaryMinus y).

(** [Number::equal], the [===] of two Numbers. *)
Definition equal (x y : Number) : bool :=
  match value x, value y with
  | NaN, _ | _, NaN => false
  | Infinity a, Infinity b => Bool.eqb a b
  | (NegZero | Int 0), (NegZero | Int 0) => true
  | Int a, Int b => a =? b
  | Frac m e, Frac m' e' => (m =? m') && (Z.pos e =? Z.pos e')
  | _, _ => false
  end.

(** [Number::lessThan], the [<] of two Numbers; [NaN] compares false. *)
Definition lessThan (x y : Number) : bool :=
  match value x, value y with
  | NaN, _ | _, NaN => false
  | Infinity a, Infinity b => a && negb b
  | Infinity a, _ => a
  | _, Infinity b => negb b
  | x', y' =>
      let '(m1, e1) := exact x' in
      let '(m2, e2) := exact y' in
      let e := Z.min e1 e2 in
      m1 * 2 ^ (e1 - e) <? m2 * 2 ^ (e2 - e)
  end.

(** [ToIntegerOrInfinity] of a finite Number: truncation toward zero. *)
Definition truncate (x : Number) : option Z :=
  match value x with
  | NegZero => Some 0
  | Int n => Some n
  | Frac m e => Some (Z.quot m (2 ^ Z.pos e))
  | _ => None
  end.

(** *** [Number::toString], radix 10

    For a finite [x > 0] the digits are those of the integer [s] with the
    fewest digits [k] such that [s * 10^(n-k)] still reads back as [x]; where
    several [s] of that length do, the one nearest to [x].

    With [x = m * 2^q], [m] below 2^53, the reals that read back as [x] lie
    within half a unit in the last place: between [(4m - d) * 2^(q-2)] and
    [(4m + 2) * 2^(q-2)], with [d = 1] just above a power of two, where the
    doubles below are twice as dense, and [d = 2] otherwise; the bounds
    themselves read back as [x] when [m] is even. *)

Record Interval := mkInterval {
  mid : Z;          (* 4m *)
  below : Z;        (* d *)
  unit_exp : Z;     (* q - 2 *)
  closed : bool     (* m is even *)
}.

Definition interval (a e : Z) : Interval :=
  let q := Z.max (bits a + e - prec) emin in
  let m := if q <=? e then a * 2 ^ (e - q) else a / 2 ^ (q - e) in
  {| mid := 4 * m;
     below := if (m =? 2 ^ (prec - 1)) && (emin <? q) then 1 else 2;
     unit_exp := q - 2;
     closed := Z.even m |}.

(** Comparing [s * 10^t] with [c * 2^u] in integers. *)
Definition lhs (s t u : Z) : Z := s * 10 ^ Z.max t 0 * 2 ^ Z.max (- u) 0.
Definition rhs (c t u : Z) : Z := c * 2 ^ Z.max u 0 * 10 ^ Z.max (- t) 0.

Definition reads_back (i : Interval) (s t : Z) : bool :=
  let u := unit_exp i in
  let v := lhs s t u in
  let lo := rhs (mid i - below i) t u in
  let hi := rhs (mid i + 2) t u in
  if closed i then (lo <=? v) && (v <=? hi) else (lo <? v) && (v <? hi).

(** The largest [n] with [10^n <= x], searched upward from [n]. *)
Fixpoint exponent_from (fuel : nat) (i : Interval) (n : Z) : Z :=
  match fuel with
  | O => n
  | S fuel =>
      if lhs 1 (n + 1) (unit_exp i) <=? rhs (mid i) (n + 1) (unit_exp i)
      then exponent_from fuel i (n + 1)
      else n
  end.

Definition decimal_exponent (a e : Z) (i : Interval) : Z :=
  exponent_from 6 i ((bits a + e - 1) * 1233 / 4096 - 2).

(** The candidates with [k] digits: [x / 10^t] rounded down and up. *)
Definition candidate (i : Interval) (t : Z) : option Z :=
  let u := unit_exp i in
  let down := rhs (mid i) t u / lhs 1 t u in
  let up := down + 1 in
  match reads_back i down t, reads_back i up t with
  | true, true =>
      let twice := 2 * rhs (mid i) t u in
      let sum := lhs (down + up) t u in
      if twice <? sum then Some down
      else if sum <? twice then Some up
      else if Z.even down then Some down else Some up
  | true, false => Some down
  | false, true => Some up
  | false, false => None
  end.

Fixpoint shortest (fuel : nat) (i : Interval) (n k : Z) : Z * Z :=
  match fuel with
  | O => (rhs (mid i) (n - k) (unit_exp i) / lhs 1 (n - k) (unit_exp i), n - k)
  | S fuel =>
      match candidate i (n - k) with
      | Some s => (s, n - k)
      | None => shortest fuel i n (k + 1)
      end
  end.

(** [s] without its trailing zeros. *)
Fixpoint strip_zeros (fuel : nat) (s t : Z) : Z * Z :=
  match fuel with
  | O => (s, t)
  | S fuel =>
      if (s mod 10 =? 0) && negb (s =? 0) then strip_zeros fuel (s / 10) (t + 1)
      else (s, t)
  end.

Definition zeros (n : Z) : string :=
  String.concat "" (replicate (Z.to_nat n) "0").

Definition exponent_part (n : Z) : string :=
  "e" +:+ (if 0 <=? n - 1 then "+" else "-") +:+ pretty (Z.abs (n - 1)).

(** The text of [s * 10^(n-k)], [k] the number of digits of [s]. *)
Definition layout (s n : Z) : string :=
  let digits := pretty s in
  let k := Z.of_nat (String.length digits) in
  if (k <=? n) && (n <=? 21) then digits +:+ zeros (n - k)
  else if (0 <? n) && (n <=? 21) then
    String.substring 0 (Z.to_nat n) digits +:+ "." +:+
    String.substring (Z.to_nat n) (Z.to_nat (k - n)) digits
  else if (-6 <? n) && (n <=? 0) then "0." +:+ zeros (- n) +:+ digits
  else if k =? 1 then digits +:+ exponent_part n
  else
    String.substring 0 1 digits +:+ "." +:+
    String.substring 1 (Z.to_nat (k - 1)) digits +:+ exponent_part n.

Definition positive_toString (a e : Z) : string :=
  let i := interval a e in
  let n := decimal_exponent a e i + 1 in
  let '(s, t) := shortest 17 i n 1 in
  let '(s, t) := strip_zeros 17 s t in
  layout s (t + Z.of_nat (String.length (pretty s))).

Definition toString (x : Number) : string :=
  match value x with
  | NaN => "NaN"
  | Infinity false => "Infinity"
  | Infinity true => "-Infinity"
  | NegZero | Int 0 => "0"
  | v =>
      let '(m, e) := exact v in
      (if m <? 0 then "-" else "") +:+ positive_toString (Z.abs m) e
  end.

End JsNumber.

(** ** JavaScript values *)

Module Js.

Abbreviation Number := JsNumber.Number.

(** The values that travel through the service: JSON data plus [undefined]
    and the Numbers JSON cannot write; objects are finite maps from property
    names to values. *)
Inductive JsVal :=
| JUndefined
| JNull
| JBool (b : bool)
| JNum (x : Number)
| JStr (s : string)
| JArr (l : list JsVal)
| JObj (o : gmap string JsVal).

(** An integer literal is the Number it writes. *)
Coercion JsNumber.Int : Z >-> JsNumber.Number.

Abbreviation JNaN := (JNum JsNumber.NaN).

(** [ToBoolean]: what [if (v)], [!v], [v || w] and [v && w] test. *)
Definition truthy (v : JsVal) : bool :=
  match v with
  | JUndefined | JNull => false
  | JBool b => b
  | JNum x => JsNumber.toBoolean x
  | JStr s => negb (String.eqb s "")
  | JArr _ | JObj _ => true
  end.

(** [a || b] *)
Definition or_else (a b : JsVal) : JsVal := if truthy a then a else b.

(** [v === 'literal'] *)
Definition strict_eq_str (v : JsVal) (s : string) : bool :=
  match v with JStr s' => String.eqb s' s | _ => false end.

Definition join_with (sep : string) (parts : list string) : string :=
  String.concat sep parts.

(** [ToString].  Arrays print as their elements joined by a comma
    ([undefined] and [null] elements as the empty string), plain objects as
    ["[object Object]"], Numbers as [Number::toString] prints them. *)
Fixpoint ToString (v : JsVal) : string :=
  match v with
  | JUndefined => "undefined"
  | JNull => "null"
  | JBool true => "true"
  | JBool false => "false"
  | JNum x => JsNumber.toString x
  | JStr s => s
  | JArr l =>
      join_with ","
        (map (fun x => match x with
                       | JUndefined | JNull => ""
                       | _ => ToString x
                       end) l)
  | JObj _ => "[object Object]"
  end.

(** An element of [Array.prototype.join]. *)
Definition join_element (v : JsVal) : string :=
  match v with
  | JUndefined | JNull => ""
  | _ => ToString v
  end.

(** [arr.join(sep)] *)
Definition join (sep : string) (l : list JsVal) : string :=
  join_with sep (map join_element l).

(** Errors.  Every value thrown in the modelled code is an [Error] object:
    one made by [new Error(msg)], one raised by the runtime ([TypeError],
    [RangeError]) or one rejected by axios, which adds [code], [config] and,
    when the backend answered, [response]. *)
Record AxiosResponse := mkResponse {
  status : Z;
  data : JsVal
}.

Record JsError := mkError {
  name : string;
  message : string;
  code : option string;
  config : option string;          (* [error.config.url] *)
  response : option AxiosResponse
}.

Definition new_Error (msg : string) : JsError :=
  {| name := "Error"; message := msg; code := None; config := None;
     response := None |}.

Definition TypeError (msg : string) : JsError :=
  {| name := "TypeError"; message := msg; code := None; config := None;
     response := None |}.

Definition RangeError (msg : string) : JsError :=
  {| name := "RangeError"; message := msg; code := None; config := None;
     response := None |}.

(** Completion of an evaluation: a value or a thrown error. *)
Inductive Completion (A : Type) :=
| Normal (a : A)
| Throw (e : JsError).
Arguments Normal {A} a.
Arguments Throw {A} e.

(** The own enumerable properties [{...v}] and [Object.entries(v)] see. *)
Definition index_props (l : list JsVal) : gmap string JsVal :=
  list_to_map (imap (fun i x => (pretty (Z.of_nat i), x)) l).

Definition chars (s : string) : list JsVal :=
  map (fun c => JStr (String c EmptyString)) (String.list_ascii_of_string s).

Definition ownProps (v : JsVal) : gmap string JsVal :=
  match v with
  | JObj o => o
  | JArr l => index_props l
  | JStr s => index_props (chars s)
  | _ => ∅
  end.

(** Reading [o.k] on an object known to be one. *)
Definition prop (o : gmap string JsVal) (k : string) : JsVal :=
  default JUndefined (o !! k).

(** [v.k] for the property names the code reads; reading a property of
    [undefined] or [null] throws. *)
Definition getProp (v : JsVal) (k : string) : Completion JsVal :=
  match v with
  | JUndefined | JNull =>
      Throw (TypeError ("Cannot read properties of " +:+ ToString v +:+
                        " (reading '" +:+ k +:+ "')"))
  | JObj o => Normal (prop o k)
  | JArr l =>
      if String.eqb k "length" then Normal (JNum (Z.of_nat (length l)))
      else Normal (prop (index_props l) k)
  | JStr s =>
      if String.eqb k "length" then Normal (JNum (Z.of_nat (String.length s)))
      else Normal (prop (index_props (chars s)) k)
  | _ => Normal JUndefined
  end.

(** [v?.k] *)
Definition getPropOpt (v : JsVal) (k : string) : JsVal :=
  match getProp v k with
  | Normal x => x
  | Throw _ => JUndefined
  end.

(** [parseInt(s)] with no radix: leading white space, a sign, an optional
    [0x] prefix, then the longest run of digits; [None] is [NaN].  The
    characters of a string are its code units, those below 256; the white
    space among them is the tab, the line and page breaks, the space and the
    no-break space. *)
Definition is_space (c : Ascii.ascii) : bool :=
  let n := Ascii.nat_of_ascii c in
  (Nat.eqb n 32 || Nat.eqb n 160 || (Nat.leb 9 n && Nat.leb n 13))%bool.

Fixpoint drop_spaces (s : string) : string :=
  match s with
  | String c r => if is_space c then drop_spaces r else s
  | EmptyString => s
  end.

Definition digit_value (radix : Z) (c : Ascii.ascii) : option Z :=
  let n := Z.of_nat (Ascii.nat_of_ascii c) in
  let d := if (48 <=? n) && (n <=? 57) then Some (n - 48)
           else if (97 <=? n) && (n <=? 122) then Some (n - 87)
           else if (65 <=? n) && (n <=? 90) then Some (n - 55)
           else None in
  match d with
  | Some x => if x <? radix then Some x else None
  | None => None
  end.

Fixpoint digits_from (radix : Z) (s : string) (acc : option Z) : option Z :=
  match s with
  | String c r =>
      match digit_value radix c with
      | Some d => digits_from radix r (Some (default 0 acc * radix + d))
      | None => acc
      end
  | EmptyString => acc
  end.

Definition parseInt_string (s : string) : option Z :=
  let s := drop_spaces s in
  let '(sign, s) :=
    match s with
    | String "-"%char r => (-1, r)
    | String "+"%char r => (1, r)
    | _ => (1, s)
    end in
  let '(radix, s) :=
    match s with
    | String "0"%char (String "x"%char r)
    | String "0"%char (String "X"%char r) => (16, r)
    | _ => (10, s)
    end in
  (fun n => sign * n) <$> digits_from radix s None.

Definition parseInt (v : JsVal) : option Z := parseInt_string (ToString v).

End Js.

(** ** Dates

    The time-value arithmetic of ECMAScript's [Date] (ECMA-262, "Date
    Objects"): a date holds a time value in milliseconds since the epoch, or
    [NaN] (here [None]) when invalid. *)

Module JsDate.

Definition msPerDay : Z := 86400000.
Definition msPerHour : Z := 3600000.
Definition msPerMinute : Z := 60000.
Definition msPerSecond : Z := 1000.

Definition Day (t : Z) : Z := t / msPerDay.
Definition TimeWithinDay (t : Z) : Z := t mod msPerDay.

Definition DayFromYear (y : Z) : Z :=
  365 * (y - 1970) + (y - 1969) / 4 - (y - 1901) / 100 + (y - 1601) / 400.

Definition DaysInYear (y : Z) : Z := DayFromYear (y + 1) - DayFromYear y.

(** The largest [y] whose first day is not after [t]: the mean Gregorian year
    gives an estimate that is off by at most one. *)
Definition YearFromTime (t : Z) : Z :=
  let d := Day t in
  let y := 1970 + d * 400 / 146097 in
  if DayFromYear (y + 1) <=? d then y + 1
  else if DayFromYear y <=? d then y
  else y - 1.

Definition InLeapYear (t : Z) : Z := DaysInYear (YearFromTime t) - 365.

Definition DayWithinYear (t : Z) : Z := Day t - DayFromYear (YearFromTime t).

(** Day number, within its year, of the first day of month [m] (0-based). *)
Definition monthStart (m leap : Z) : Z :=
  if m <=? 0 then 0
  else if m =? 1 then 31
  else if m =? 2 then 59 + leap
  else if m =? 3 then 90 + leap
  else if m =? 4 then 120 + leap
  else if m =? 5 then 151 + leap
  else if m =? 6 then 181 + leap
  else if m =? 7 then 212 + leap
  else if m =? 8 then 243 + leap
  else if m =? 9 then 273 + leap
  else if m =? 10 then 304 + leap
  else 334 + leap.

Definition MonthFromTime (t : Z) : Z :=
  let d := DayWithinYear t in
  let leap := InLeapYear t in
  if d <? 31 then 0
  else if d <? 59 + leap then 1
  else if d <? 90 + leap then 2
  else if d <? 120 + leap then 3
  else if d <? 151 + leap then 4
  else if d <? 181 + leap then 5
  else if d <? 212 + leap then 6
  else if d <? 243 + leap then 7
  else if d <? 273 + leap then 8
  else if d <? 304 + leap then 9
  else if d <? 334 + leap then 10
  else 11.

Definition DateFromTime (t : Z) : Z :=
  DayWithinYear t - monthStart (MonthFromTime t) (InLeapYear t) + 1.

Definition HourFromTime (t : Z) : Z := (t / msPerHour) mod 24.
Definition MinFromTime (t : Z) : Z := (t / msPerMinute) mod 60.
Definition SecFromTime (t : Z) : Z := (t / msPerSecond) mod 60.
Definition msFromTime (t : Z) : Z := t mod msPerSecond.

Definition MakeTime (hour min sec ms : Z) : Z :=
  hour * msPerHour + min * msPerMinute + sec * msPerSecond + ms.

Definition MakeDay (year month date : Z) : Z :=
  let ym := year + month / 12 in
  let mn := month mod 12 in
  DayFromYear ym + monthStart mn (DaysInYear ym - 365) + date - 1.

Definition MakeDate (day time : Z) : Z := day * msPerDay + time.

Definition TimeClip (t : Z) : option Z :=
  if Z.abs t <=? 8640000000000000 then Some t else None.

(** [Date.prototype.toISOString] on a finite time value. *)
Definition pad (width : nat) (n : Z) : string :=
  let s := pretty n in
  String.concat "" (replicate (width - String.length s) "0") +:+ s.

Definition isoYear (y : Z) : string :=
  if (0 <=? y) && (y <=? 9999) then pad 4 y
  else (if y <? 0 then "-" else "+") +:+ pad 6 (Z.abs y).

Definition isoTime (t : Z) : string :=
  "T" +:+ pad 2 (HourFromTime t) +:+ ":" +:+ pad 2 (MinFromTime t) +:+ ":" +:+
  pad 2 (SecFromTime t) +:+ "." +:+ pad 3 (msFromTime t) +:+ "Z".

Definition isoString (t : Z) : string :=
  isoYear (YearFromTime t) +:+ "-" +:+ pad 2 (MonthFromTime t + 1) +:+ "-" +:+
  pad 2 (DateFromTime t) +:+ isoTime t.

Section Zone.

(** [LocalTZA(t, isUTC)]: the offset of local time, in milliseconds, at the
    UTC instant [t] ([isUTC = true]) or at the local time [t]. *)
Variable LocalTZA : Z -> bool -> Z.

Definition LocalTime (t : Z) : Z := t + LocalTZA t true.
Definition UTC (t : Z) : Z := t - LocalTZA t false.

(** [date.getDate()] *)
Definition getDate (tv : option Z) : option Z :=
  (fun t => DateFromTime (LocalTime t)) <$> tv.

(** [date.setDate(dt)]: the new time value ([dt = None] is [NaN]). *)
Definition setDate (tv : option Z) (dt : option Z) : option Z :=
  match tv, dt with
  | Some t, Some d =>
      let t := LocalTime t in
      let newDate :=
        MakeDate (MakeDay (YearFromTime t) (MonthFromTime t) d)
                 (TimeWithinDay t) in
      TimeClip (UTC newDate)
  | _, _ => None
  end.

(** [date.setHours(hour, min, sec, ms)] *)
Definition setHours (tv : option Z) (hour min sec ms : Z) : option Z :=
  match tv with
  | Some t =>
      let t := LocalTime t in
      let date := MakeDate (Day t) (MakeTime hour min sec ms) in
      TimeClip (UTC date)
  | None => None
  end.

End Zone.

(** [date.toISOString()] throws on an invalid date. *)
Definition toISOString (tv : option Z) : Js.Completion string :=
  match tv with
  | Some t => Js.Normal (isoString t)
  | None => Js.Throw (Js.RangeError "Invalid time value")
  end.

End JsDate.

(** ** The shared HTTP client ([src/api/axios.js]) *)

Module Http.
Import Js.

Inductive Method := GET | POST | PUT.

(** The [params] option of a call: absent, a [URLSearchParams] (an ordered
    list of name/value strings) or a plain object. *)
Inductive Params :=
| NoParams
| SearchParams (ps : list (string * string))
| ObjectParams (o : gmap string JsVal).

Record Request := mkRequest {
  method : Method;
  url : string;
  body : JsVal;              (* [JUndefined] when the call passes no data *)
  params : Params;
  signal : JsVal
}.

(** [axios.create({...})]: the defaults every call of the instance carries. *)
Record InstanceConfig := mkInstance {
  baseURL : string;
  timeout : Z;
  contentType : string;
  withCredentials : bool
}.

Definition axiosInstance : InstanceConfig :=
  {| baseURL := "http://localhost:8080/api";
     timeout := 10000;
     contentType := "application/json";
     withCredentials := false |}.

(** What the transport settles a request with. *)
Definition AxiosResult : Type := JsError + AxiosResponse.

(** The arguments of one [console.error] call. *)
Inductive LogItem :=
| LStr (s : string)
| LVal (v : JsVal)
| LResponse (r : AxiosResponse)
| LError (e : JsError).

(** The observable effects: requests handed to the transport and console
    lines, oldest first. *)
Record World := mkWorld {
  requests : list Request;
  console : list (list LogItem)
}.

Definition Op (A : Type) : Type := World -> Completion A * World.

Definition ret {A} (a : A) : Op A := fun w => (Normal a, w).

Definition throw {A} (e : JsError) : Op A := fun w => (Throw e, w).

Definition bind {A B} (c : Op A) (k : A -> Op B) : Op B :=
  fun w =>
    match c w with
    | (Normal a, w') => k a w'
    | (Throw e, w') => (Throw e, w')
    end.

(** [try { body } catch (error) { handler }] *)
Definition try_catch {A} (body : Op A) (handler : JsError -> Op A) : Op A :=
  fun w =>
    match body w with
    | (Normal a, w') => (Normal a, w')
    | (Throw e, w') => handler e w'
    end.

Definition lift {A} (c : Completion A) : Op A := fun w => (c, w).

Definition console_error (line : list LogItem) : Op unit :=
  fun w => (Normal tt, {| requests := requests w;
                          console := console w ++ [line] |}).

Definition transmit (rq : Request) : Op unit :=
  fun w => (Normal tt, {| requests := requests w ++ [rq];
                          console := console w |}).

Declare Scope op_scope.
Delimit Scope op_scope with op.
Notation "'let*' x ':=' c 'in' k" := (bind c (fun x => k))
  (at level 10, x name, c at level 100, k at level 200) : op_scope.
Notation "c ';;' k" := (bind c (fun _ => k))
  (at level 100, k at level 200, right associativity) : op_scope.

#[local] Open Scope op_scope.

(** [array.map(callback)] with a callback that may throw. *)
Fixpoint mapM {A B} (f : A -> Op B) (l : list A) : Op (list B) :=
  match l with
  | [] => ret []
  | x :: r => let* y := f x in let* ys := mapM f r in ret (y :: ys)
  end.

(** The response interceptor installed on the instance. *)
Definition onFulfilled (response : AxiosResponse) : Op AxiosResponse :=
  ret response.

Definition onRejected (error : JsError) : Op AxiosResponse :=
  (match response error with
   | Some r =>
       if status r =? 500 then
         console_error [LStr "Server Error:"; LVal (data r)]
       else if status r =? 404 then
         match config error with
         | Some u => console_error [LStr "API Not Found:"; LStr u]
         | None =>
             throw (TypeError
                      "Cannot read properties of undefined (reading 'url')")
         end
       else
         console_error [LStr ("Error: " +:+ pretty (status r)); LVal (data r)]
   | None =>
       match code error with
       | Some c =>
           if String.eqb c "ERR_NETWORK" then
             console_error
               [LStr "Network Error: Cannot connect to backend server"]
           else ret tt
       | None => ret tt
       end
   end) ;;
  throw error.

Definition interceptResponse (res : AxiosResult) : Op AxiosResponse :=
  match res with
  | inr response => onFulfilled response
  | inl error => onRejected error
  end.

(** What the runtime and the backend decide. *)
Record Runtime := mkRuntime {
  now : Z;                                  (* the clock read by [new Date()] *)
  LocalTZA : Z -> bool -> Z;                (* the time zone *)
  dateParse : string -> option Z;           (* [Date.parse] *)
  localeDate : Z -> string;                 (* [toLocaleDateString] *)
  StringToNumber : string -> Number;        (* [Number(string)] *)
  backend : Request -> AxiosResult          (* how the transport settles *)
}.

Section Client.
Variable rt : Runtime.

(** One call through the instance: the request goes to the transport and
    its outcome through the interceptor. *)
Definition request (rq : Request) : Op AxiosResponse :=
  transmit rq ;; interceptResponse (backend rt rq).

Definition axios_get (u : string) (ps : Params) (sig : JsVal)
  : Op AxiosResponse :=
  request {| method := GET; url := u; body := JUndefined; params := ps;
             signal := sig |}.

Definition axios_post (u : string) (d : JsVal) (ps : Params)
  : Op AxiosResponse :=
  request {| method := POST; url := u; body := d; params := ps;
             signal := JUndefined |}.

Definition axios_put (u : string) (d : JsVal) (ps : Params)
  : Op AxiosResponse :=
  request {| method := PUT; url := u; body := d; params := ps;
             signal := JUndefined |}.

(** [ToNumber], and [new Date(value)] / [new Date()]. *)
Definition ToNumber (v : JsVal) : Number :=
  match v with
  | JUndefined => JsNumber.NaN
  | JNull => 0
  | JBool b => if b then 1 else 0
  | JNum x => x
  | JStr s => StringToNumber rt s
  | JArr _ | JObj _ => StringToNumber rt (ToString v)
  end.

Definition new_Date (v : JsVal) : option Z :=
  match v with
  | JStr s => dateParse rt s ≫= JsDate.TimeClip
  | JArr _ | JObj _ => dateParse rt (ToString v) ≫= JsDate.TimeClip
  | _ => JsNumber.truncate (ToNumber v) ≫= JsDate.TimeClip
  end.

Definition new_Date_now : option Z := JsDate.TimeClip (now rt).

(** [date.toLocaleDateString()] *)
Definition toLocaleDateString (tv : option Z) : string :=
  match tv with
  | Some t => localeDate rt t
  | None => "Invalid Date"
  end.

End Client.

End Http.

(** ** The bid service ([src/services/bidService.jsx]) *)

Module BidService.
Import Js Http.
#[local] Open Scope op_scope.

(** [this.baseURL] *)
Definition baseURL : string := "/bids".

(** [error.response?.data?.message] *)
Definition backendMessage (error : JsError) : JsVal :=
  match response error with
  | Some r => getPropOpt (data r) "message"
  | None => JUndefined
  end.

(** [error.code === c] *)
Definition code_is (error : JsError) (c : string) : bool :=
  match code error with
  | Some c' => String.eqb c' c
  | None => false
  end.

(** [error.response?.status === n] and [error.response?.status >= n] *)
Definition status_is (error : JsError) (n : Z) : bool :=
  match response error with
  | Some r => status r =? n
  | None => false
  end.

Definition status_ge (error : JsError) (n : Z) : bool :=
  match response error with
  | Some r => n <=? status r
  | None => false
  end.

Definition handleError (error : JsError) : Op JsError :=
  console_error [LStr "API Error:";
                 match response error with
                 | Some r => LResponse r
                 | None => LError error
                 end] ;;
  if truthy (backendMessage error) then
    ret (new_Error (ToString (backendMessage error)))
  else if code_is error "ERR_NETWORK" then
    ret (new_Error "Cannot connect to server. Please check your connection.")
  else if code_is error "ECONNABORTED" then
    ret (new_Error "Request timeout - please try again.")
  else if status_is error 400 then
    ret (new_Error "Invalid request. Please check your input.")
  else if status_is error 401 then
    ret (new_Error "Please log in to continue.")
  else if status_is error 403 then
    ret (new_Error "You do not have permission to perform this action.")
  else if status_is error 404 then
    ret (new_Error "The requested resource was not found.")
  else if status_is error 409 then
    ret (new_Error "This operation conflicts with an existing resource.")
  else if status_ge error 500 then
    ret (new_Error "Server error. Please try again later.")
  else
    ret (new_Error (ToString (or_else (JStr (message error))
                                      (JStr "An unexpected error occurred.")))).

(** [catch (error) { throw this.handleError(error); }] *)
Definition rethrow_handled {A} (error : JsError) : Op A :=
  let* e := handleError error in throw e.

Section Service.
Variable rt : Runtime.

Definition createBid (bidCreateRequest : JsVal) : Op JsVal :=
  try_catch
    (let* farmerNic := lift (getProp bidCreateRequest "farmerNic") in
     if negb (truthy farmerNic) then
       throw (new_Error "Farmer NIC is required")
     else
       let* hd := lift (getProp bidCreateRequest "harvestDate") in
       let harvestDate := new_Date rt hd in
       let harvestDate :=
         JsDate.setHours (LocalTZA rt) harvestDate 12 0 0 0 in
       let* iso := lift (JsDate.toISOString harvestDate) in
       let* response :=
         axios_post rt baseURL
           (JObj (<["status" := JStr "ACTIVE"]>
                    (<["harvestDate" := JStr iso]>
                       (ownProps bidCreateRequest))))
           NoParams in
       ret (data response))
    rethrow_handled.

(** [x > 0] *)
Definition greater_than_zero (x : JsVal) : bool :=
  JsNumber.lessThan 0 (ToNumber rt x).

(** The callback of [response.data.map] in [getAllBids]. *)
Definition decorateBid (bid : JsVal) : Op JsVal :=
  let* bo := lift (getProp bid "bidOffers") in
  let bidOffers := or_else bo (JArr []) in
  let* winningBuyerNic := lift (getProp bid "winningBuyerNic") in
  let* buyerNic :=
    if truthy winningBuyerNic then ret winningBuyerNic
    else
      let* offers := lift (getProp bid "bidOffers") in
      let* nonEmpty :=
        if truthy offers then
          let* len := lift (getProp offers "length") in
          ret (greater_than_zero len)
        else ret false in
      if (nonEmpty : bool) then
        match offers with
        | JArr l =>
            let* nics :=
              mapM (fun offer => lift (getProp offer "buyerNic")) l in
            ret (JStr (join ", " nics))
        | _ => throw (TypeError "bid.bidOffers.map is not a function")
        end
      else ret (JStr "-") in
  let* winningBidAmount := lift (getProp bid "winningBidAmount") in
  let* postedDate := lift (getProp bid "postedDate") in
  let createdAt :=
    if truthy postedDate then toLocaleDateString rt (new_Date rt postedDate)
    else "Invalid Date" in
  ret (JObj (<["createdAt" := JStr createdAt]>
            (<["winningBidPrice" := or_else winningBidAmount JNull]>
            (<["buyerNic" := buyerNic]>
            (<["bidOffers" := bidOffers]> (ownProps bid)))))).

(** [response.data.map(...)] *)
Definition map_data (d : JsVal) : Op JsVal :=
  match d with
  | JArr bids => let* out := mapM decorateBid bids in ret (JArr out)
  | JUndefined | JNull =>
      throw (TypeError ("Cannot read properties of " +:+ ToString d +:+
                        " (reading 'map')"))
  | _ => throw (TypeError "response.data.map is not a function")
  end.

Definition getAllBids_body (sig : JsVal) (filters : gmap string JsVal)
  : Op JsVal :=
  try_catch
    (let params : list (string * string) := [] in
     let status := prop filters "status" in
     let params :=
       if truthy status && negb (strict_eq_str status "all")
       then params ++ [("status", ToString status)]
       else params in
     let dateRange := prop filters "dateRange" in
     let* params :=
       if truthy dateRange then
         let days := parseInt dateRange in
         let fromDate := new_Date_now rt in
         (* the day of the month less the count of days: a difference of
            integers, exact for every count that leaves the date in range *)
         let day :=
           d ← JsDate.getDate (LocalTZA rt) fromDate;
           n ← days;
           Some (d - n) in
         let fromDate := JsDate.setDate (LocalTZA rt) fromDate day in
         let* iso := lift (JsDate.toISOString fromDate) in
         ret (params ++ [("fromDate", iso)])
       else ret params in
     let searchTerm := prop filters "searchTerm" in
     let params :=
       if truthy searchTerm
       then params ++ [("searchTerm", ToString searchTerm)]
       else params in
     let* response :=
       axios_get rt (baseURL +:+ "/admin/all") (SearchParams params) sig in
     map_data (data response))
    rethrow_handled.

(** [async getAllBids({ signal, ...filters } = {})]: the parameter is
    destructured before the [try] block is entered. *)
Definition getAllBids (arg : JsVal) : Op JsVal :=
  let arg := match arg with JUndefined => JObj ∅ | _ => arg end in
  match arg with
  | JNull =>
      throw (TypeError
               "Cannot destructure property 'signal' of 'object null' as it is null.")
  | _ =>
      getAllBids_body (getPropOpt arg "signal")
                      (delete "signal" (ownProps arg))
  end.

(** The test of the reducer in [getFilteredBids]. *)
Definition keepFilter (value : JsVal) : bool :=
  truthy value && negb (strict_eq_str value "ALL")
    && negb (strict_eq_str value "").

Definition getFilteredBids (filters : JsVal) : Op JsVal :=
  let filters := match filters with JUndefined => JObj ∅ | _ => filters end in
  try_catch
    (let* entries :=
       match filters with
       | JNull =>
           throw (TypeError "Cannot convert undefined or null to object")
       | _ => ret (ownProps filters)
       end in
     let cleanFilters : gmap string JsVal :=
       filter (fun kv => Is_true (keepFilter (snd kv))) entries in
     let* response :=
       axios_get rt (baseURL +:+ "/active") (ObjectParams cleanFilters)
                 JUndefined in
     ret (data response))
    rethrow_handled.

Definition getFarmerBids (farmerNic : JsVal) : Op JsVal :=
  try_catch
    (if negb (truthy farmerNic) then
       throw (new_Error "Farmer NIC is required")
     else
       let* response :=
         axios_get rt (baseURL +:+ "/farmer/" +:+ ToString farmerNic)
                   NoParams JUndefined in
       ret (data response))
    rethrow_handled.

Definition getBuyerWinningBids (buyerNic : JsVal) : Op JsVal :=
  try_catch
    (if negb (truthy buyerNic) then
       throw (new_Error "Buyer NIC is required")
     else
       let* response :=
         axios_get rt (baseURL +:+ "/buyer/" +:+ ToString buyerNic
                         +:+ "/winning")
                   NoParams JUndefined in
       ret (data response))
    (fun error =>
       console_error [LStr "Error in getBuyerWinningBids:"; LError error] ;;
       rethrow_handled error).

Definition getBidDetails (bidId : JsVal) : Op JsVal :=
  try_catch
    (if negb (truthy bidId) then
       throw (new_Error "Bid ID is required")
     else
       let* response :=
         axios_get rt (baseURL +:+ "/" +:+ ToString bidId)
                   NoParams JUndefined in
       ret (data response))
    rethrow_handled.

Definition placeBid (bidOfferRequest : JsVal) : Op JsVal :=
  try_catch
    (let* missing :=
       let* bidId := lift (getProp bidOfferRequest "bidId") in
       if negb (truthy bidId) then ret true
       else
         let* buyerNic := lift (getProp bidOfferRequest "buyerNic") in
         if negb (truthy buyerNic) then ret true
         else
           let* bidAmount := lift (getProp bidOfferRequest "bidAmount") in
           ret (negb (truthy bidAmount)) in
     if (missing : bool) then
       throw (new_Error "Bid ID, Buyer NIC, and bid amount are required")
     else
       let* response :=
         axios_post rt (baseURL +:+ "/offer") bidOfferRequest NoParams in
       ret (data response))
    rethrow_handled.

Definition acceptBidOffer (bidId buyerNic : JsVal) : Op JsVal :=
  try_catch
    (if negb (truthy bidId) || negb (truthy buyerNic) then
       throw (new_Error "Bid ID and Buyer NIC are required")
     else
       let* response :=
         axios_post rt (baseURL +:+ "/" +:+ ToString bidId
                          +:+ "/accept-offer")
                    JNull (ObjectParams {[ "buyerNic" := buyerNic ]}) in
       ret (data response))
    (fun error =>
       if status_is error 500 then
         throw (new_Error
                  "Server error while processing the offer. Please try again.")
       else rethrow_handled error).

Definition cancelBid (bidId : JsVal) : Op JsVal :=
  try_catch
    (if negb (truthy bidId) then
       throw (new_Error "Bid ID is required")
     else
       let* response :=
         axios_post rt (baseURL +:+ "/" +:+ ToString bidId +:+ "/cancel")
                    JUndefined NoParams in
       ret (data response))
    rethrow_handled.

Definition updateBidStatus (bidId status : JsVal) : Op JsVal :=
  try_catch
    (if negb (truthy bidId) || negb (truthy status) then
       throw (new_Error "Bid ID and status are required")
     else
       let* response :=
         axios_put rt (baseURL +:+ "/admin/" +:+ ToString bidId
                         +:+ "/status")
                   JNull (ObjectParams {[ "status" := status ]}) in
       ret (data response))
    rethrow_handled.

Definition forceCompleteBid (bidId buyerNic amount : JsVal) : Op JsVal :=
  try_catch
    (if negb (truthy bidId) || negb (truthy buyerNic)
        || negb (truthy amount) then
       throw (new_Error "Bid ID, Buyer NIC, and amount are required")
     else
       let* response :=
         axios_put rt (baseURL +:+ "/admin/" +:+ ToString bidId
                         +:+ "/force-complete")
                   JNull
                   (ObjectParams (<["amount" := amount]>
                                    {[ "buyerNic" := buyerNic ]})) in
       ret (data response))
    rethrow_handled.

Definition getBidStatistics : Op JsVal :=
  try_catch
    (let* response :=
       axios_get rt (baseURL +:+ "/admin/statistics") NoParams JUndefined in
     ret (data response))
    rethrow_handled.

End Service.

(** [formatBidData(bid)]: a plain method, outside any [try] block.  The
    currency formatter [new Intl.NumberFormat('en-US', {style: 'currency',
    currency: 'LKR', minimumFractionDigits: 2}).format] is the runtime's and
    is taken as [formatCurrency]. *)
Definition formatBidData (rt : Runtime) (formatCurrency : JsVal -> string)
    (bid : JsVal) : Completion JsVal :=
  match getProp bid "createdAt" with
  | Throw e => Throw e
  | Normal createdAt =>
      let formattedDate :=
        if truthy createdAt
        then toLocaleDateString rt (new_Date rt createdAt)
        else EmptyString in
      match getProp bid "minimumPrice" with
      | Throw e => Throw e
      | Normal minimumPrice =>
          Normal (JObj (<["formattedPrice" :=
                            JStr (formatCurrency minimumPrice)]>
                       (<["formattedDate" := JStr formattedDate]>
                          (ownProps bid))))
      end
  end.

End BidService.

(** ** The allocation list component *)

Module AllocationList.
Import Js Http.

(** An allocation, typed as the component's [propTypes] declare it. *)
Record Allocation := mkAllocation {
  id : Number;
  farmerNic : string;
  allocatedAmount : Number;
  season : string;
  year : Number;
  distributionDate : option string;
  distributionLocation : option string;
  status : string
}.

Definition getStatusColor (status : string) : string :=
  if String.eqb status "PENDING" then "bg-yellow-100 text-yellow-800"
  else if String.eqb status "READY" then "bg-blue-100 text-blue-800"
  else if String.eqb status "COLLECTED" then "bg-green-100 text-green-800"
  else if String.eqb status "EXPIRED" then "bg-red-100 text-red-800"
  else "bg-gray-100 text-gray-800".

(** A table row: its key, the text of its cells and the class of the status
    badge. *)
Record Row := mkRow {
  key : Number;
  cells : list string;
  badgeClass : string
}.

(** A button: whether it is disabled and the page its [onClick] hands to
    [onPageChange]. *)
Record Button := mkButton {
  disabled : bool;
  onClick : Number
}.

Record View := mkView {
  rows : list Row;
  previous : Button;
  next : Button
}.

Section Component.
Variable rt : Runtime.
(** The text date-fns gives a valid date for the pattern ['MMM dd, yyyy']. *)
Variable formatted : Z -> string.

(** [format(date, 'MMM dd, yyyy')] of date-fns throws on an invalid date. *)
Definition format (date : option Z) : Completion string :=
  match date with
  | Some t => Normal (formatted t)
  | None => Throw (RangeError "Invalid time value")
  end.

(** The callback of [allocations.map]. *)
Definition row (allocation : Allocation) : Completion Row :=
  match
    match distributionDate allocation with
    | Some d =>
        if negb (String.eqb d "") then format (new_Date rt (JStr d))
        else Normal "Not Set"
    | None => Normal "Not Set"
    end
  with
  | Throw e => Throw e
  | Normal shown =>
      Normal
        {| key := id allocation;
           cells :=
             [ farmerNic allocation;
               JsNumber.toString (allocatedAmount allocation) +:+ " kg";
               season allocation +:+ " " +:+
                 JsNumber.toString (year allocation);
               shown;
               default "" (distributionLocation allocation);
               status allocation ];
           badgeClass :=
             "px-2 py-1 text-xs rounded-full " +:+
             getStatusColor (status allocation) |}
  end.

(** [allocations.map(...)]: the first row that throws ends the rendering. *)
Fixpoint map_rows (allocations : list Allocation) : Completion (list Row) :=
  match allocations with
  | [] => Normal []
  | allocation :: rest =>
      match row allocation with
      | Throw e => Throw e
      | Normal r =>
          match map_rows rest with
          | Throw e => Throw e
          | Normal rs => Normal (r :: rs)
          end
      end
  end.

(** The two pagination buttons. *)
Definition previousButton (currentPage : Number) : Button :=
  {| disabled := JsNumber.equal currentPage 0;
     onClick := JsNumber.subtract currentPage 1 |}.

Definition nextButton (currentPage : Number) : Button :=
  {| disabled := false; onClick := JsNumber.add currentPage 1 |}.

(** [AllocationList({ allocations = [], onPageChange = () => {},
    currentPage = 0 })]: a prop left out is [None]. *)
Definition AllocationList (allocations : option (list Allocation))
    (currentPage : option Number) : Completion View :=
  let allocations := default [] allocations in
  let currentPage := default (JsNumber.Int 0) currentPage in
  match map_rows allocations with
  | Throw e => Throw e
  | Normal rs =>
      Normal {| rows := rs;
                previous := previousButton currentPage;
                next := nextButton currentPage |}
  end.

End Component.

(** A click on a button: a disabled button fires no event; otherwise
    [onPageChange] is invoked with the returned page. *)
Definition click (b : Button) : option Number :=
  if disabled b then None else Some (onClick b).

(** One step of navigation: the list rendered page [p], one of its two
    controls is clicked and [onPageChange] receives [q], the page shown
    next. *)
Inductive page_step (p q : Number) : Prop :=
| step_previous (rt : Runtime) (formatted : Z -> string)
    (allocations : option (list Allocation)) (view : View) :
    AllocationList rt formatted allocations (Some p) = Normal view ->
    click (previous view) = Some q ->
    page_step p q
| step_next (rt : Runtime) (formatted : Z -> string)
    (allocations : option (list Allocation)) (view : View) :
    AllocationList rt formatted allocations (Some p) = Normal view ->
    click (next view) = Some q ->
    page_step p q.

End AllocationList.

(** ** The fertilizer routes ([src/routes/fertilizer.jsx]) *)

Module FertilizerRoutes.
Import Js.

(** The elements the routes render. *)
Inductive Element :=
| AdminFertilizerDashboard
| AdminFertilizerAllocations
| FarmerFertilizerDashboard
| FarmerFertilizerAllocations
| Navigate (to : string) (replace : bool).

Record Route := mkRoute {
  path : string;
  element : Element
}.

(** The children of [<Routes>] for the [user] that [useAuth()] returns. *)
Definition FertilizerRoutes (user : JsVal) : list Route :=
  (if strict_eq_str (getPropOpt user "role") "ADMIN" then
     [ {| path := "dashboard"; element := AdminFertilizerDashboard |};
       {| path := "allocations"; element := AdminFertilizerAllocations |} ]
   else
     [ {| path := "dashboard"; element := FarmerFertilizerDashboard |};
       {| path := "allocations"; element := FarmerFertilizerAllocations |} ])
  ++ [ {| path := "*"; element := Navigate "dashboard" true |} ].

Definition is_admin_element (e : Element) : bool :=
  match e with
  | AdminFertilizerDashboard | AdminFertilizerAllocations => true
  | _ => false
  end.

End FertilizerRoutes.

(** ** Vocabulary of the properties *)

Import Js Http BidService.

(** An operation fails with the validation error [msg] and hands nothing to
    the transport. *)
Definition fails_before_network {A} (op : Op A) (msg : string) : Prop :=
  forall w, fst (op w) = Throw (new_Error msg) /\
            requests (snd (op w)) = requests w.

(** A property [k] that the object does not carry. *)
Definition absent (o : gmap string JsVal) (k : string) : Prop := o !! k = None.

(** Errors as axios raises them: one that carries a response also carries the
    configuration of the request it answers. *)
Definition axios_raised (e : JsError) : Prop :=
  response e <> None -> config e <> None.

(** A runtime in the UTC zone with a fixed clock, for concrete runs. *)
Definition utcRuntime (clock : Z) (answer : Request -> AxiosResult) : Runtime :=
  {| now := clock;
     LocalTZA := fun _ _ => 0;
     dateParse := fun _ => None;
     localeDate := JsDate.isoString;
     StringToNumber := fun _ => JsNumber.NaN;
     backend := answer |}.

Definition world0 : World := {| requests := []; console := [] |}.

Definition ok (d : JsVal) : AxiosResult := inr {| status := 200; data := d |}.

(** The rejection axios raises for an answer with an error status. *)
Definition httpError (st : Z) (d : JsVal) (u : string) : JsError :=
  {| name := "AxiosError";
     message := "Request failed with status code " +:+ pretty st;
     code := Some (if st <? 500 then "ERR_BAD_REQUEST" else "ERR_BAD_RESPONSE");
     config := Some u;
     response := Some {| status := st; data := d |} |}.

(** The rejection axios raises when the server cannot be reached. *)
Definition networkError (u : string) : JsError :=
  {| name := "AxiosError"; message := "Network Error";
     code := Some "ERR_NETWORK"; config := Some u; response := None |}.

(** The error [handleError] returns for [e] (its console line left aside). *)
Definition normalized (e : JsError) : JsError :=
  match fst (handleError e world0) with
  | Normal e' => e'
  | Throw e' => e'
  end.

(** The invocations of the service. *)
Inductive Call :=
| CreateBid (bidCreateRequest : JsVal)
| GetAllBids (arg : JsVal)
| GetFilteredBids (filters : JsVal)
| GetFarmerBids (farmerNic : JsVal)
| GetBuyerWinningBids (buyerNic : JsVal)
| GetBidDetails (bidId : JsVal)
| PlaceBid (bidOfferRequest : JsVal)
| AcceptBidOffer (bidId buyerNic : JsVal)
| CancelBid (bidId : JsVal)
| UpdateBidStatus (bidId status : JsVal)
| ForceCompleteBid (bidId buyerNic amount : JsVal)
| GetBidStatistics.

Definition invoke (rt : Runtime) (c : Call) : Op JsVal :=
  match c with
  | CreateBid r => createBid rt r
  | GetAllBids a => getAllBids rt a
  | GetFilteredBids f => getFilteredBids rt f
  | GetFarmerBids n => getFarmerBids rt n
  | GetBuyerWinningBids n => getBuyerWinningBids rt n
  | GetBidDetails i => getBidDetails rt i
  | PlaceBid r => placeBid rt r
  | AcceptBidOffer i n => acceptBidOffer rt i n
  | CancelBid i => cancelBid rt i
  | UpdateBidStatus i s => updateBidStatus rt i s
  | ForceCompleteBid i n a => forceCompleteBid rt i n a
  | GetBidStatistics => getBidStatistics rt
  end.

Definition is_accept (c : Call) : bool :=
  match c with AcceptBidOffer _ _ => true | _ => false end.

(** The invocation [c], started in [w], handed exactly the request [rq] to
    the transport, which settled it with the error [e]. *)
Definition call_failed_with (rt : Runtime) (c : Call) (w : World)
    (rq : Request) (e : JsError) : Prop :=
  requests (snd (invoke rt c w)) = requests w ++ [rq] /\
  backend rt rq = inl e /\ axios_raised e.

(** The names of the parameters of a query. *)
Definition param_names (ps : list (string * string)) : list string :=
  map fst ps.

(** The world after [rq] was handed to the transport. *)
Definition sent (rq : Request) (w : World) : World :=
  {| requests := requests w ++ [rq]; console := console w |}.

(** The cases [handleError] tells apart once the backend sent no message of
    its own: by transport code, by HTTP status, or none of them. *)
Definition no_backend_message (e : JsError) : bool :=
  negb (truthy (backendMessage e)).

Definition network_unreachable (e : JsError) : bool :=
  no_backend_message e && code_is e "ERR_NETWORK".

Definition answered_with (n : Z) (e : JsError) : bool :=
  no_backend_message e && negb (code_is e "ERR_NETWORK") &&
  negb (code_is e "ECONNABORTED") && status_is e n.

Definition unclassified (e : JsError) : bool :=
  no_backend_message e && negb (code_is e "ERR_NETWORK") &&
  negb (code_is e "ECONNABORTED") &&
  negb (status_is e 400) && negb (status_is e 401) &&
  negb (status_is e 403) && negb (status_is e 404) &&
  negb (status_is e 409) && negb (status_ge e 500).

(** The backend of the runs below: every request is answered with status
    [st] and body [d]. *)
Definition failing (st : Z) (d : JsVal) (rq : Request) : AxiosResult :=
  inl (httpError st d (url rq)).

(** A bid record as the backend sends it: an object whose [bidOffers] is
    either left out ([undefined] or [null]) or an array of offers, each an
    object with a [buyerNic] string. *)
Definition received_offers (b : gmap string JsVal) : option (list JsVal) :=
  match b !! "bidOffers" with
  | None | Some JUndefined | Some JNull => Some []
  | Some (JArr l) => Some l
  | Some _ => None
  end.

Definition offer_buyers (offers : list JsVal) (ids : list string) : Prop :=
  Forall2 (fun offer id =>
             exists o, offer = JObj o /\ o !! "buyerNic" = Some (JStr id))
          offers ids.

Definition bid_record (bid : JsVal) (b : gmap string JsVal)
    (offers : list JsVal) (ids : list string) : Prop :=
  bid = JObj b /\ received_offers b = Some offers /\ offer_buyers offers ids.

(** The display buyer of a record with the buyers [ids] of its offers. *)
Definition display_buyer (b : gmap string JsVal) (ids : list string) : JsVal :=
  if truthy (prop b "winningBuyerNic") then prop b "winningBuyerNic"
  else match ids with
       | [] => JStr "-"
       | _ => JStr (String.concat ", " ids)
       end.

(** Time values a [Date] can hold. *)
Definition in_range (t : Z) : Prop := Z.abs t <= 8640000000000000.

(** A runtime in Sri Lanka's zone (UTC+05:30, no daylight saving). *)
Definition colomboRuntime (clock : Z) (answer : Request -> AxiosResult)
  : Runtime :=
  {| now := clock;
     LocalTZA := fun _ _ => 19800000;
     dateParse := fun _ => None;
     localeDate := fun t => JsDate.isoString (t + 19800000);
     StringToNumber := fun _ => JsNumber.NaN;
     backend := answer |}.

(** Sample data of the concrete runs. *)
Definition sampleCreateRequest : gmap string JsVal :=
  {[ "farmerNic" := JStr "851234567V";
     "harvestDate" := JNum 1700000000000;
     "minimumPrice" := JNum 120;
     "status" := JStr "COMPLETED" ]}.

Definition sampleBids : list JsVal :=
  [ JObj {[ "id" := JNum 1; "winningBuyerNic" := JStr "901234567V";
            "bidOffers" := JArr [JObj {[ "buyerNic" := JStr "901234567V" ]}] ]};
    JObj {[ "id" := JNum 2;
            "bidOffers" := JArr [JObj {[ "buyerNic" := JStr "911111111V" ]};
                                 JObj {[ "buyerNic" := JStr "922222222V" ]}] ]};
    JObj {[ "id" := JNum 3 ]} ].

Definition listRequest (ps : list (string * string)) : Request :=
  {| method := GET; url := "/bids/admin/all"; body := JUndefined;
     params := SearchParams ps; signal := JUndefined |}.

(** An allocation whose distribution date is set and does not parse. *)
Definition unreadable (rt : Runtime) (allocation : AllocationList.Allocation)
  : bool :=
  match AllocationList.distributionDate allocation with
  | Some d =>
      negb (String.eqb d "") &&
      match new_Date rt (JStr d) with Some _ => false | None => true end
  | None => false
  end.

(** The text of the date cell of an allocation that can be shown. *)
Definition date_cell (rt : Runtime) (formatted : Z -> string)
    (allocation : AllocationList.Allocation) : option string :=
  match AllocationList.distributionDate allocation with
  | Some d =>
      if String.eqb d "" then Some "Not Set"
      else formatted <$> new_Date rt (JStr d)
  | None => Some "Not Set"
  end.

(** The page indices: the integers from 0 that a Number counts exactly. *)
Definition page_index (n : Z) : Prop := 0 <= n <= 2 ^ 53.

(** A call without abort signal. *)
Definition plainRequest (m : Method) (u : string) (d : JsVal) (ps : Params)
  : Request :=
  {| method := m; url := u; body := d; params := ps; signal := JUndefined |}.

(** More sample data: what a 404 ends as, and the third sample bid
    reshaped. *)
Definition httpErrorThrown : JsError :=
  new_Error "The requested resource was not found.".

Definition decoratedSample : JsVal :=
  JObj {[ "id" := JNum 3; "bidOffers" := JArr []; "buyerNic" := JStr "-";
          "winningBidPrice" := JNull; "createdAt" := JStr "Invalid Date" ]}.

(** ** Evaluation lemmas shared by the properties *)

(** ** Facts about Numbers *)

Lemma bits_safe a : 0 < a < 2 ^ 53 -> JsNumber.bits a <= 53.
Proof.
  intros [Hpos Hlt]. unfold JsNumber.bits.
  assert (Z.log2 a < 53) by (apply Z.log2_lt_pow2; lia). lia.
Qed.

Lemma F_safe n : Z.abs n < 2 ^ 53 -> JsNumber.F n 0 = JsNumber.Int n.
Proof.
  intros Hn. unfold JsNumber.F.
  destruct (n =? 0) eqn:Hz; [apply Z.eqb_eq in Hz; by subst|].
  apply Z.eqb_neq in Hz.
  pose proof (bits_safe (Z.abs n) ltac:(lia)) as Hbits.
  cbv zeta. unfold JsNumber.prec, JsNumber.emin, JsNumber.emax.
  destruct (Z.leb_spec (Z.max (JsNumber.bits (Z.abs n) + 0 - 53) (-1074)) 0);
    [|lia].
  destruct (Z.leb_spec (JsNumber.bits (Z.abs n) + 0) 1024); [|lia].
  unfold JsNumber.dyadic. cbn. f_equal. lia.
Qed.

Lemma shift_rne_lower a s : a / 2 ^ s <= JsNumber.shift_rne a s.
Proof. unfold JsNumber.shift_rne. cbv zeta. repeat case_match; lia. Qed.

(** Rounding an integer keeps its sign: a positive integer is read as a
    positive integer or as [Infinity]. *)
Lemma value_Int_positive n :
  0 < n ->
  JsNumber.value (JsNumber.Int n) = JsNumber.Infinity false \/
  exists k, 0 < k /\ JsNumber.value (JsNumber.Int n) = JsNumber.Int k.
Proof.
  intros Hn. unfold JsNumber.value, JsNumber.F.
  destruct (Z.eqb_spec n 0) as [|_]; [lia|]. cbv zeta.
  rewrite (Z.abs_eq n) by lia.
  assert ((n <? 0) = false) as -> by lia.
  assert (Z.sgn n = 1) as -> by lia.
  unfold JsNumber.prec, JsNumber.emin.
  destruct (Z.leb_spec (Z.max (JsNumber.bits n + 0 - 53) (-1074)) 0) as [Hq|Hq].
  - destruct (_ <=? JsNumber.emax); [right|by left].
    exists n. split; [done|]. unfold JsNumber.dyadic. cbn. f_equal. lia.
  - set (q := Z.max (JsNumber.bits n + 0 - 53) (-1074)) in *.
    assert (0 < JsNumber.shift_rne n (q - 0)) as Hpos.
    { eapply Z.lt_le_trans; [|apply shift_rne_lower].
      apply Z.div_str_pos. split; [lia|].
      pose proof (Z.log2_spec n Hn) as [Hlow _].
      etrans; [|exact Hlow]. apply Z.pow_le_mono_r; [lia|].
      unfold JsNumber.bits in *. lia. }
    destruct (Z.eqb_spec (JsNumber.shift_rne n (q - 0)) 0) as [|_]; [lia|].
    destruct (_ <=? JsNumber.emax); [right|by left].
    eexists. split; [|unfold JsNumber.dyadic;
                       destruct (Z.leb_spec 0 q); [reflexivity|lia]].
    rewrite Z.mul_1_l. apply Z.mul_pos_pos; [done|]. apply Z.pow_pos_nonneg; lia.
Qed.

Lemma lessThan_zero_Int n :
  0 < n -> JsNumber.lessThan (JsNumber.Int 0) (JsNumber.Int n) = true.
Proof.
  intros Hn. unfold JsNumber.lessThan.
  change (JsNumber.value (JsNumber.Int 0)) with (JsNumber.Int 0).
  destruct (value_Int_positive n Hn) as [-> | (k & Hk & ->)]; [done|].
  cbn. lia.
Qed.

(** [Number::toString] never prints the empty string. *)
Lemma app_nonempty_l (s r : string) : s <> EmptyString -> s +:+ r <> EmptyString.
Proof. by destruct s. Qed.

Lemma app_nonempty_r (s r : string) : r <> EmptyString -> s +:+ r <> EmptyString.
Proof. destruct s; [done|]. discriminate. Qed.

Lemma pretty_N_go_length (x : N) (s : string) :
  (String.length s <= String.length (pretty_N_go x s))%nat.
Proof.
  revert s. induction (N.lt_wf_0 x) as [x _ IH]. intros s.
  assert (x = 0 \/ 0 < x)%N as [-> | Hpos] by lia.
  - by rewrite pretty_N_go_0.
  - rewrite pretty_N_go_step by done.
    etrans; [|apply IH; by apply N.div_lt]. cbn. lia.
Qed.

Lemma pretty_N_nonempty (x : N) : pretty x <> EmptyString.
Proof.
  unfold pretty, pretty_N. case_decide; [done|].
  rewrite pretty_N_go_step by lia. intros Hempty.
  pose proof (pretty_N_go_length (x `div` 10)
                (String (pretty_N_char (x `mod` 10)) EmptyString)) as Hlen.
  rewrite Hempty in Hlen. cbn in Hlen. lia.
Qed.

Lemma pretty_Z_nonempty (n : Z) : pretty n <> EmptyString.
Proof.
  destruct n as [|p|p]; [done| |done].
  apply (pretty_N_nonempty (Npos p)).
Qed.

Lemma layout_nonempty s n : JsNumber.layout s n <> EmptyString.
Proof.
  unfold JsNumber.layout. cbv zeta.
  repeat case_match.
  all: try (apply app_nonempty_l, pretty_Z_nonempty).
  all: try (apply app_nonempty_r, app_nonempty_l; discriminate).
  all: try (apply app_nonempty_l; discriminate).
Qed.

Lemma positive_toString_nonempty a e :
  JsNumber.positive_toString a e <> EmptyString.
Proof.
  unfold JsNumber.positive_toString. cbv zeta.
  repeat case_match. apply layout_nonempty.
Qed.

Lemma toString_nonempty x : JsNumber.toString x <> EmptyString.
Proof.
  unfold JsNumber.toString.
  destruct (JsNumber.value x) as [|[]| |[|p|p]|m e]; try done;
    cbn -[JsNumber.positive_toString];
    apply app_nonempty_r, positive_toString_nonempty.
Qed.

(** The integers up to 2^53 in absolute value are Numbers as they stand, and
    sums of them are rounded once. *)
Lemma value_safe n :
  Z.abs n <= 2 ^ 53 -> JsNumber.value (JsNumber.Int n) = JsNumber.Int n.
Proof.
  intros Hn. assert (Z.abs n < 2 ^ 53 \/ n = 2 ^ 53 \/ n = - 2 ^ 53)
    as [Hlt | [-> | ->]] by lia.
  - by apply F_safe.
  - by vm_compute.
  - by vm_compute.
Qed.

Lemma add_safe a b :
  Z.abs a <= 2 ^ 53 -> Z.abs b <= 2 ^ 53 ->
  JsNumber.add (JsNumber.Int a) (JsNumber.Int b) = JsNumber.F (a + b) 0.
Proof.
  intros Ha Hb. unfold JsNumber.add. rewrite !value_safe by done.
  cbn. by rewrite !Z.mul_1_r.
Qed.

Lemma subtract_safe a b :
  Z.abs a <= 2 ^ 53 -> Z.abs b <= 2 ^ 53 ->
  JsNumber.subtract (JsNumber.Int a) (JsNumber.Int b) = JsNumber.F (a - b) 0.
Proof.
  intros Ha Hb. unfold JsNumber.subtract, JsNumber.unaryMinus.
  rewrite (value_safe b) by done.
  destruct (Z.eq_dec b 0) as [->|Hb0].
  - unfold JsNumber.add. rewrite value_safe by done. cbn.
    rewrite Z.sub_0_r. symmetry. apply (value_safe a Ha).
  - assert (match b with
            | 0 => JsNumber.NegZero
            | _ => JsNumber.Int (- b)
            end = JsNumber.Int (- b)) as -> by (by destruct b).
    rewrite add_safe by lia. f_equal.
Qed.

Lemma equal_safe a b :
  Z.abs a <= 2 ^ 53 -> Z.abs b <= 2 ^ 53 ->
  JsNumber.equal (JsNumber.Int a) (JsNumber.Int b) = (a =? b).
Proof.
  intros Ha Hb. unfold JsNumber.equal. rewrite !value_safe by done.
  destruct a, b; reflexivity.
Qed.

Lemma lessThan_safe a b :
  Z.abs a <= 2 ^ 53 -> Z.abs b <= 2 ^ 53 ->
  JsNumber.lessThan (JsNumber.Int a) (JsNumber.Int b) = (a <? b).
Proof.
  intros Ha Hb. unfold JsNumber.lessThan. rewrite !value_safe by done.
  cbn. by rewrite !Z.mul_1_r.
Qed.

Arguments BidService.greater_than_zero : simpl never.
Arguments JsNumber.toString : simpl never.

(** Unfolding of the monadic plumbing. *)
Ltac run :=
  unfold try_catch, rethrow_handled, bind, lift, throw, ret; cbn.

(** [handleError] leaves a validation error as it is: none of the classified
    cases applies and its own message is kept. *)
Lemma handleError_validation msg w :
  msg <> "" ->
  handleError (new_Error msg) w =
    (Normal (new_Error msg),
     {| requests := requests w;
        console :=
          console w ++ [[LStr "API Error:"; LError (new_Error msg)]] |}).
Proof.
  intros Hmsg. unfold handleError, bind, console_error. cbn.
  destruct msg; [done|]. reflexivity.
Qed.

Section Validation.
Variable rt : Runtime.

Lemma createBid_falsy (req : gmap string JsVal) :
  truthy (prop req "farmerNic") = false ->
  fails_before_network (createBid rt (JObj req)) "Farmer NIC is required".
Proof. intros H w. unfold createBid. run. rewrite H. cbn. done. Qed.

Lemma getFarmerBids_falsy v :
  truthy v = false ->
  fails_before_network (getFarmerBids rt v) "Farmer NIC is required".
Proof. intros H w. unfold getFarmerBids. run. rewrite H. cbn. done. Qed.

Lemma getBuyerWinningBids_falsy v :
  truthy v = false ->
  fails_before_network (getBuyerWinningBids rt v) "Buyer NIC is required".
Proof. intros H w. unfold getBuyerWinningBids. run. rewrite H. cbn. done. Qed.

Lemma getBidDetails_falsy v :
  truthy v = false ->
  fails_before_network (getBidDetails rt v) "Bid ID is required".
Proof. intros H w. unfold getBidDetails. run. rewrite H. cbn. done. Qed.

Lemma cancelBid_falsy v :
  truthy v = false ->
  fails_before_network (cancelBid rt v) "Bid ID is required".
Proof. intros H w. unfold cancelBid. run. rewrite H. cbn. done. Qed.

Lemma placeBid_falsy (req : gmap string JsVal) :
  truthy (prop req "bidId") = false \/
  truthy (prop req "buyerNic") = false \/
  truthy (prop req "bidAmount") = false ->
  fails_before_network (placeBid rt (JObj req))
    "Bid ID, Buyer NIC, and bid amount are required".
Proof.
  intros H w. unfold placeBid. run.
  destruct (truthy (prop req "bidId")); cbn; [|done].
  destruct (truthy (prop req "buyerNic")); cbn; [|done].
  destruct (truthy (prop req "bidAmount")); cbn; [|done].
  destruct H as [H|[H|H]]; discriminate H.
Qed.

Lemma acceptBidOffer_falsy bidId buyerNic :
  truthy bidId = false \/ truthy buyerNic = false ->
  fails_before_network (acceptBidOffer rt bidId buyerNic)
    "Bid ID and Buyer NIC are required".
Proof.
  intros H w. unfold acceptBidOffer. run.
  destruct (truthy bidId); cbn; [|done].
  destruct (truthy buyerNic); cbn; [|done].
  destruct H as [H|H]; discriminate H.
Qed.

Lemma updateBidStatus_falsy bidId st :
  truthy bidId = false \/ truthy st = false ->
  fails_before_network (updateBidStatus rt bidId st)
    "Bid ID and status are required".
Proof.
  intros H w. unfold updateBidStatus. run.
  destruct (truthy bidId); cbn; [|done].
  destruct (truthy st); cbn; [|done].
  destruct H as [H|H]; discriminate H.
Qed.

Lemma forceCompleteBid_falsy bidId buyerNic amount :
  truthy bidId = false \/ truthy buyerNic = false \/ truthy amount = false ->
  fails_before_network (forceCompleteBid rt bidId buyerNic amount)
    "Bid ID, Buyer NIC, and amount are required".
Proof.
  intros H w. unfold forceCompleteBid. run.
  destruct (truthy bidId); cbn; [|done].
  destruct (truthy buyerNic); cbn; [|done].
  destruct (truthy amount); cbn; [|done].
  destruct H as [H|[H|H]]; discriminate H.
Qed.

End Validation.

Lemma absent_falsy (o : gmap string JsVal) k :
  absent o k -> truthy (prop o k) = false.
Proof. unfold absent, prop. intros ->. reflexivity. Qed.

(** ** Validation before the network *)

(** C1.  A [createBid] request without a [farmerNic] field fails with the
    validation error and nothing is handed to the transport; the same holds
    for [getFarmerBids], [getBuyerWinningBids], [getBidDetails] and
    [cancelBid] called without their identifier, for a [placeBid] request
    that lacks one of its three fields, and for [acceptBidOffer],
    [updateBidStatus] and [forceCompleteBid] called with one of their
    arguments missing. *)
Theorem missing_identifier_fails_before_network
    (rt : Runtime) (createReq offerReq : gmap string JsVal)
    (acceptId acceptBuyer statusId newStatus : JsVal)
    (forceId forceBuyer forceAmount : JsVal) :
  absent createReq "farmerNic" ->
  absent offerReq "bidId" \/ absent offerReq "buyerNic" \/
    absent offerReq "bidAmount" ->
  acceptId = JUndefined \/ acceptBuyer = JUndefined ->
  statusId = JUndefined \/ newStatus = JUndefined ->
  forceId = JUndefined \/ forceBuyer = JUndefined \/
    forceAmount = JUndefined ->
  fails_before_network (createBid rt (JObj createReq))
    "Farmer NIC is required" /\
  fails_before_network (getFarmerBids rt JUndefined)
    "Farmer NIC is required" /\
  fails_before_network (getBuyerWinningBids rt JUndefined)
    "Buyer NIC is required" /\
  fails_before_network (getBidDetails rt JUndefined) "Bid ID is required" /\
  fails_before_network (placeBid rt (JObj offerReq))
    "Bid ID, Buyer NIC, and bid amount are required" /\
  fails_before_network (acceptBidOffer rt acceptId acceptBuyer)
    "Bid ID and Buyer NIC are required" /\
  fails_before_network (cancelBid rt JUndefined) "Bid ID is required" /\
  fails_before_network (updateBidStatus rt statusId newStatus)
    "Bid ID and status are required" /\
  fails_before_network (forceCompleteBid rt forceId forceBuyer forceAmount)
    "Bid ID, Buyer NIC, and amount are required".
Proof.
  intros Hcreate Hoffer Haccept Hstatus Hforce.
  repeat apply conj.
  - apply createBid_falsy, absent_falsy, Hcreate.
  - apply getFarmerBids_falsy. reflexivity.
  - apply getBuyerWinningBids_falsy. reflexivity.
  - apply getBidDetails_falsy. reflexivity.
  - apply placeBid_falsy.
    destruct Hoffer as [H|[H|H]]; apply absent_falsy in H; auto.
  - apply acceptBidOffer_falsy. destruct Haccept as [->| ->]; auto.
  - apply cancelBid_falsy. reflexivity.
  - apply updateBidStatus_falsy. destruct Hstatus as [->| ->]; auto.
  - apply forceCompleteBid_falsy. destruct Hforce as [->|[->| ->]]; auto.
Qed.

(** C9.  A [placeBid] request whose [bidAmount] is the number 0, and a
    [forceCompleteBid] call whose amount is 0, fail with the
    missing-required-field validation error before anything is handed to the
    transport: the number 0 is falsy, so the guard treats it as missing. *)
Theorem zero_amount_fails_validation
    (rt : Runtime) (offerReq : gmap string JsVal) (bidId buyerNic : JsVal) :
  offerReq !! "bidAmount" = Some (JNum 0) ->
  fails_before_network (placeBid rt (JObj offerReq))
    "Bid ID, Buyer NIC, and bid amount are required" /\
  fails_before_network (forceCompleteBid rt bidId buyerNic (JNum 0))
    "Bid ID, Buyer NIC, and amount are required".
Proof.
  intros Hzero. split.
  - apply placeBid_falsy. right; right. unfold prop. rewrite Hzero. reflexivity.
  - apply forceCompleteBid_falsy. right; right. reflexivity.
Qed.

(** ** The response interceptor *)


Lemma onRejected_rethrows e w :
  axios_raised e ->
  exists lines,
    onRejected e w =
      (Throw e, {| requests := requests w; console := console w ++ lines |}).
Proof.
  intros Hwf. unfold onRejected, bind, throw, console_error, ret.
  destruct (response e) as [r|] eqn:Hr.
  - destruct (status r =? 500); [eexists; reflexivity|].
    destruct (status r =? 404).
    + destruct (config e) as [u|] eqn:Hc.
      * eexists; reflexivity.
      * exfalso. apply Hwf; [rewrite Hr; discriminate | exact Hc].
    + eexists; reflexivity.
  - destruct (code e) as [c|].
    + destruct (String.eqb c "ERR_NETWORK").
      * eexists; reflexivity.
      * exists []. rewrite app_nil_r. cbn. by destruct w.
    + exists []. rewrite app_nil_r. cbn. by destruct w.
Qed.

(** C8.  The interceptor hands a success on as it is, leaving the world
    untouched, and re-signals a failure as the very error it received:
    whether the error carries an HTTP status or is a network-layer one only
    decides which line is written to the console. *)
Theorem interceptor_passes_outcome_unchanged (res : AxiosResult) (w : World) :
  (forall e, res = inl e -> axios_raised e) ->
  match res with
  | inr response => interceptResponse res w = (Normal response, w)
  | inl error =>
      fst (interceptResponse res w) = Throw error /\
      requests (snd (interceptResponse res w)) = requests w /\
      exists lines,
        console (snd (interceptResponse res w)) = console w ++ lines
  end.
Proof.
  intros Hwf. destruct res as [e|r]; cbn.
  - destruct (onRejected_rethrows e w) as [lines ->]; [by apply Hwf|].
    cbn. eauto.
  - reflexivity.
Qed.

(** ** Error normalization *)

Lemma handleError_eq e w :
  handleError e w =
    (Normal (normalized e),
     {| requests := requests w;
        console := console w ++
          [[LStr "API Error:";
            match response e with
            | Some r => LResponse r
            | None => LError e
            end]] |}).
Proof.
  unfold normalized, handleError, bind, console_error, ret. cbn.
  repeat match goal with
         | |- context [if ?b then _ else _] => destruct b
         end; reflexivity.
Qed.

Lemma normalized_backend_message e :
  truthy (backendMessage e) = true ->
  normalized e = new_Error (ToString (backendMessage e)).
Proof.
  intros H. unfold normalized, handleError, bind, console_error, ret. cbn.
  rewrite H. reflexivity.
Qed.

Section Classified.
Variable e : JsError.
Hypothesis no_message : truthy (backendMessage e) = false.

Lemma normalized_network :
  code_is e "ERR_NETWORK" = true ->
  normalized e =
    new_Error "Cannot connect to server. Please check your connection.".
Proof.
  intros H. unfold normalized, handleError, bind, console_error, ret. cbn.
  rewrite no_message, H. reflexivity.
Qed.

Hypothesis not_network : code_is e "ERR_NETWORK" = false.
Hypothesis not_timeout : code_is e "ECONNABORTED" = false.

Lemma normalized_status (n : Z) :
  status_is e n = true ->
  normalized e =
    if n =? 400 then new_Error "Invalid request. Please check your input."
    else if n =? 401 then new_Error "Please log in to continue."
    else if n =? 403 then
      new_Error "You do not have permission to perform this action."
    else if n =? 404 then new_Error "The requested resource was not found."
    else if n =? 409 then
      new_Error "This operation conflicts with an existing resource."
    else if 500 <=? n then new_Error "Server error. Please try again later."
    else new_Error (if String.eqb (message e) ""
                    then "An unexpected error occurred."
                    else message e).
Proof.
  unfold status_is. destruct (response e) as [r|] eqn:Hr; [|discriminate].
  intros Hn%Z.eqb_eq. subst n.
  unfold normalized, handleError, bind, console_error, ret. cbn.
  rewrite no_message, not_network, not_timeout.
  unfold status_is, status_ge. rewrite Hr.
  repeat match goal with
         | |- context [if ?b then _ else _] => destruct b; [reflexivity|]
         end.
  destruct (message e); reflexivity.
Qed.

Lemma normalized_fallback :
  response e = None ->
  normalized e =
    new_Error (if String.eqb (message e) ""
               then "An unexpected error occurred."
               else message e).
Proof.
  intros Hr. unfold normalized, handleError, bind, console_error, ret. cbn.
  rewrite no_message, not_network, not_timeout.
  unfold status_is, status_ge. rewrite Hr.
  destruct (message e); reflexivity.
Qed.

End Classified.

(** ** One call through the client *)

Arguments Http.request : simpl never.
Arguments BidService.handleError : simpl never.

Lemma onRejected_requests e w :
  exists e' lines,
    onRejected e w =
      (Throw e', {| requests := requests w; console := console w ++ lines |})
    /\ (axios_raised e -> e' = e)
    /\ (status_is e 500 = true -> e' = e).
Proof.
  unfold onRejected, bind, throw, console_error, ret, axios_raised, status_is.
  destruct (response e) as [r|] eqn:Hr.
  - destruct (status r =? 500) eqn:H500; [eexists _, _; eauto|].
    destruct (status r =? 404).
    + destruct (config e) as [u|] eqn:Hc.
      * eexists _, _; eauto.
      * exists (TypeError "Cannot read properties of undefined (reading 'url')"), [].
        rewrite app_nil_r. split; [by destruct w|].
        split; [|discriminate]. intros Hwf. exfalso. by apply Hwf.
    + eexists _, _; eauto.
  - destruct (code e) as [c|].
    + destruct (String.eqb c "ERR_NETWORK").
      * eexists _, _; eauto.
      * exists e, []. rewrite app_nil_r. cbn. by destruct w.
    + exists e, []. rewrite app_nil_r. cbn. by destruct w.
Qed.

Lemma request_cases rt rq w :
  (exists r, backend rt rq = inr r /\
             request rt rq w = (Normal r, sent rq w)) \/
  (exists e e' lines,
     backend rt rq = inl e /\
     request rt rq w =
       (Throw e', {| requests := requests w ++ [rq];
                     console := console w ++ lines |}) /\
     (axios_raised e -> e' = e) /\
     (status_is e 500 = true -> e' = e)).
Proof.
  unfold request, bind, transmit. cbn.
  destruct (backend rt rq) as [e|r] eqn:Hb; cbn.
  - right.
    destruct (onRejected_requests e
                {| requests := requests w ++ [rq]; console := console w |})
      as (e' & lines & -> & H1 & H2).
    exists e, e', lines. cbn. eauto.
  - left. exists r. split; [done|]. reflexivity.
Qed.

Lemma nothing_sent {A : Type} (l : list A) (x : A) : l = l ++ [x] -> False.
Proof.
  intros H. apply (f_equal length) in H. rewrite length_app in H.
  cbn in H. lia.
Qed.

Lemma one_sent {A : Type} (l : list A) (x y : A) :
  l ++ [x] = l ++ [y] -> x = y.
Proof. intros H. apply app_inj_tail in H. tauto. Qed.

(** Runs one operation up to its call: the guards are decided by case
    analysis, the call by [request_cases]. *)
Ltac step_call rt :=
  match goal with
  | |- context [request rt ?rq ?w] =>
      destruct (request_cases rt rq w)
        as [(resp0 & Hsettled & Hreq)
           |(err0 & err' & lines & Hsettled & Hreq & Hraised & Hkeep500)];
      rewrite Hreq; clear Hreq; cbn
  end.

(** C5.  When the call issued by [acceptBidOffer] is answered with HTTP
    status 500, the error thrown carries the message "Server error while
    processing the offer. Please try again."; this is not the message the
    shared mapping gives a 500 answer. *)
Theorem acceptBidOffer_500_specific_message
    (rt : Runtime) (bidId buyerNic : JsVal) (w : World)
    (rq : Request) (e : JsError) :
  requests (snd (acceptBidOffer rt bidId buyerNic w)) = requests w ++ [rq] ->
  backend rt rq = inl e ->
  status_is e 500 = true ->
  fst (acceptBidOffer rt bidId buyerNic w) =
    Throw (new_Error
             "Server error while processing the offer. Please try again.") /\
  (truthy (backendMessage e) = false ->
   code_is e "ERR_NETWORK" = false -> code_is e "ECONNABORTED" = false ->
   normalized e = new_Error "Server error. Please try again later." /\
   normalized e <>
     new_Error "Server error while processing the offer. Please try again.").
Proof.
  intros Hsent Hback H500. split.
  - revert Hsent. unfold acceptBidOffer, axios_post. run.
    destruct (truthy bidId); cbn;
      [|rewrite handleError_eq; cbn; intros []%nothing_sent].
    destruct (truthy buyerNic); cbn;
      [|rewrite handleError_eq; cbn; intros []%nothing_sent].
    step_call rt.
    + intros <-%one_sent. congruence.
    + destruct (status_is err' 500) eqn:Hs; cbn.
      * reflexivity.
      * rewrite handleError_eq. cbn. intros <-%one_sent.
        rewrite Hsettled in Hback. injection Hback as <-.
        rewrite (Hkeep500 H500) in Hs. congruence.
  - intros Hm Hn Ht.
    rewrite (normalized_status e Hm Hn Ht 500 H500). cbn.
    split; [reflexivity | discriminate].
Qed.

Lemma normalized_unclassified e :
  unclassified e = true ->
  normalized e =
    new_Error (if String.eqb (message e) ""
               then "An unexpected error occurred."
               else message e).
Proof.
  unfold unclassified, no_backend_message.
  intros H. repeat (apply andb_prop in H as [H ?]).
  unfold normalized, handleError, bind, console_error, ret. cbn.
  repeat match goal with
         | Hb : negb ?b = true |- _ =>
             apply negb_true_iff in Hb; rewrite Hb
         end.
  destruct (message e); reflexivity.
Qed.

(** C6.  With no backend message in play, [handleError] maps a
    network-unreachable failure to the connectivity message, an HTTP 404 to
    the not-found message and an HTTP 409 to the conflict message: three
    texts that differ from one another and from the generic fallback.  An
    error matching none of the classified cases keeps its own message and
    gets the generic fallback only when it has none.  So the messages of
    four such errors are pairwise distinct exactly when the unclassified one
    does not bring one of the three texts as its own message, which is the
    case whenever it gets the fallback. *)
Theorem normalized_messages_distinct (eNet e404 e409 eOther : JsError) :
  network_unreachable eNet = true ->
  answered_with 404 e404 = true ->
  answered_with 409 e409 = true ->
  unclassified eOther = true ->
  let connectivity :=
    "Cannot connect to server. Please check your connection." in
  let notFound := "The requested resource was not found." in
  let conflict := "This operation conflicts with an existing resource." in
  let fallback := "An unexpected error occurred." in
  normalized eNet = new_Error connectivity /\
  normalized e404 = new_Error notFound /\
  normalized e409 = new_Error conflict /\
  normalized eOther =
    new_Error (if String.eqb (message eOther) "" then fallback
               else message eOther) /\
  NoDup [message (normalized eNet); message (normalized e404);
         message (normalized e409); fallback] /\
  (NoDup [message (normalized eNet); message (normalized e404);
          message (normalized e409); message (normalized eOther)] <->
   message eOther ∉ [connectivity; notFound; conflict]).
Proof.
  intros Hnet H404 H409 Hother. cbv zeta.
  unfold network_unreachable, answered_with, no_backend_message in *.
  repeat match goal with
         | H : _ && _ = true |- _ => apply andb_prop in H as [H ?]
         | H : negb _ = true |- _ => apply negb_true_iff in H
         end.
  assert (normalized eNet =
            new_Error "Cannot connect to server. Please check your connection.")
    as Enet by (by apply normalized_network).
  assert (normalized e404 = new_Error "The requested resource was not found.")
    as Enf by (by rewrite (normalized_status e404) with (n := 404)).
  assert (normalized e409 =
            new_Error "This operation conflicts with an existing resource.")
    as Ecf by (by rewrite (normalized_status e409) with (n := 409)).
  pose proof (normalized_unclassified eOther Hother) as Eother.
  rewrite Enet, Enf, Ecf, Eother. cbn [message new_Error].
  repeat apply conj; try reflexivity.
  - repeat (apply NoDup_cons_2;
              [rewrite ?elem_of_cons, elem_of_nil; intuition discriminate|]).
    apply NoDup_nil_2.
  - intros Hdistinct Hown.
    rewrite !elem_of_cons, elem_of_nil in Hown.
    rewrite !NoDup_cons, !elem_of_cons in Hdistinct.
    destruct (String.eqb_spec (message eOther) "") as [Hempty|Hfull];
      [rewrite Hempty in Hown; intuition discriminate|].
    intuition.
  - intros Hown. rewrite !elem_of_cons, elem_of_nil in Hown.
    destruct (String.eqb_spec (message eOther) "") as [Hempty|Hfull].
    + repeat (apply NoDup_cons_2;
                [rewrite ?elem_of_cons, elem_of_nil; intuition discriminate|]).
      apply NoDup_nil_2.
    + repeat (apply NoDup_cons_2;
                [rewrite ?elem_of_cons, elem_of_nil;
                 intuition (try discriminate; eauto)|]).
      apply NoDup_nil_2.
Qed.

(** C6 (as stated) fails: an HTTP 422 is none of the classified cases
    and keeps the message axios gave it instead of the generic fallback; and
    an error of no class that happens to carry the not-found text ends with
    the very message of an HTTP 404. *)
Lemma unclassified_error_keeps_own_message :
  unclassified (httpError 422 JNull "/bids") = true /\
  message (normalized (httpError 422 JNull "/bids")) =
    "Request failed with status code 422" /\
  String.eqb (message (normalized (httpError 422 JNull "/bids")))
             "An unexpected error occurred." = false /\
  unclassified (new_Error "The requested resource was not found.") = true /\
  answered_with 404 (httpError 404 JNull "/bids/99") = true /\
  message (normalized (new_Error "The requested resource was not found.")) =
    message (normalized (httpError 404 JNull "/bids/99")).
Proof. repeat apply conj; by vm_compute. Qed.

(** ** Reshaping and sending leave the rest of the world alone *)

Lemma lift_pure {A} (c : Completion A) w : lift c w = (c, w).
Proof. reflexivity. Qed.

Lemma mapM_pure {A B} (f : A -> Op B) (l : list A) w :
  (forall x w', exists c, f x w' = (c, w')) ->
  exists c, mapM f l w = (c, w).
Proof.
  intros Hf. induction l as [|x l IH]; cbn.
  - eexists; reflexivity.
  - unfold bind. destruct (Hf x w) as [c ->].
    destruct c as [y|e]; [|eexists; reflexivity].
    destruct IH as [c' ->].
    destruct c' as [ys|e]; eexists; reflexivity.
Qed.

Lemma decorateBid_pure rt bid w : exists c, decorateBid rt bid w = (c, w).
Proof.
  unfold decorateBid. run.
  destruct (getProp bid "bidOffers") as [bo|]; [cbn|eexists; reflexivity].
  destruct (getProp bid "winningBuyerNic") as [wn|]; [cbn|eexists; reflexivity].
  destruct (getProp bid "winningBidAmount") as [wa|];
    destruct (getProp bid "postedDate") as [pd|];
    destruct (truthy wn); cbn; try (eexists; reflexivity);
    destruct (truthy bo); cbn; try (eexists; reflexivity);
    destruct (getProp bo "length") as [len|]; cbn; try (eexists; reflexivity);
    destruct (greater_than_zero rt len); cbn; try (eexists; reflexivity);
    destruct bo; try (eexists; reflexivity);
    match goal with
    | |- context [mapM ?f ?l ?w] =>
        destruct (mapM_pure f l w) as [c ->];
        [intros; eexists; apply lift_pure|]
    end;
    destruct c; eexists; reflexivity.
Qed.

Lemma map_data_pure rt d w : exists c, map_data rt d w = (c, w).
Proof.
  destruct d; cbn; try (eexists; reflexivity).
  unfold bind. destruct (mapM_pure (decorateBid rt) l w) as [c ->].
  - intros. apply decorateBid_pure.
  - destruct c; eexists; reflexivity.
Qed.

(** ** Precedence of the backend's message *)

(** Decides the guards of an operation one by one; a path that ends before
    the call contradicts the assumption that a request was sent. *)
Ltac guards :=
  repeat first
    [ rewrite handleError_eq; cbn
    | match goal with
      | |- context [truthy ?v] => destruct (truthy v); cbn
      | |- context [getProp ?v ?k] => destruct (getProp v k); cbn
      | |- context [JsDate.toISOString ?d] =>
          destruct (JsDate.toISOString d); cbn
      | |- _ = _ ++ [_] -> _ => intros []%nothing_sent
      end ].

Lemma backend_message_normalized e m :
  backendMessage e = JStr m -> m <> "" -> normalized e = new_Error m.
Proof.
  intros Hm Hne. rewrite normalized_backend_message; rewrite Hm; [done|].
  cbn. by destruct m.
Qed.

(** How a failed call ends: the interceptor re-signals the error and the
    [catch] block throws what [handleError] makes of it. *)
Ltac failed_call rt :=
  step_call rt;
  [ try (match goal with
         | |- context [map_data rt ?d ?w] =>
             let c := fresh "c" in
             destruct (map_data_pure rt d w) as [c ->]; destruct c; cbn;
             rewrite ?handleError_eq; cbn
         end);
    intros <-%one_sent; congruence
  | rewrite ?handleError_eq; cbn; intros <-%one_sent;
    match goal with
    | Hs : backend rt ?rq = inl ?a, Hb : backend rt ?rq = inl ?b |- _ =>
        rewrite Hs in Hb; injection Hb as <-
    end ].

Section Precedence.
Variables (rt : Runtime) (w : World) (rq : Request) (e : JsError).
Variable m : string.
Hypothesis Hback : backend rt rq = inl e.
Hypothesis Hwf : axios_raised e.
Hypothesis Hmsg : backendMessage e = JStr m.
Hypothesis Hne : m <> "".

Local Abbreviation throws_message op :=
  (requests (snd (op w)) = requests w ++ [rq] ->
   fst (op w) = Throw (new_Error m)).

Lemma createBid_message r : throws_message (createBid rt r).
Proof.
  unfold createBid, axios_post. run. guards.
  all: failed_call rt.
  all: by rewrite (Hraised Hwf), (backend_message_normalized e m).
Qed.

Ltac settle e m Hwf :=
  match goal with
  | Hraised : axios_raised e -> _ = e |- _ =>
      by rewrite (Hraised Hwf), (backend_message_normalized e m)
  end.

Lemma getAllBids_message a : throws_message (getAllBids rt a).
Proof.
  unfold getAllBids.
  destruct a; try (cbn; by intros []%nothing_sent).
  all: unfold getAllBids_body, axios_get; run; guards.
  all: failed_call rt.
  all: settle e m Hwf.
Qed.

Lemma getFilteredBids_message f : throws_message (getFilteredBids rt f).
Proof.
  unfold getFilteredBids, axios_get.
  destruct f; run; guards.
  all: failed_call rt.
  all: settle e m Hwf.
Qed.

Lemma getFarmerBids_message n : throws_message (getFarmerBids rt n).
Proof.
  unfold getFarmerBids, axios_get. run. guards.
  all: failed_call rt.
  all: settle e m Hwf.
Qed.

Lemma getBuyerWinningBids_message n : throws_message (getBuyerWinningBids rt n).
Proof.
  unfold getBuyerWinningBids, axios_get, console_error. run. guards.
  all: failed_call rt.
  all: settle e m Hwf.
Qed.

Lemma getBidDetails_message i : throws_message (getBidDetails rt i).
Proof.
  unfold getBidDetails, axios_get. run. guards.
  all: failed_call rt.
  all: settle e m Hwf.
Qed.

Lemma placeBid_message r : throws_message (placeBid rt r).
Proof.
  unfold placeBid, axios_post. run. guards.
  all: failed_call rt.
  all: settle e m Hwf.
Qed.

Lemma cancelBid_message i : throws_message (cancelBid rt i).
Proof.
  unfold cancelBid, axios_post. run. guards.
  all: failed_call rt.
  all: settle e m Hwf.
Qed.

Lemma updateBidStatus_message i s : throws_message (updateBidStatus rt i s).
Proof.
  unfold updateBidStatus, axios_put. run. guards.
  all: failed_call rt.
  all: settle e m Hwf.
Qed.

Lemma forceCompleteBid_message i n a : throws_message (forceCompleteBid rt i n a).
Proof.
  unfold forceCompleteBid, axios_put. run. guards.
  all: failed_call rt.
  all: settle e m Hwf.
Qed.

Lemma getBidStatistics_message : throws_message (getBidStatistics rt).
Proof.
  unfold getBidStatistics, axios_get. run. guards.
  all: failed_call rt.
  all: settle e m Hwf.
Qed.

Lemma acceptBidOffer_message i n :
  status_is e 500 = false -> throws_message (acceptBidOffer rt i n).
Proof.
  intros H500.
  unfold acceptBidOffer, axios_post. run. guards.
  step_call rt.
  - intros <-%one_sent; congruence.
  - destruct (status_is err' 500) eqn:Hs; cbn;
      rewrite ?handleError_eq; cbn; intros <-%one_sent;
      assert (err0 = e) as -> by congruence;
      rewrite (Hraised Hwf) in *; [congruence|].
    by rewrite (backend_message_normalized e m).
Qed.

End Precedence.

(** C4 (as amended).  When the call of a bid-service operation fails and the
    backend's response body carries a non-empty [message] string, the error
    the operation throws carries exactly that message, whatever the status
    of the response; the one exception is [acceptBidOffer] answered with
    status 500, which is excluded here. *)
Theorem backend_message_takes_precedence
    (rt : Runtime) (c : Call) (w : World) (rq : Request) (e : JsError)
    (m : string) :
  call_failed_with rt c w rq e ->
  backendMessage e = JStr m ->
  m <> "" ->
  is_accept c && status_is e 500 = false ->
  fst (invoke rt c w) = Throw (new_Error m).
Proof.
  intros (Hsent & Hback & Hwf) Hmsg Hne Hexc. revert Hsent.
  destruct c; cbn in *.
  - by apply createBid_message with (e := e).
  - by apply getAllBids_message with (e := e).
  - by apply getFilteredBids_message with (e := e).
  - by apply getFarmerBids_message with (e := e).
  - by apply getBuyerWinningBids_message with (e := e).
  - by apply getBidDetails_message with (e := e).
  - by apply placeBid_message with (e := e).
  - by apply acceptBidOffer_message with (e := e).
  - by apply cancelBid_message with (e := e).
  - by apply updateBidStatus_message with (e := e).
  - by apply forceCompleteBid_message with (e := e).
  - by apply getBidStatistics_message with (e := e).
Qed.

(** C4 (as stated) fails: [acceptBidOffer] answered with status 500 and the
    body [{message: "Offer already accepted"}] throws the acceptance
    message, not the backend's. *)
Lemma accept_500_overrides_backend_message :
  let rt := utcRuntime 0
              (failing 500 (JObj {[ "message" := JStr "Offer already accepted" ]})) in
  let c := AcceptBidOffer (JNum 7) (JStr "901234567V") in
  let rq := {| method := POST; url := "/bids/7/accept-offer"; body := JNull;
               params := ObjectParams {[ "buyerNic" := JStr "901234567V" ]};
               signal := JUndefined |} in
  let e := httpError 500 (JObj {[ "message" := JStr "Offer already accepted" ]})
             "/bids/7/accept-offer" in
  call_failed_with rt c world0 rq e /\
  backendMessage e = JStr "Offer already accepted" /\
  fst (invoke rt c world0) =
    Throw (new_Error
             "Server error while processing the offer. Please try again.") /\
  fst (invoke rt c world0) <> Throw (new_Error "Offer already accepted").
Proof.
  cbv zeta. unfold call_failed_with, axios_raised.
  repeat apply conj; try (vm_compute; first [reflexivity | discriminate]).
Qed.


(** ** Pagination of the allocation list *)

Lemma AllocationList_controls rt formatted allocations currentPage view :
  AllocationList.AllocationList rt formatted allocations currentPage =
    Normal view ->
  AllocationList.previous view =
    AllocationList.previousButton (default (JsNumber.Int 0) currentPage) /\
  AllocationList.next view =
    AllocationList.nextButton (default (JsNumber.Int 0) currentPage).
Proof.
  unfold AllocationList.AllocationList. cbv zeta.
  destruct (AllocationList.map_rows _ _ _); [|discriminate].
  by intros [= <-].
Qed.

Lemma AllocationList_empty rt formatted currentPage :
  AllocationList.AllocationList rt formatted None currentPage =
    Normal {| AllocationList.rows := [];
              AllocationList.previous :=
                AllocationList.previousButton
                  (default (JsNumber.Int 0) currentPage);
              AllocationList.next :=
                AllocationList.nextButton
                  (default (JsNumber.Int 0) currentPage) |}.
Proof. reflexivity. Qed.

Lemma equal_zero x :
  JsNumber.equal x 0 = true <->
  JsNumber.value x = JsNumber.Int 0 \/ JsNumber.value x = JsNumber.NegZero.
Proof.
  unfold JsNumber.equal.
  change (JsNumber.value (JsNumber.Int 0)) with (JsNumber.Int 0).
  destruct (JsNumber.value x) as [|[]| |[|p|p]|m e]; cbn;
    split; try done; try (intros [|]; done); eauto.
Qed.

Lemma click_previous_safe n :
  Z.abs n <= 2 ^ 53 ->
  AllocationList.click (AllocationList.previousButton n) =
    if n =? 0 then None
    else Some (JsNumber.Int (if n =? - 2 ^ 53 then n else n - 1)).
Proof.
  intros Hn.
  unfold AllocationList.click, AllocationList.previousButton. cbn.
  rewrite equal_safe, subtract_safe by lia.
  destruct (n =? 0); [done|]. f_equal.
  destruct (Z.eqb_spec n (- 2 ^ 53)) as [->|Hne]; [by vm_compute|].
  apply (value_safe (n - 1)). lia.
Qed.

Lemma click_next_safe n :
  Z.abs n <= 2 ^ 53 ->
  AllocationList.click (AllocationList.nextButton n) =
    Some (JsNumber.Int (if n =? 2 ^ 53 then n else n + 1)).
Proof.
  intros Hn.
  unfold AllocationList.click, AllocationList.nextButton. cbn.
  rewrite add_safe by lia. f_equal.
  destruct (Z.eqb_spec n (2 ^ 53)) as [->|Hne]; [by vm_compute|].
  apply (value_safe (n + 1)). lia.
Qed.

Lemma click_previous_index n :
  page_index n ->
  AllocationList.click (AllocationList.previousButton n) =
    if n =? 0 then None else Some (JsNumber.Int (n - 1)).
Proof.
  unfold page_index. intros Hn. rewrite click_previous_safe by lia.
  destruct (n =? 0); [done|].
  destruct (Z.eqb_spec n (- 2 ^ 53)); [lia|done].
Qed.

Lemma click_next_index n :
  page_index n ->
  AllocationList.click (AllocationList.nextButton n) =
    Some (JsNumber.Int (if n =? 2 ^ 53 then n else n + 1)).
Proof. unfold page_index. intros Hn. apply click_next_safe. lia. Qed.

Lemma page_step_index n q :
  page_index n -> AllocationList.page_step n q ->
  exists m, q = JsNumber.Int m /\ page_index m.
Proof.
  intros Hn [rt f allocations view Hview Hclick
            | rt f allocations view Hview Hclick];
    apply AllocationList_controls in Hview as [Hprevious Hnext]; cbn in *.
  - rewrite Hprevious, click_previous_index in Hclick by done.
    destruct (Z.eqb_spec n 0); [discriminate|]. injection Hclick as <-.
    eexists. split; [reflexivity|]. unfold page_index in *. lia.
  - rewrite Hnext, click_next_index in Hclick by done.
    injection Hclick as <-. eexists. split; [reflexivity|].
    unfold page_index in *. destruct (Z.eqb_spec n (2 ^ 53)); lia.
Qed.

Lemma pages_stay_indices p q :
  rtc AllocationList.page_step p q ->
  forall n, p = JsNumber.Int n -> page_index n ->
  exists m, q = JsNumber.Int m /\ page_index m.
Proof.
  induction 1 as [p|p r q Hstep _ IH]; intros n -> Hn; [eauto|].
  destruct (page_step_index n r Hn Hstep) as (k & -> & Hk). by eapply IH.
Qed.

Lemma every_page_reachable n :
  page_index n -> rtc AllocationList.page_step (JsNumber.Int 0) (JsNumber.Int n).
Proof.
  unfold page_index. intros [Hn Hmax]. revert Hmax. pattern n.
  apply natlike_ind; [constructor| |exact Hn].
  intros k Hk IH Hmax. eapply rtc_r; [apply IH; lia|].
  eapply (AllocationList.step_next k (Z.succ k)
            (utcRuntime 0 (fun _ => ok JNull)) (fun _ => EmptyString) None).
  - apply AllocationList_empty.
  - cbn -[AllocationList.nextButton AllocationList.click].
    rewrite click_next_index by (unfold page_index; lia).
    destruct (Z.eqb_spec k (2 ^ 53)); [lia|]. reflexivity.
Qed.

(** C10.  Whenever the list is rendered, Previous is disabled exactly when
    [currentPage === 0] (that is for +0 and -0, and for a page left out) and
    otherwise hands on [currentPage - 1], whatever that is; Next is never
    disabled and hands on [currentPage + 1], whatever the allocations.  From
    a page index (an integer from 0 to 2^53) Previous hands on the index
    before it, Next the index after it, and no sequence of clicks on the two
    controls leaves the page indices, so that no negative page reaches the
    callback; every page index can be reached from page 0, however short the
    list of allocations is.  (Numbers count in double precision: at 2^53
    Next hands on 2^53 again.) *)
Theorem pagination_controls
    (rt : Runtime) (formatted : Z -> string)
    (allocations : option (list AllocationList.Allocation))
    (currentPage : option Number) (view : AllocationList.View) :
  AllocationList.AllocationList rt formatted allocations currentPage =
    Normal view ->
  let page := default (JsNumber.Int 0) currentPage in
  (AllocationList.disabled (AllocationList.previous view) = true <->
     JsNumber.value page = JsNumber.Int 0 \/
     JsNumber.value page = JsNumber.NegZero) /\
  AllocationList.click (AllocationList.previous view) =
    (if JsNumber.equal page 0 then None
     else Some (JsNumber.subtract page 1)) /\
  AllocationList.disabled (AllocationList.next view) = false /\
  AllocationList.click (AllocationList.next view) =
    Some (JsNumber.add page 1) /\
  (forall n, page_index n -> page = JsNumber.Int n ->
     AllocationList.click (AllocationList.previous view) =
       (if n =? 0 then None else Some (JsNumber.Int (n - 1))) /\
     AllocationList.click (AllocationList.next view) =
       Some (JsNumber.Int (if n =? 2 ^ 53 then n else n + 1)) /\
     forall q, rtc AllocationList.page_step page q ->
               exists m, q = JsNumber.Int m /\ page_index m) /\
  (forall n, page_index n ->
     rtc AllocationList.page_step (JsNumber.Int 0) (JsNumber.Int n)).
Proof.
  intros Hview. cbv zeta.
  apply AllocationList_controls in Hview as [-> ->].
  repeat apply conj.
  - apply equal_zero.
  - apply equal_zero.
  - reflexivity.
  - reflexivity.
  - reflexivity.
  - intros n Hn ->. repeat apply conj.
    + by apply click_previous_index.
    + by apply click_next_index.
    + intros q Hsteps. by apply (pages_stay_indices n q Hsteps n).
  - apply every_page_reachable.
Qed.

(** C10 (as stated) fails: on page -1 Previous is enabled and hands
    on the negative page -2; on page 0.5 it hands on -0.5. *)
Lemma previous_hands_on_negative_page :
  AllocationList.AllocationList (utcRuntime 0 (fun _ => ok JNull))
    (fun _ => EmptyString) (Some []) (Some (JsNumber.Int (-1))) =
    Normal {| AllocationList.rows := [];
              AllocationList.previous :=
                {| AllocationList.disabled := false;
                   AllocationList.onClick := JsNumber.Int (-2) |};
              AllocationList.next :=
                {| AllocationList.disabled := false;
                   AllocationList.onClick := JsNumber.Int 0 |} |} /\
  AllocationList.click
    (AllocationList.previousButton (JsNumber.Int (-1))) =
    Some (JsNumber.Int (-2)) /\
  JsNumber.lessThan (JsNumber.Int (-2)) 0 = true /\
  AllocationList.click
    (AllocationList.previousButton (JsNumber.Frac 1 1)) =
    Some (JsNumber.Frac (-1) 1) /\
  JsNumber.lessThan (JsNumber.Frac (-1) 1) 0 = true.
Proof. repeat apply conj; by vm_compute. Qed.

(** ** Dates *)

Lemma noon_fields (d : Z) :
  let L := JsDate.MakeDate d (JsDate.MakeTime 12 0 0 0) in
  JsDate.Day L = d /\ JsDate.HourFromTime L = 12 /\
  JsDate.MinFromTime L = 0 /\ JsDate.SecFromTime L = 0 /\
  JsDate.msFromTime L = 0.
Proof.
  cbv zeta.
  unfold JsDate.MakeDate, JsDate.MakeTime, JsDate.Day, JsDate.HourFromTime,
    JsDate.MinFromTime, JsDate.SecFromTime, JsDate.msFromTime,
    JsDate.msPerDay, JsDate.msPerHour, JsDate.msPerMinute, JsDate.msPerSecond.
  repeat apply conj; Z.div_mod_to_equations; lia.
Qed.

Lemma MonthFromTime_range t :
  0 <= JsDate.MonthFromTime t <= 11.
Proof.
  unfold JsDate.MonthFromTime.
  repeat match goal with
         | |- context [if ?b then _ else _] => destruct b; [lia|]
         end.
  lia.
Qed.

(** Moving the day of the month by [n] moves the local time by [n] days. *)
Lemma MakeDay_shift t n :
  JsDate.MakeDate
    (JsDate.MakeDay (JsDate.YearFromTime t) (JsDate.MonthFromTime t)
                    (JsDate.DateFromTime t - n))
    (JsDate.TimeWithinDay t) = t - n * JsDate.msPerDay.
Proof.
  pose proof (MonthFromTime_range t) as Hm.
  unfold JsDate.MakeDate, JsDate.MakeDay, JsDate.DateFromTime,
    JsDate.DayWithinYear, JsDate.InLeapYear, JsDate.TimeWithinDay, JsDate.Day.
  rewrite (Z.div_small (JsDate.MonthFromTime t) 12) by lia.
  rewrite (Z.mod_small (JsDate.MonthFromTime t) 12) by lia.
  rewrite Z.add_0_r.
  pose proof (Z.div_mod t JsDate.msPerDay) as Hdm.
  unfold JsDate.msPerDay in *. lia.
Qed.

(** [YearFromTime] is the year of ECMA-262: the one whose first day is the
    last not after [t]. *)
Lemma YearFromTime_spec t :
  JsDate.DayFromYear (JsDate.YearFromTime t) <= JsDate.Day t
    < JsDate.DayFromYear (JsDate.YearFromTime t + 1).
Proof.
  unfold JsDate.YearFromTime. generalize (JsDate.Day t). intros d.
  set (y := 1970 + d * 400 / 146097).
  assert (JsDate.DayFromYear (y - 1) <= d < JsDate.DayFromYear (y + 2)) as Hb.
  { subst y. unfold JsDate.DayFromYear. Z.div_mod_to_equations. lia. }
  destruct (JsDate.DayFromYear (y + 1) <=? d) eqn:H1.
  - apply Z.leb_le in H1. replace (y + 1 + 1) with (y + 2) by lia. lia.
  - apply Z.leb_gt in H1.
    destruct (JsDate.DayFromYear y <=? d) eqn:H2.
    + apply Z.leb_le in H2. lia.
    + apply Z.leb_gt in H2. replace (y - 1 + 1) with y by lia. lia.
Qed.

(** Printed in ISO form, local noon in the UTC zone reads 12:00:00.000. *)
Lemma noon_iso_time (d : Z) :
  JsDate.isoTime (JsDate.MakeDate d (JsDate.MakeTime 12 0 0 0)) =
    "T12:00:00.000Z".
Proof.
  destruct (noon_fields d) as (_ & Hh & Hm & Hs & Hms).
  unfold JsDate.isoTime. rewrite Hh, Hm, Hs, Hms. reflexivity.
Qed.

(** ** The request [createBid] sends *)

(** C7.  For a [createBid] request that carries a farmer identifier: when
    the harvest date is a valid date, exactly one request goes out, a POST
    to [/bids] whose body has the harvest date replaced by the ISO string of
    the instant at which, on the same local calendar day, the local clock
    shows 12:00:00.000, has [status] equal to ["ACTIVE"] whatever the caller
    supplied, and agrees with the caller's request on every other field.
    When the harvest date is not a valid date nothing is sent: printing the
    date fails. *)
Theorem createBid_sends_normalized_request
    (rt : Runtime) (req : gmap string JsVal) (w : World) :
  truthy (prop req "farmerNic") = true ->
  (exists t L sentBody,
     new_Date rt (prop req "harvestDate") = Some t /\
     JsDate.Day L = JsDate.Day (JsDate.LocalTime (LocalTZA rt) t) /\
     JsDate.HourFromTime L = 12 /\ JsDate.MinFromTime L = 0 /\
     JsDate.SecFromTime L = 0 /\ JsDate.msFromTime L = 0 /\
     requests (snd (createBid rt (JObj req) w)) =
       requests w ++ [{| method := POST; url := "/bids";
                         body := JObj sentBody; params := NoParams;
                         signal := JUndefined |}] /\
     sentBody !! "harvestDate" =
       Some (JStr (JsDate.isoString (JsDate.UTC (LocalTZA rt) L))) /\
     sentBody !! "status" = Some (JStr "ACTIVE") /\
     forall k, k <> "harvestDate" -> k <> "status" ->
               sentBody !! k = req !! k)
  \/
  (JsDate.setHours (LocalTZA rt) (new_Date rt (prop req "harvestDate"))
                   12 0 0 0 = None /\
   requests (snd (createBid rt (JObj req) w)) = requests w /\
   fst (createBid rt (JObj req) w) = Throw (new_Error "Invalid time value")).
Proof.
  intros Hnic. unfold createBid, axios_post. run. rewrite Hnic. cbn.
  destruct (new_Date rt (prop req "harvestDate")) as [t|] eqn:Ht; cbn.
  - unfold JsDate.TimeClip.
    set (L := JsDate.MakeDate (JsDate.Day (JsDate.LocalTime (LocalTZA rt) t))
                              (JsDate.MakeTime 12 0 0 0)).
    destruct (Z.abs (JsDate.UTC (LocalTZA rt) L) <=? 8640000000000000);
      cbn.
    + left.
      destruct (noon_fields (JsDate.Day (JsDate.LocalTime (LocalTZA rt) t)))
        as (Hday & Hh & Hm & Hs & Hms). fold L in Hday, Hh, Hm, Hs, Hms.
      exists t, L,
        (<["status" := JStr "ACTIVE"]>
           (<["harvestDate" :=
                JStr (JsDate.isoString (JsDate.UTC (LocalTZA rt) L))]> req)).
      repeat apply conj; try done.
      * step_call rt; rewrite ?handleError_eq; reflexivity.
      * rewrite lookup_insert_ne by done. apply lookup_insert_eq.
      * apply lookup_insert_eq.
      * intros k Hk1 Hk2. by rewrite !lookup_insert_ne.
    + right. rewrite handleError_eq. cbn. done.
  - right. rewrite handleError_eq. cbn. done.
Qed.

(** ** Records returned by [getAllBids] *)

Arguments Http.mapM : simpl never.

Lemma mapM_cons {A B} (f : A -> Op B) x l :
  mapM f (x :: l) =
    bind (f x) (fun y => bind (mapM f l) (fun ys => ret (y :: ys))).
Proof. reflexivity. Qed.

Lemma join_strings sep (ids : list string) :
  join sep (map JStr ids) = String.concat sep ids.
Proof.
  unfold join, join_with. f_equal.
  induction ids as [|s ids IH]; cbn; [done|]. by rewrite IH.
Qed.

Lemma buyers_collected offers ids w :
  offer_buyers offers ids ->
  mapM (fun offer => lift (getProp offer "buyerNic")) offers w =
    (Normal (map JStr ids), w).
Proof.
  induction 1 as [|offer id offers ids (o & -> & Ho) _ IH]; [done|].
  rewrite mapM_cons. unfold bind. cbn. rewrite IH.
  unfold prop. rewrite Ho. reflexivity.
Qed.

Lemma nonempty_length_positive rt {A} (x : A) (l : list A) :
  greater_than_zero rt (JNum (Z.of_nat (length (x :: l)))) = true.
Proof. apply lessThan_zero_Int. cbn [length]. lia. Qed.

Lemma decorateBid_record rt bid b offers ids w :
  bid_record bid b offers ids ->
  exists out,
    decorateBid rt bid w = (Normal (JObj out), w) /\
    out !! "bidOffers" = Some (JArr offers) /\
    out !! "buyerNic" = Some (display_buyer b ids).
Proof.
  intros (-> & Hoffers & Hbuyers).
  assert (length offers = length ids) as Hlen
    by (eapply Forall2_length; exact Hbuyers).
  assert (exists v, or_else (prop b "bidOffers") (JArr []) = JArr offers /\
                    prop b "bidOffers" = v /\
                    (v = JArr offers \/ truthy v = false /\ offers = []))
    as (v & Hor & Hv & Hcases).
  { unfold received_offers, prop in *.
    destruct (b !! "bidOffers") as [[]|]; cbn in *;
      try discriminate; injection Hoffers as <-; eauto 6. }
  assert (forall buyer createdAt price,
            let out : gmap string JsVal :=
              <["createdAt" := createdAt]>
                (<["winningBidPrice" := price]>
                   (<["buyerNic" := buyer]>
                      (<["bidOffers" := JArr offers]> b))) in
            out !! "bidOffers" = Some (JArr offers) /\
            out !! "buyerNic" = Some buyer) as Hlookup.
  { intros. subst out. split.
    - rewrite !lookup_insert_ne by done. apply lookup_insert_eq.
    - rewrite !lookup_insert_ne by done. apply lookup_insert_eq. }
  unfold decorateBid, display_buyer, bind, ret, throw. cbn.
  rewrite Hor, Hv.
  destruct (truthy (prop b "winningBuyerNic")) eqn:Hwin; cbn.
  { eexists. split; [reflexivity|]. apply Hlookup. }
  destruct Hcases as [-> | [Hfalsy ->]]; cbn.
  - destruct offers as [|offer offers].
    + destruct ids; [|discriminate Hlen]. cbn.
      eexists. split; [reflexivity|]. apply Hlookup.
    + destruct ids as [|id ids]; [discriminate Hlen|].
      rewrite nonempty_length_positive.
      rewrite (buyers_collected _ _ w Hbuyers). cbn -[String.concat join map].
      eexists. split; [reflexivity|].
      rewrite join_strings. apply Hlookup.
  - destruct ids; [|discriminate Hlen]. rewrite Hfalsy. cbn.
    eexists. split; [reflexivity|]. apply Hlookup.
Qed.

Lemma map_data_records rt bids w :
  Forall (fun bid => exists b offers ids, bid_record bid b offers ids) bids ->
  exists outs,
    map_data rt (JArr bids) w = (Normal (JArr outs), w) /\
    Forall2 (fun bid out =>
               exists b offers ids o,
                 bid_record bid b offers ids /\ out = JObj o /\
                 o !! "bidOffers" = Some (JArr offers) /\
                 o !! "buyerNic" = Some (display_buyer b ids))
            bids outs.
Proof.
  intros Hbids.
  assert (exists outs,
            mapM (decorateBid rt) bids w = (Normal outs, w) /\
            Forall2 (fun bid out =>
               exists b offers ids o,
                 bid_record bid b offers ids /\ out = JObj o /\
                 o !! "bidOffers" = Some (JArr offers) /\
                 o !! "buyerNic" = Some (display_buyer b ids))
              bids outs) as (outs & Hrun & Hall).
  { induction Hbids
      as [|bid bids (b & offers & ids & Hrec) _ (outs & IH & Hall)].
    - exists []. split; [reflexivity | constructor].
    - destruct (decorateBid_record rt bid b offers ids w Hrec)
        as (out & Hout & Hbo & Hbn).
      exists (JObj out :: outs). split.
      + rewrite mapM_cons. unfold bind. rewrite Hout, IH. reflexivity.
      + constructor; [|exact Hall]. exists b, offers, ids, out. done. }
  exists outs. split; [|exact Hall].
  cbn. unfold bind. rewrite Hrun. reflexivity.
Qed.

(** C3.  When the backend answers the list call with an array of bid
    records, [getAllBids] returns one record per bid, in order; in each, the
    [bidOffers] field is the list of offers received (the empty list when
    the backend left the field out) and [buyerNic] is the winning buyer when
    there is one, else the buyers of the offers joined by ", " in the order
    received, else "-" when there are no offers. *)
Theorem getAllBids_reshapes_records
    (rt : Runtime) (arg : JsVal) (w : World) (rq : Request)
    (resp : AxiosResponse) (bids : list JsVal) :
  requests (snd (getAllBids rt arg w)) = requests w ++ [rq] ->
  backend rt rq = inr resp ->
  data resp = JArr bids ->
  Forall (fun bid => exists b offers ids, bid_record bid b offers ids) bids ->
  exists outs,
    fst (getAllBids rt arg w) = Normal (JArr outs) /\
    Forall2 (fun bid out =>
               exists b offers ids o,
                 bid_record bid b offers ids /\ out = JObj o /\
                 o !! "bidOffers" = Some (JArr offers) /\
                 o !! "buyerNic" =
                   Some (if truthy (prop b "winningBuyerNic")
                         then prop b "winningBuyerNic"
                         else match ids with
                              | [] => JStr "-"
                              | _ => JStr (String.concat ", " ids)
                              end))
            bids outs.
Proof.
  intros Hsent Hback Hdata Hbids. revert Hsent.
  unfold getAllBids.
  destruct arg; try (cbn; by intros []%nothing_sent).
  all: unfold getAllBids_body, axios_get; run; guards.
  all: step_call rt; [|rewrite ?handleError_eq; cbn; intros <-%one_sent; congruence].
  all: match goal with
       | |- context [map_data ?r ?d ?w] =>
           destruct (map_data_pure r d w) as [c Hc]; rewrite Hc;
           destruct c; cbn; rewrite ?handleError_eq; cbn;
           intros <-%one_sent;
           assert (resp0 = resp) as -> by congruence;
           rewrite Hdata in Hc
       end.
  all: match type of Hc with
       | map_data ?r _ ?w' = _ =>
           destruct (map_data_records r bids w' Hbids)
             as (outs' & Hrun' & Hall'); rewrite Hrun' in Hc
       end.
  all: try discriminate Hc.
  all: injection Hc as <-; eexists; split; [reflexivity|exact Hall'].
Qed.

(** ** The query of the list operations *)

Lemma prop_delete_ne (o : gmap string JsVal) k k' :
  k <> k' -> prop (delete k o) k' = prop o k'.
Proof. intros H. unfold prop. by rewrite lookup_delete_ne. Qed.

Lemma TimeClip_in_range t : in_range t -> JsDate.TimeClip t = Some t.
Proof.
  unfold in_range, JsDate.TimeClip. intros H.
  by rewrite (proj2 (Z.leb_le _ _) H).
Qed.

Lemma keepFilter_false v :
  truthy v = false \/ v = JStr "ALL" -> keepFilter v = false.
Proof. unfold keepFilter. intros [-> | ->]; reflexivity. Qed.

Ltac absent_param :=
  unfold param_names; cbn;
  rewrite ?elem_of_cons, ?elem_of_nil; intuition discriminate.

(** C2 (as amended).  In the query [getAllBids] sends, [status] is left out
    when the status filter is empty or "all", [fromDate] when the date range
    is empty and [searchTerm] when the search term is empty, and no other
    parameter occurs; in the query [getFilteredBids] sends, every filter that
    is empty or "ALL" is left out.  For the filters [{status: "ACTIVE",
    dateRange: "7"}] the query of [getAllBids] is exactly [status=ACTIVE]
    followed by [fromDate], the ISO string of the instant seven local
    calendar days before now (seven times 24 hours before now when the zone
    has a constant offset). *)
Theorem list_queries_omit_unset_filters
    (rt : Runtime) (arg filters : gmap string JsVal) (w : World)
    (rq rq' : Request) :
  requests (snd (getAllBids rt (JObj arg) w)) = requests w ++ [rq] ->
  requests (snd (getFilteredBids rt (JObj filters) w)) =
    requests w ++ [rq'] ->
  in_range (now rt) ->
  in_range (JsDate.UTC (LocalTZA rt)
              (JsDate.LocalTime (LocalTZA rt) (now rt) - 7 * JsDate.msPerDay)) ->
  (exists ps,
     params rq = SearchParams ps /\
     (truthy (prop arg "status") = false \/ prop arg "status" = JStr "all" ->
      "status" ∉ param_names ps) /\
     (truthy (prop arg "dateRange") = false -> "fromDate" ∉ param_names ps) /\
     (truthy (prop arg "searchTerm") = false ->
      "searchTerm" ∉ param_names ps) /\
     (forall k, k ∈ param_names ps ->
                k ∈ ["status"; "fromDate"; "searchTerm"])) /\
  (exists o,
     params rq' = ObjectParams o /\
     forall k, truthy (prop filters k) = false \/ prop filters k = JStr "ALL" ->
               o !! k = None) /\
  requests (snd (getAllBids rt
                   (JObj {[ "status" := JStr "ACTIVE";
                            "dateRange" := JStr "7" ]}) w)) =
    requests w ++
      [{| method := GET; url := "/bids/admin/all"; body := JUndefined;
          params :=
            SearchParams
              [("status", "ACTIVE");
               ("fromDate",
                JsDate.isoString
                  (JsDate.UTC (LocalTZA rt)
                     (JsDate.LocalTime (LocalTZA rt) (now rt)
                      - 7 * JsDate.msPerDay)))];
          signal := JUndefined |}] /\
  (forall offset,
     (forall t b, LocalTZA rt t b = offset) ->
     JsDate.UTC (LocalTZA rt)
       (JsDate.LocalTime (LocalTZA rt) (now rt) - 7 * JsDate.msPerDay) =
     now rt - 7 * JsDate.msPerDay).
Proof.
  intros Hall Hfiltered Hnow Hfrom. repeat apply conj.
  - revert Hall. unfold getAllBids. cbn [ownProps getPropOpt getProp].
    unfold getAllBids_body, axios_get. run.
    rewrite !prop_delete_ne by done.
    destruct (truthy (prop arg "status")) eqn:Hs;
      destruct (strict_eq_str (prop arg "status") "all") eqn:Hsall;
      destruct (truthy (prop arg "dateRange")) eqn:Hd;
      destruct (truthy (prop arg "searchTerm")) eqn:Ht; cbn;
      guards.
    all: step_call rt;
      [ match goal with
        | |- context [map_data ?r ?d ?w] =>
            let c := fresh "c" in
            destruct (map_data_pure r d w) as [c ->]; destruct c; cbn;
            rewrite ?handleError_eq; cbn
        end
      | rewrite ?handleError_eq; cbn ].
    all: intros <-%one_sent; cbn; eexists; split; [reflexivity|].
    all: repeat apply conj;
      try (intros [Hf | Hf]; [discriminate Hf|];
           rewrite Hf in Hsall; discriminate Hsall);
      try (intros Hf; discriminate Hf);
      try absent_param.
    all: intros k; unfold param_names; cbn;
      rewrite ?elem_of_cons, ?elem_of_nil; intuition.
  - revert Hfiltered. unfold getFilteredBids, axios_get. run.
    step_call rt; rewrite ?handleError_eq; cbn; intros <-%one_sent; cbn.
    all: eexists; split; [reflexivity|].
    all: intros k Hk%keepFilter_false; apply map_lookup_filter_None;
      unfold prop in Hk; destruct (filters !! k) as [v|] eqn:Hv;
      [right|by left]; intros v' [= <-]; cbn in *; rewrite Hk; intros [].
  - unfold getAllBids. cbn [ownProps getPropOpt getProp].
    unfold getAllBids_body, axios_get. run.
    set (m := ({[ "status" := JStr "ACTIVE"; "dateRange" := JStr "7" ]}
               : gmap string JsVal)).
    assert (prop (delete "signal" m) "status" = JStr "ACTIVE") as ->
      by (vm_compute; reflexivity).
    assert (prop (delete "signal" m) "dateRange" = JStr "7") as ->
      by (vm_compute; reflexivity).
    assert (prop (delete "signal" m) "searchTerm" = JUndefined) as ->
      by (vm_compute; reflexivity).
    assert (prop m "signal" = JUndefined) as -> by (vm_compute; reflexivity).
    assert (parseInt (JStr "7") = Some 7) as -> by (vm_compute; reflexivity).
    cbn. unfold new_Date_now. rewrite (TimeClip_in_range _ Hnow). cbn.
    rewrite MakeDay_shift, (TimeClip_in_range _ Hfrom). cbn.
    step_call rt;
      [ match goal with
        | |- context [map_data ?r ?d ?w] =>
            let c := fresh "c" in
            destruct (map_data_pure r d w) as [c ->]; destruct c; cbn;
            rewrite ?handleError_eq; cbn
        end
      | rewrite ?handleError_eq; cbn ];
      reflexivity.
  - intros offset Hzone. unfold JsDate.UTC, JsDate.LocalTime.
    rewrite !Hzone. lia.
Qed.

(** C2 (as stated) fails: "all" is a sentinel of the status filter only.  A
    search for the term "all" is sent as [searchTerm=all]. *)
Lemma all_is_a_search_term :
  requests (snd (getAllBids (utcRuntime 1700000000000 (fun _ => ok (JArr [])))
                   (JObj {[ "searchTerm" := JStr "all" ]}) world0)) =
    [{| method := GET; url := "/bids/admin/all"; body := JUndefined;
        params := SearchParams [("searchTerm", "all")];
        signal := JUndefined |}].
Proof. vm_compute. reflexivity. Qed.

(** ** Concrete runs *)

(** In Colombo, a harvest date of 2023-11-15 03:43:20 local time is sent as
    noon of that day, 06:30 UTC, and the status the caller supplied is
    overwritten. *)
Example createBid_in_colombo :
  requests (snd (createBid (colomboRuntime 0 (fun _ => ok JNull))
                   (JObj sampleCreateRequest) world0)) =
    [{| method := POST; url := "/bids";
        body := JObj {[ "farmerNic" := JStr "851234567V";
                        "harvestDate" := JStr "2023-11-15T06:30:00.000Z";
                        "minimumPrice" := JNum 120;
                        "status" := JStr "ACTIVE" ]};
        params := NoParams; signal := JUndefined |}].
Proof. vm_compute. reflexivity. Qed.

Example getAllBids_sample :
  fst (getAllBids (colomboRuntime 0 (fun _ => ok (JArr sampleBids)))
         JUndefined world0) =
    Normal (JArr
      [ JObj {[ "id" := JNum 1; "winningBuyerNic" := JStr "901234567V";
                "bidOffers" := JArr [JObj {[ "buyerNic" := JStr "901234567V" ]}];
                "buyerNic" := JStr "901234567V";
                "winningBidPrice" := JNull;
                "createdAt" := JStr "Invalid Date" ]};
        JObj {[ "id" := JNum 2;
                "bidOffers" := JArr [JObj {[ "buyerNic" := JStr "911111111V" ]};
                                     JObj {[ "buyerNic" := JStr "922222222V" ]}];
                "buyerNic" := JStr "911111111V, 922222222V";
                "winningBidPrice" := JNull;
                "createdAt" := JStr "Invalid Date" ]};
        JObj {[ "id" := JNum 3;
                "bidOffers" := JArr [];
                "buyerNic" := JStr "-";
                "winningBidPrice" := JNull;
                "createdAt" := JStr "Invalid Date" ]} ]).
Proof. vm_compute. reflexivity. Qed.

(** A date range of "all" is not skipped: it is parsed as a number of days,
    the date becomes invalid and the operation fails before the call. *)
Example getAllBids_dateRange_all :
  getAllBids (colomboRuntime 1700000000000 (fun _ => ok (JArr [])))
    (JObj {[ "dateRange" := JStr "all" ]}) world0 =
    (Throw (new_Error "Invalid time value"),
     {| requests := [];
        console := [[LStr "API Error:";
                     LError (RangeError "Invalid time value")]] |}).
Proof. vm_compute. reflexivity. Qed.

(** An unclassified error keeps its own message. *)
Example handleError_keeps_own_message :
  normalized (httpError 422 JNull "/bids") =
    new_Error "Request failed with status code 422".
Proof. vm_compute. reflexivity. Qed.

(** Numbers print as JavaScript prints them: 12.5, 0.1, 10^21, 2^53 + 1
    (which no double equals), the least positive double. *)
Example toString_samples :
  map ToString
    [ JNum 7; JNum (-120); JNum (JsNumber.Frac 25 1);
      JNum (JsNumber.Frac 3602879701896397 55); JNum (10 ^ 21);
      JNum (2 ^ 53 + 1); JNum (JsNumber.Frac 1 1074);
      JNum JsNumber.NegZero; JNaN; JNum (JsNumber.Infinity true) ] =
    [ "7"; "-120"; "12.5"; "0.1"; "1e+21"; "9007199254740992"; "5e-324";
      "0"; "NaN"; "-Infinity" ].
Proof. by vm_compute. Qed.

(** An identifier of 10^21 is spliced into the path in exponent form, one
    of 1.5 with its fraction. *)
Example getBidDetails_numeric_identifiers :
  requests (snd (getBidDetails (utcRuntime 0 (fun _ => ok JNull))
                   (JNum (10 ^ 21)) world0)) =
    [plainRequest GET "/bids/1e+21" JUndefined NoParams] /\
  requests (snd (getBidDetails (utcRuntime 0 (fun _ => ok JNull))
                   (JNum (JsNumber.Frac 3 1)) world0)) =
    [plainRequest GET "/bids/1.5" JUndefined NoParams].
Proof. split; by vm_compute. Qed.

Example getAllBids_numeric_status :
  requests (snd (getAllBids (utcRuntime 0 (fun _ => ok (JArr [])))
                   (JObj {[ "status" := JNum (10 ^ 21) ]}) world0)) =
    [listRequest [("status", "1e+21")]].
Proof. by vm_compute. Qed.

(** An offer of 150.5 goes out as it is. *)
Example placeBid_fractional_amount :
  let offer :=
    JObj {[ "bidId" := JNum 7; "buyerNic" := JStr "901234567V";
            "bidAmount" := JNum (JsNumber.Frac 301 1) ]} in
  requests (snd (placeBid (utcRuntime 0 (fun _ => ok JNull)) offer world0)) =
    [plainRequest POST "/bids/offer" offer NoParams].
Proof. by vm_compute. Qed.

(** One allocation whose distribution date does not parse, and nothing is
    rendered. *)
Example AllocationList_unreadable_date :
  AllocationList.AllocationList (utcRuntime 0 (fun _ => ok JNull))
    (fun _ => "Jan 01, 1970")
    (Some [ {| AllocationList.id := 1;
               AllocationList.farmerNic := "851234567V";
               AllocationList.allocatedAmount := JsNumber.Frac 25 1;
               AllocationList.season := "MAHA";
               AllocationList.year := 2024;
               AllocationList.distributionDate := Some "soon";
               AllocationList.distributionLocation := None;
               AllocationList.status := "PENDING" |} ])
    (Some (JsNumber.Int 0)) =
    Throw (RangeError "Invalid time value").
Proof. by vm_compute. Qed.

(** The same allocation without a date is one row. *)
Example AllocationList_row :
  AllocationList.row (utcRuntime 0 (fun _ => ok JNull))
    (fun _ => "Jan 01, 1970")
    {| AllocationList.id := 1;
       AllocationList.farmerNic := "851234567V";
       AllocationList.allocatedAmount := JsNumber.Frac 25 1;
       AllocationList.season := "MAHA";
       AllocationList.year := 2024;
       AllocationList.distributionDate := None;
       AllocationList.distributionLocation := None;
       AllocationList.status := "PENDING" |} =
    Normal {| AllocationList.key := 1;
              AllocationList.cells :=
                [ "851234567V"; "12.5 kg"; "MAHA 2024"; "Not Set"; "";
                  "PENDING" ];
              AllocationList.badgeClass :=
                "px-2 py-1 text-xs rounded-full bg-yellow-100 text-yellow-800"
           |}.
Proof. by vm_compute. Qed.

(** At 2^53 Next hands on the page it is on. *)
Example next_at_the_last_page_index :
  AllocationList.click (AllocationList.nextButton (2 ^ 53)) =
    Some (JsNumber.Int (2 ^ 53)).
Proof. by vm_compute. Qed.

(** ** The properties at concrete inputs *)

Lemma missing_identifier_witness :
  fails_before_network
    (createBid (colomboRuntime 0 (fun _ => ok JNull))
       (JObj {[ "harvestDate" := JNum 1700000000000 ]}))
    "Farmer NIC is required" /\
  fails_before_network
    (acceptBidOffer (colomboRuntime 0 (fun _ => ok JNull))
       (JNum 7) JUndefined)
    "Bid ID and Buyer NIC are required".
Proof.
  pose proof (missing_identifier_fails_before_network
                (colomboRuntime 0 (fun _ => ok JNull))
                {[ "harvestDate" := JNum 1700000000000 ]}
                {[ "bidId" := JNum 7; "bidAmount" := JNum 150 ]}
                (JNum 7) JUndefined JUndefined (JStr "CANCELLED")
                (JNum 7) (JStr "901234567V") JUndefined) as H.
  destruct H as (Hcreate & _ & _ & _ & _ & Haccept & _).
  - reflexivity.
  - right; left. reflexivity.
  - right. reflexivity.
  - left. reflexivity.
  - right; right. reflexivity.
  - split; assumption.
Defined.

Lemma zero_amount_witness :
  fails_before_network
    (placeBid (colomboRuntime 0 (fun _ => ok JNull))
       (JObj {[ "bidId" := JNum 7; "buyerNic" := JStr "901234567V";
                "bidAmount" := JNum 0 ]}))
    "Bid ID, Buyer NIC, and bid amount are required" /\
  fails_before_network
    (forceCompleteBid (colomboRuntime 0 (fun _ => ok JNull))
       (JNum 7) (JStr "901234567V") (JNum 0))
    "Bid ID, Buyer NIC, and amount are required".
Proof.
  apply (zero_amount_fails_validation
           (colomboRuntime 0 (fun _ => ok JNull))
           {[ "bidId" := JNum 7; "buyerNic" := JStr "901234567V";
              "bidAmount" := JNum 0 ]}
           (JNum 7) (JStr "901234567V")).
  reflexivity.
Defined.

Lemma interceptor_witness :
  fst (interceptResponse (inl (httpError 404 JNull "/bids/99")) world0) =
    Throw (httpError 404 JNull "/bids/99").
Proof.
  apply (interceptor_passes_outcome_unchanged
           (inl (httpError 404 JNull "/bids/99")) world0).
  intros e [= <-]. unfold axios_raised. simpl. discriminate.
Defined.

Lemma acceptBidOffer_500_witness :
  fst (acceptBidOffer (colomboRuntime 0 (failing 500 JNull))
         (JNum 7) (JStr "901234567V") world0) =
    Throw (new_Error
             "Server error while processing the offer. Please try again.").
Proof.
  apply (acceptBidOffer_500_specific_message
           (colomboRuntime 0 (failing 500 JNull))
           (JNum 7) (JStr "901234567V") world0
           {| method := POST; url := "/bids/7/accept-offer"; body := JNull;
              params := ObjectParams {[ "buyerNic" := JStr "901234567V" ]};
              signal := JUndefined |}
           (httpError 500 JNull "/bids/7/accept-offer")).
  - vm_compute. reflexivity.
  - reflexivity.
  - reflexivity.
Defined.

Lemma normalized_messages_witness :
  normalized (networkError "/bids/active") =
    new_Error "Cannot connect to server. Please check your connection." /\
  normalized (httpError 404 JNull "/bids/99") =
    new_Error "The requested resource was not found." /\
  normalized (httpError 409 JNull "/bids/offer") =
    new_Error "This operation conflicts with an existing resource." /\
  normalized (httpError 422 JNull "/bids") =
    new_Error "Request failed with status code 422" /\
  NoDup [message (normalized (networkError "/bids/active"));
         message (normalized (httpError 404 JNull "/bids/99"));
         message (normalized (httpError 409 JNull "/bids/offer"));
         message (normalized (httpError 422 JNull "/bids"))].
Proof.
  destruct (normalized_messages_distinct
              (networkError "/bids/active") (httpError 404 JNull "/bids/99")
              (httpError 409 JNull "/bids/offer") (httpError 422 JNull "/bids"))
    as (Hnet & H404 & H409 & Hother & _ & Hdistinct).
  - reflexivity.
  - reflexivity.
  - reflexivity.
  - reflexivity.
  - repeat apply conj; try assumption.
    apply Hdistinct.
    change (message (httpError 422 JNull "/bids"))
      with "Request failed with status code 422".
    rewrite !elem_of_cons, elem_of_nil. intuition discriminate.
Defined.

Lemma backend_message_witness :
  fst (invoke (colomboRuntime 0
                 (failing 409 (JObj {[ "message" := JStr "Bid is closed" ]})))
         (PlaceBid (JObj {[ "bidId" := JNum 7;
                            "buyerNic" := JStr "901234567V";
                            "bidAmount" := JNum 150 ]}))
         world0) =
    Throw (new_Error "Bid is closed").
Proof.
  apply (backend_message_takes_precedence
           (colomboRuntime 0
              (failing 409 (JObj {[ "message" := JStr "Bid is closed" ]})))
           (PlaceBid (JObj {[ "bidId" := JNum 7;
                              "buyerNic" := JStr "901234567V";
                              "bidAmount" := JNum 150 ]}))
           world0
           {| method := POST; url := "/bids/offer";
              body := JObj {[ "bidId" := JNum 7;
                              "buyerNic" := JStr "901234567V";
                              "bidAmount" := JNum 150 ]};
              params := NoParams; signal := JUndefined |}
           (httpError 409 (JObj {[ "message" := JStr "Bid is closed" ]})
              "/bids/offer")
           "Bid is closed").
  - unfold call_failed_with, axios_raised.
    split; [vm_compute; reflexivity|].
    split; [reflexivity|]. intros _. discriminate.
  - reflexivity.
  - discriminate.
  - reflexivity.
Defined.

Lemma createBid_request_witness :
  exists sentBody,
    requests (snd (createBid (colomboRuntime 0 (fun _ => ok JNull))
                     (JObj sampleCreateRequest) world0)) =
      [{| method := POST; url := "/bids"; body := JObj sentBody;
          params := NoParams; signal := JUndefined |}] /\
    sentBody !! "status" = Some (JStr "ACTIVE") /\
    sentBody !! "minimumPrice" = Some (JNum 120).
Proof.
  destruct (createBid_sends_normalized_request
              (colomboRuntime 0 (fun _ => ok JNull))
              sampleCreateRequest world0)
    as [(t & L & sentBody & _ & _ & _ & _ & _ & _ & Hsent & _ & Hstatus
         & Hframe) | (Hinvalid & _)].
  - reflexivity.
  - exists sentBody. split; [exact Hsent|]. split; [exact Hstatus|].
    rewrite Hframe by discriminate. reflexivity.
  - vm_compute in Hinvalid. discriminate Hinvalid.
Defined.

Lemma getAllBids_records_witness :
  exists outs,
    fst (getAllBids (colomboRuntime 0 (fun _ => ok (JArr sampleBids)))
           JUndefined world0) = Normal (JArr outs) /\
    length outs = 3%nat.
Proof.
  destruct (getAllBids_reshapes_records
              (colomboRuntime 0 (fun _ => ok (JArr sampleBids)))
              JUndefined world0 (listRequest [])
              {| status := 200; data := JArr sampleBids |} sampleBids)
    as (outs & Hrun & Hall).
  - vm_compute. reflexivity.
  - reflexivity.
  - reflexivity.
  - unfold sampleBids. repeat apply Forall_cons_2; [| | |apply Forall_nil_2].
    + eexists _, _, ["901234567V"]. split; [reflexivity|].
      split; [vm_compute; reflexivity|].
      repeat constructor. eexists. split; [reflexivity|]. reflexivity.
    + eexists _, _, ["911111111V"; "922222222V"]. split; [reflexivity|].
      split; [vm_compute; reflexivity|].
      repeat constructor; eexists; (split; [reflexivity|]); reflexivity.
    + eexists _, _, []. split; [reflexivity|].
      split; [vm_compute; reflexivity|]. constructor.
  - exists outs. split; [exact Hrun|].
    apply Forall2_length in Hall. rewrite <- Hall. reflexivity.
Defined.

Lemma list_query_witness :
  requests (snd (getAllBids (colomboRuntime 1700000000000
                               (fun _ => ok (JArr [])))
                   (JObj {[ "status" := JStr "ACTIVE";
                            "dateRange" := JStr "7" ]}) world0)) =
    [listRequest [("status", "ACTIVE");
                  ("fromDate", "2023-11-07T22:13:20.000Z")]].
Proof.
  destruct (list_queries_omit_unset_filters
              (colomboRuntime 1700000000000 (fun _ => ok (JArr [])))
              {[ "status" := JStr "all"; "searchTerm" := JStr "" ]}
              {[ "status" := JStr "ALL"; "district" := JStr "Kandy" ]}
              world0
              (listRequest [])
              {| method := GET; url := "/bids/active"; body := JUndefined;
                 params := ObjectParams {[ "district" := JStr "Kandy" ]};
                 signal := JUndefined |})
    as (_ & _ & Hscenario & _).
  - vm_compute. reflexivity.
  - vm_compute. reflexivity.
  - unfold in_range. vm_compute. discriminate.
  - unfold in_range. vm_compute. discriminate.
  - rewrite Hscenario. vm_compute. reflexivity.
Defined.

Lemma pagination_witness :
  let view :=
    {| AllocationList.rows := [];
       AllocationList.previous := AllocationList.previousButton 3;
       AllocationList.next := AllocationList.nextButton 3 |} in
  AllocationList.AllocationList (utcRuntime 0 (fun _ => ok JNull))
    (fun _ => EmptyString) (Some []) (Some (JsNumber.Int 3)) = Normal view /\
  AllocationList.click (AllocationList.previous view) =
    Some (JsNumber.Int 2) /\
  AllocationList.click (AllocationList.next view) = Some (JsNumber.Int 4).
Proof.
  cbv zeta. split; [reflexivity|].
  destruct (pagination_controls
              (utcRuntime 0 (fun _ => ok JNull)) (fun _ => EmptyString)
              (Some []) (Some (JsNumber.Int 3))
              {| AllocationList.rows := [];
                 AllocationList.previous := AllocationList.previousButton 3;
                 AllocationList.next := AllocationList.nextButton 3 |}
              eq_refl)
    as (_ & _ & _ & _ & Hindex & _).
  destruct (Hindex 3) as (Hprevious & Hnext & _).
  - unfold page_index. lia.
  - reflexivity.
  - split; [exact Hprevious | exact Hnext].
Defined.

(** * Further properties of the code *)

(** ** No retries, no leaked transport errors *)

Lemma normalized_plain e : exists m, normalized e = new_Error m.
Proof.
  unfold normalized, handleError, bind, console_error, ret. cbn.
  repeat match goal with
         | |- context [if ?b then _ else _] => destruct b
         end; eexists; reflexivity.
Qed.

(** Closes a goal about the requests of a finished run: none or one. *)
Ltac count_requests :=
  first [ left; reflexivity | right; eexists; reflexivity ].

Ltac finish_call rt tac :=
  step_call rt;
  [ try (match goal with
         | |- context [map_data ?r ?d ?w] =>
             let c := fresh "c" in
             destruct (map_data_pure r d w) as [c ->]; destruct c; cbn;
             rewrite ?handleError_eq; cbn
         end); tac
  | try (match goal with
         | |- context [status_is ?e 500] => destruct (status_is e 500); cbn
         end);
    rewrite ?handleError_eq; cbn; tac ].

(** X1.  An invocation of the service hands at most one request to the
    transport, whatever the backend answers, and leaves the requests sent
    before it in place: nothing is retried. *)
Theorem invoke_sends_at_most_one_request (rt : Runtime) (c : Call) (w : World) :
  requests (snd (invoke rt c w)) = requests w \/
  exists rq, requests (snd (invoke rt c w)) = requests w ++ [rq].
Proof.
  destruct c; cbn [invoke].
  - unfold createBid, axios_post. run. guards;
      first [count_requests | finish_call rt count_requests].
  - unfold getAllBids.
    destruct arg; try (cbn; by left);
      unfold getAllBids_body, axios_get; run; guards;
      first [count_requests | finish_call rt count_requests].
  - unfold getFilteredBids, axios_get.
    destruct filters; run; guards;
      first [count_requests | finish_call rt count_requests].
  - unfold getFarmerBids, axios_get. run. guards;
      first [count_requests | finish_call rt count_requests].
  - unfold getBuyerWinningBids, axios_get, console_error. run. guards;
      first [count_requests | finish_call rt count_requests].
  - unfold getBidDetails, axios_get. run. guards;
      first [count_requests | finish_call rt count_requests].
  - unfold placeBid, axios_post. run. guards;
      first [count_requests | finish_call rt count_requests].
  - unfold acceptBidOffer, axios_post. run. guards;
      first [count_requests | finish_call rt count_requests].
  - unfold cancelBid, axios_post. run. guards;
      first [count_requests | finish_call rt count_requests].
  - unfold updateBidStatus, axios_put. run. guards;
      first [count_requests | finish_call rt count_requests].
  - unfold forceCompleteBid, axios_put. run. guards;
      first [count_requests | finish_call rt count_requests].
  - unfold getBidStatistics, axios_get. run. guards;
      first [count_requests | finish_call rt count_requests].
Qed.

Lemma normalized_plain_thrown e :
  exists m, Throw (A := JsVal) (normalized e) = Throw (new_Error m).
Proof. destruct (normalized_plain e) as [m ->]. eauto. Qed.

Ltac thrown_plain :=
  first [ discriminate
        | intros [= <-]; first [apply normalized_plain | eexists; reflexivity] ].

Lemma thrown_error_plain rt c w e :
  c <> GetAllBids JNull ->
  fst (invoke rt c w) = Throw e -> exists m, e = new_Error m.
Proof.
  intros Hc. revert e.
  destruct c; cbn [invoke]; intros e.
  - unfold createBid, axios_post. run. guards;
      first [thrown_plain | finish_call rt thrown_plain].
  - unfold getAllBids.
    destruct arg; try done;
      unfold getAllBids_body, axios_get; run; guards;
      first [thrown_plain | finish_call rt thrown_plain].
  - unfold getFilteredBids, axios_get.
    destruct filters; run; guards;
      first [thrown_plain | finish_call rt thrown_plain].
  - unfold getFarmerBids, axios_get. run. guards;
      first [thrown_plain | finish_call rt thrown_plain].
  - unfold getBuyerWinningBids, axios_get, console_error. run. guards;
      first [thrown_plain | finish_call rt thrown_plain].
  - unfold getBidDetails, axios_get. run. guards;
      first [thrown_plain | finish_call rt thrown_plain].
  - unfold placeBid, axios_post. run. guards;
      first [thrown_plain | finish_call rt thrown_plain].
  - unfold acceptBidOffer, axios_post. run. guards;
      first [thrown_plain | finish_call rt thrown_plain].
  - unfold cancelBid, axios_post. run. guards;
      first [thrown_plain | finish_call rt thrown_plain].
  - unfold updateBidStatus, axios_put. run. guards;
      first [thrown_plain | finish_call rt thrown_plain].
  - unfold forceCompleteBid, axios_put. run. guards;
      first [thrown_plain | finish_call rt thrown_plain].
  - unfold getBidStatistics, axios_get. run. guards;
      first [thrown_plain | finish_call rt thrown_plain].
Qed.

(** X2.  Whatever goes wrong, the error an operation throws is a plain
    [Error] that carries a message only: the axios error, with its response
    and code, never reaches the caller.  The one exception is [getAllBids]
    called with [null]: destructuring its parameter fails before the [try]
    block is entered, so a raw [TypeError] escapes, with nothing sent and
    nothing logged. *)
Theorem thrown_errors_are_normalized
    (rt : Runtime) (c : Call) (w : World) (e : JsError) :
  fst (invoke rt c w) = Throw e ->
  (c <> GetAllBids JNull -> exists m, e = new_Error m) /\
  (c = GetAllBids JNull ->
   name e = "TypeError" /\ snd (invoke rt c w) = w).
Proof.
  intros Hthrown. split.
  - intros Hc. by apply (thrown_error_plain rt c w).
  - intros ->. cbn in *. injection Hthrown as <-. done.
Qed.

(** ** What a successful call returns *)

Ltac settled_ok resp :=
  intros <-%one_sent;
  first [ congruence
        | match goal with
          | Hs : backend _ ?rq = inr ?a |- _ =>
              assert (a = resp) as -> by congruence; reflexivity
          end ].

(** X3.  Except for [getAllBids], which reshapes its records, every
    operation whose call succeeds returns the body of the backend's answer
    untouched, and writes nothing to the console. *)
Theorem success_returns_backend_data
    (rt : Runtime) (c : Call) (w : World) (rq : Request)
    (resp : AxiosResponse) :
  (forall arg, c <> GetAllBids arg) ->
  requests (snd (invoke rt c w)) = requests w ++ [rq] ->
  backend rt rq = inr resp ->
  invoke rt c w = (Normal (data resp), sent rq w).
Proof.
  intros Hc Hsent Hback. revert Hsent.
  destruct c; cbn [invoke].
  - unfold createBid, axios_post. run. guards.
    all: finish_call rt ltac:(settled_ok resp).
  - by destruct (Hc arg).
  - unfold getFilteredBids, axios_get. destruct filters; run; guards.
    all: finish_call rt ltac:(settled_ok resp).
  - unfold getFarmerBids, axios_get. run. guards.
    all: finish_call rt ltac:(settled_ok resp).
  - unfold getBuyerWinningBids, axios_get, console_error. run. guards.
    all: finish_call rt ltac:(settled_ok resp).
  - unfold getBidDetails, axios_get. run. guards.
    all: finish_call rt ltac:(settled_ok resp).
  - unfold placeBid, axios_post. run. guards.
    all: finish_call rt ltac:(settled_ok resp).
  - unfold acceptBidOffer, axios_post. run. guards.
    all: finish_call rt ltac:(settled_ok resp).
  - unfold cancelBid, axios_post. run. guards.
    all: finish_call rt ltac:(settled_ok resp).
  - unfold updateBidStatus, axios_put. run. guards.
    all: finish_call rt ltac:(settled_ok resp).
  - unfold forceCompleteBid, axios_put. run. guards.
    all: finish_call rt ltac:(settled_ok resp).
  - unfold getBidStatistics, axios_get. run. guards.
    all: finish_call rt ltac:(settled_ok resp).
Qed.

(** ** What goes over the wire *)

Ltac wire rt := first [ reflexivity | finish_call rt ltac:(reflexivity) ].

(** X4.  The guarded operations reach the network exactly when all their
    required arguments are truthy, and then with one fixed request each,
    whatever the backend goes on to answer: the identifiers are spliced into
    the path as they print, [acceptBidOffer], [updateBidStatus] and
    [forceCompleteBid] send a [null] body and their other arguments as query
    parameters, and [placeBid] sends the caller's object itself as the
    body. *)
Theorem guarded_calls_on_the_wire
    (rt : Runtime) (w : World) (farmerNic buyerNic bidId status amount : JsVal)
    (offer : gmap string JsVal) :
  requests (snd (getFarmerBids rt farmerNic w)) =
    requests w ++
      (if truthy farmerNic
       then [plainRequest GET ("/bids/farmer/" +:+ ToString farmerNic)
               JUndefined NoParams]
       else []) /\
  requests (snd (getBuyerWinningBids rt buyerNic w)) =
    requests w ++
      (if truthy buyerNic
       then [plainRequest GET
               ("/bids/buyer/" +:+ ToString buyerNic +:+ "/winning")
               JUndefined NoParams]
       else []) /\
  requests (snd (getBidDetails rt bidId w)) =
    requests w ++
      (if truthy bidId
       then [plainRequest GET ("/bids/" +:+ ToString bidId)
               JUndefined NoParams]
       else []) /\
  requests (snd (cancelBid rt bidId w)) =
    requests w ++
      (if truthy bidId
       then [plainRequest POST ("/bids/" +:+ ToString bidId +:+ "/cancel")
               JUndefined NoParams]
       else []) /\
  requests (snd (placeBid rt (JObj offer) w)) =
    requests w ++
      (if truthy (prop offer "bidId") && truthy (prop offer "buyerNic")
          && truthy (prop offer "bidAmount")
       then [plainRequest POST "/bids/offer" (JObj offer) NoParams]
       else []) /\
  requests (snd (acceptBidOffer rt bidId buyerNic w)) =
    requests w ++
      (if truthy bidId && truthy buyerNic
       then [plainRequest POST
               ("/bids/" +:+ ToString bidId +:+ "/accept-offer") JNull
               (ObjectParams {[ "buyerNic" := buyerNic ]})]
       else []) /\
  requests (snd (updateBidStatus rt bidId status w)) =
    requests w ++
      (if truthy bidId && truthy status
       then [plainRequest PUT
               ("/bids/admin/" +:+ ToString bidId +:+ "/status") JNull
               (ObjectParams {[ "status" := status ]})]
       else []) /\
  requests (snd (forceCompleteBid rt bidId buyerNic amount w)) =
    requests w ++
      (if truthy bidId && truthy buyerNic && truthy amount
       then [plainRequest PUT
               ("/bids/admin/" +:+ ToString bidId +:+ "/force-complete") JNull
               (ObjectParams {[ "buyerNic" := buyerNic;
                                "amount" := amount ]})]
       else []) /\
  requests (snd (getBidStatistics rt w)) =
    requests w ++
      [plainRequest GET "/bids/admin/statistics" JUndefined NoParams].
Proof.
  unfold plainRequest. repeat apply conj.
  - unfold getFarmerBids, axios_get. run. guards; rewrite ?app_nil_r; wire rt.
  - unfold getBuyerWinningBids, axios_get, console_error. run.
    guards; rewrite ?app_nil_r; wire rt.
  - unfold getBidDetails, axios_get. run. guards; rewrite ?app_nil_r; wire rt.
  - unfold cancelBid, axios_post. run. guards; rewrite ?app_nil_r; wire rt.
  - unfold placeBid, axios_post. run. guards; rewrite ?app_nil_r; wire rt.
  - unfold acceptBidOffer, axios_post. run.
    guards; rewrite ?app_nil_r; wire rt.
  - unfold updateBidStatus, axios_put. run.
    guards; rewrite ?app_nil_r; wire rt.
  - unfold forceCompleteBid, axios_put. run.
    guards; rewrite ?app_nil_r; wire rt.
  - unfold getBidStatistics, axios_get. run. wire rt.
Qed.

(** ** The normalized message *)

Lemma ToString_truthy_nonempty v :
  truthy v = true -> (forall l, v <> JArr l) -> ToString v <> EmptyString.
Proof.
  intros Ht Harr. destruct v as [| |[]|x|s|l|o]; try done.
  - apply toString_nonempty.
  - cbn in *. by destruct s.
  - by destruct (Harr l).
Qed.

(** X5.  The message of a normalized error is never empty, so there is
    always something to display: a backend message counts only when it is
    truthy, every canned text is non-empty, and an error without a message
    of its own gets the fallback text.  (A backend [message] that is an
    array is outside this: JavaScript takes the empty array for truthy and
    prints it as the empty string.) *)
Theorem normalized_message_never_empty (e : JsError) :
  (forall l, backendMessage e <> JArr l) ->
  message (normalized e) <> EmptyString.
Proof.
  intros Harr.
  destruct (truthy (backendMessage e)) eqn:Hm.
  - rewrite (normalized_backend_message e Hm). cbn.
    by apply ToString_truthy_nonempty.
  - unfold normalized, handleError, bind, console_error, ret.
    cbn. rewrite Hm.
    destruct (message e) as [|a s];
      repeat match goal with
             | |- context [if ?b then _ else _] => destruct b
             end; cbn; discriminate.
Qed.

(** X6.  When the backend sent no message, the transport code decides before
    the HTTP status does: an error coded [ERR_NETWORK] gets the connectivity
    message and one coded [ECONNABORTED] the timeout message, whatever status
    a response on them may show; and without such a code every status from
    500 upwards, with no upper bound, gets the one server-error message. *)
Theorem transport_code_precedes_status (e : JsError) :
  truthy (backendMessage e) = false ->
  (code_is e "ERR_NETWORK" = true ->
   normalized e =
     new_Error "Cannot connect to server. Please check your connection.") /\
  (code_is e "ERR_NETWORK" = false -> code_is e "ECONNABORTED" = true ->
   normalized e = new_Error "Request timeout - please try again.") /\
  (code_is e "ERR_NETWORK" = false -> code_is e "ECONNABORTED" = false ->
   status_ge e 500 = true ->
   normalized e = new_Error "Server error. Please try again later.").
Proof.
  intros Hm. repeat apply conj.
  - by apply normalized_network.
  - intros Hn Ht. unfold normalized, handleError, bind, console_error, ret.
    cbn. by rewrite Hm, Hn, Ht.
  - intros Hn Ht Hs. unfold status_ge in Hs.
    destruct (response e) as [r|] eqn:Hr; [|discriminate].
    apply Z.leb_le in Hs.
    rewrite (normalized_status e Hm Hn Ht (status r))
      by (unfold status_is; rewrite Hr; apply Z.eqb_refl).
    repeat match goal with
           | |- context [if ?n =? ?k then _ else _] =>
               destruct (Z.eqb_spec n k); [lia|]
           end.
    by rewrite (proj2 (Z.leb_le _ _) Hs).
Qed.

(** ** What the interceptor logs *)

(** X7.  The interceptor writes exactly one console line for an error that
    carries a response or is coded [ERR_NETWORK], and none for any other
    error: a timeout or a cancelled request passes through it silently. *)
Theorem interceptor_logs_at_most_one_line (e : JsError) (w : World) :
  axios_raised e ->
  (response e <> None \/ code_is e "ERR_NETWORK" = true ->
   exists line, console (snd (onRejected e w)) = console w ++ [line]) /\
  (response e = None -> code_is e "ERR_NETWORK" = false ->
   snd (onRejected e w) = w).
Proof.
  intros Hwf. unfold onRejected, bind, throw, console_error, ret, code_is.
  destruct (response e) as [r|] eqn:Hr.
  - split; [intros _|done].
    destruct (status r =? 500); [eexists; reflexivity|].
    destruct (status r =? 404); [|eexists; reflexivity].
    destruct (config e) as [u|] eqn:Hc; [eexists; reflexivity|].
    exfalso. apply Hwf; [rewrite Hr; discriminate | exact Hc].
  - destruct (code e) as [c|].
    + destruct (String.eqb c "ERR_NETWORK"); split.
      * intros _. eexists. reflexivity.
      * discriminate.
      * intros [[]|]; done.
      * intros _ _. by destruct w.
    + split; [intros [[]|]; done|]. intros _ _. by destruct w.
Qed.

(** ** Reshaping a record *)

Lemma decorateBid_own rt bid w :
  bid <> JUndefined -> bid <> JNull ->
  decorateBid rt bid w = decorateBid rt (JObj (ownProps bid)) w.
Proof. intros Hu Hn. by destruct bid. Qed.

Lemma or_else_array_twice bo :
  or_else (or_else bo (JArr [])) (JArr []) = or_else bo (JArr []).
Proof. unfold or_else. by destruct (truthy bo) eqn:H; [rewrite H|]. Qed.

Section Decorated.
Variables (b : gmap string JsVal) (offers buyer price created : JsVal).

Let out : gmap string JsVal :=
  <["createdAt" := created]>
    (<["winningBidPrice" := price]>
       (<["buyerNic" := buyer]> (<["bidOffers" := offers]> b))).

Lemma decorated_reads :
  prop out "bidOffers" = offers /\
  prop out "winningBuyerNic" = prop b "winningBuyerNic" /\
  prop out "winningBidAmount" = prop b "winningBidAmount" /\
  prop out "postedDate" = prop b "postedDate".
Proof.
  unfold prop, out. repeat apply conj.
  - by rewrite !lookup_insert_ne, lookup_insert_eq by done.
  - by rewrite !lookup_insert_ne by done.
  - by rewrite !lookup_insert_ne by done.
  - by rewrite !lookup_insert_ne by done.
Qed.

Lemma decorated_again :
  <["createdAt" := created]>
    (<["winningBidPrice" := price]>
       (<["buyerNic" := buyer]> (<["bidOffers" := offers]> out))) = out.
Proof.
  unfold out. apply map_eq. intros k.
  repeat match goal with
         | |- context [<[?i := _]> _ !! k] =>
             destruct (decide (i = k)) as [<-|];
             [by rewrite ?lookup_insert_eq, ?lookup_insert_ne by done|];
             rewrite (lookup_insert_ne _ i k) by done
         end.
  reflexivity.
Qed.

End Decorated.

Lemma decorateBid_twice_object rt (b : gmap string JsVal) w out :
  fst (decorateBid rt (JObj b) w) = Normal out ->
  decorateBid rt out w = (Normal out, w).
Proof.
  unfold decorateBid at 1. unfold bind, ret, throw. cbn.
  set (bo := prop b "bidOffers").
  set (wn := prop b "winningBuyerNic").
  set (price := or_else (prop b "winningBidAmount") JNull).
  set (created :=
         JStr (if truthy (prop b "postedDate")
               then toLocaleDateString rt (new_Date rt (prop b "postedDate"))
               else "Invalid Date")).
  assert (forall buyer,
            (truthy wn = true -> buyer = wn) ->
            (truthy wn = false ->
             exists c,
               (if truthy (or_else bo (JArr [])) then
                  bind (lift (getProp (or_else bo (JArr [])) "length"))
                    (fun len => ret (greater_than_zero rt len))
                else ret false) w = (Normal c, w) /\
               (if c then
                  match or_else bo (JArr []) with
                  | JArr l =>
                      bind (mapM (fun offer => lift (getProp offer "buyerNic")) l)
                           (fun nics => ret (JStr (join ", " nics)))
                  | _ => throw (TypeError "bid.bidOffers.map is not a function")
                  end
                else ret (JStr "-")) w = (Normal buyer, w)) ->
            decorateBid rt
              (JObj (<["createdAt" := created]>
                       (<["winningBidPrice" := price]>
                          (<["buyerNic" := buyer]>
                             (<["bidOffers" := or_else bo (JArr [])]> b))))) w =
            (Normal
               (JObj (<["createdAt" := created]>
                        (<["winningBidPrice" := price]>
                           (<["buyerNic" := buyer]>
                              (<["bidOffers" := or_else bo (JArr [])]> b))))),
             w)) as Hagain.
  { intros buyer Hwin Hoffers.
    destruct (decorated_reads b (or_else bo (JArr [])) buyer price created)
      as (Ho & Hw & Ha & Hp).
    unfold decorateBid. unfold bind at 1 2 3 4 5. cbn [lift getProp].
    rewrite Ho, Hw, Ha, Hp, or_else_array_twice. fold wn.
    destruct (truthy wn) eqn:Hwn.
    - rewrite (Hwin eq_refl). cbn. fold price created.
      by rewrite decorated_again.
    - destruct (Hoffers eq_refl) as (c & Hc & Hbuyer).
      unfold bind at 1. unfold bind in Hc. unfold bind at 1.
      rewrite Hc. unfold bind in Hbuyer. unfold bind. rewrite Hbuyer.
      cbn. fold price created. by rewrite decorated_again. }
  destruct (truthy wn) eqn:Hwn; cbn.
  { intros [= <-]. apply Hagain; [done|discriminate]. }
  destruct (truthy bo) eqn:Hbo; cbn.
  - assert (or_else bo (JArr []) = bo) as Hsame
      by (unfold or_else; by rewrite Hbo).
    destruct (getProp bo "length") as [len|] eqn:Hlen; cbn; [|discriminate].
    destruct (greater_than_zero rt len) eqn:Hpos; cbn.
    + destruct bo as [| | | | |l|]; try discriminate.
      destruct (mapM_pure (fun offer => lift (getProp offer "buyerNic")) l w)
        as [c Hc]; [intros; eexists; apply lift_pure|].
      rewrite Hc. destruct c as [nics|]; cbn; [|discriminate].
      intros [= <-]. apply Hagain; [congruence|]. intros _.
      cbn in Hlen. injection Hlen as <-.
      exists true. rewrite Hsame. unfold bind.
      cbn -[greater_than_zero]. rewrite Hpos. split; [done|]. by rewrite Hc.
    + intros [= <-]. apply Hagain; [congruence|]. intros _.
      exists false. rewrite Hsame, Hbo. unfold bind, lift. rewrite Hlen.
      cbn. by rewrite Hpos.
  - intros [= <-]. apply Hagain; [congruence|]. intros _.
    exists false. unfold or_else. rewrite Hbo. cbn. done.
Qed.

(** X8.  Reshaping is idempotent: a record that [getAllBids] has reshaped
    comes out unchanged when it is reshaped again, so feeding a displayed
    record through the same mapping is harmless. *)
Theorem decorateBid_idempotent
    (rt : Runtime) (bid out : JsVal) (w : World) :
  fst (decorateBid rt bid w) = Normal out ->
  decorateBid rt out w = (Normal out, w).
Proof.
  destruct bid; try discriminate;
    (rewrite decorateBid_own by done; apply decorateBid_twice_object).
Qed.

Lemma decorateBid_shape rt (b : gmap string JsVal) w out :
  fst (decorateBid rt (JObj b) w) = Normal out ->
  exists buyer,
    out =
      JObj (<["createdAt" :=
                JStr (if truthy (prop b "postedDate")
                      then toLocaleDateString rt
                             (new_Date rt (prop b "postedDate"))
                      else "Invalid Date")]>
              (<["winningBidPrice" :=
                   or_else (prop b "winningBidAmount") JNull]>
                 (<["buyerNic" := buyer]>
                    (<["bidOffers" := or_else (prop b "bidOffers") (JArr [])]>
                       b)))).
Proof.
  unfold decorateBid, bind, ret, throw. cbn.
  destruct (truthy (prop b "winningBuyerNic")); cbn.
  { intros [= <-]. eauto. }
  destruct (truthy (prop b "bidOffers")); cbn; [|intros [= <-]; eauto].
  destruct (getProp (prop b "bidOffers") "length") as [len|]; cbn;
    [|discriminate].
  destruct (greater_than_zero rt len); cbn; [|intros [= <-]; eauto].
  destruct (prop b "bidOffers") as [| | | | |l|]; try discriminate.
  destruct (mapM_pure (fun offer => lift (getProp offer "buyerNic")) l w)
    as [c ->]; [intros; eexists; apply lift_pure|].
  destruct c; cbn; [|discriminate]. intros [= <-]. eauto.
Qed.

(** X9.  A reshaped record keeps every field of the record received except
    the four it derives; its [bidOffers] is never missing; a winning amount
    that is absent, and also one that is 0, shows as a [null]
    [winningBidPrice]; and [createdAt] reads "Invalid Date" both when the
    posted date is missing and when it does not parse as a date. *)
Theorem decorateBid_fields
    (rt : Runtime) (bid out : JsVal) (w : World) :
  fst (decorateBid rt bid w) = Normal out ->
  exists o,
    out = JObj o /\
    (forall k, k ∉ ["bidOffers"; "buyerNic"; "winningBidPrice"; "createdAt"] ->
               o !! k = ownProps bid !! k) /\
    truthy (prop o "bidOffers") = true /\
    (truthy (prop (ownProps bid) "winningBidAmount") = false ->
     o !! "winningBidPrice" = Some JNull) /\
    (truthy (prop (ownProps bid) "winningBidAmount") = true ->
     o !! "winningBidPrice" = Some (prop (ownProps bid) "winningBidAmount")) /\
    (truthy (prop (ownProps bid) "postedDate") = false \/
     new_Date rt (prop (ownProps bid) "postedDate") = None ->
     o !! "createdAt" = Some (JStr "Invalid Date")).
Proof.
  intros Hrun.
  assert (bid <> JUndefined /\ bid <> JNull) as [Hu Hn]
    by (split; intros ->; discriminate Hrun).
  rewrite decorateBid_own in Hrun by done.
  destruct (decorateBid_shape rt (ownProps bid) w out Hrun) as [buyer ->].
  set (b := ownProps bid). eexists. split; [reflexivity|].
  repeat apply conj.
  - intros k Hk. rewrite !elem_of_cons, elem_of_nil in Hk.
    rewrite !lookup_insert_ne by (intros <-; tauto). done.
  - unfold prop at 1. rewrite !lookup_insert_ne, lookup_insert_eq by done.
    cbn. unfold or_else. by destruct (truthy (prop b "bidOffers")) eqn:H.
  - intros Hfalsy. rewrite lookup_insert_ne, lookup_insert_eq by done.
    unfold or_else. by rewrite Hfalsy.
  - intros Htruthy. rewrite lookup_insert_ne, lookup_insert_eq by done.
    unfold or_else. by rewrite Htruthy.
  - intros Hdate. rewrite lookup_insert_eq.
    destruct (truthy (prop b "postedDate")) eqn:Hposted; [|done].
    destruct Hdate as [Hfalsy | ->]; [discriminate|done].
Qed.

(** ** The filters [getFilteredBids] forwards *)

Lemma keepFilter_iff v :
  Is_true (keepFilter v) <-> truthy v = true /\ v <> JStr "ALL".
Proof.
  unfold keepFilter. destruct v as [| |[]|x|s|l|o]; cbn.
  - split; [done|]. by intros [].
  - split; [done|]. by intros [].
  - split; [|done]. intros _. split; [done|discriminate].
  - split; [done|]. by intros [].
  - destruct (JsNumber.toBoolean x); cbn.
    + split; [|done]. intros _. split; [done|discriminate].
    + split; [done|]. by intros [].
  - destruct (String.eqb_spec s "") as [->|Hs]; cbn.
    { split; [done|]. by intros []. }
    destruct (String.eqb_spec s "ALL") as [->|Hall]; cbn.
    + split; [done|]. intros [_ H]. by destruct H.
    + split; [|done]. intros _. split; [done|]. by intros [= ->].
  - split; [|done]. intros _. split; [done|discriminate].
  - split; [|done]. intros _. split; [done|discriminate].
Qed.

(** X10.  [getFilteredBids] always sends one GET to [/bids/active], and the
    parameters it sends are exactly the caller's filters whose value is
    truthy and not "ALL", each with its value unchanged: nothing is added,
    renamed or converted.  Called without filters it sends no parameters;
    called with [null] it fails before the call. *)
Theorem getFilteredBids_forwards_set_filters
    (rt : Runtime) (filters : gmap string JsVal) (w : World) :
  (exists o,
     requests (snd (getFilteredBids rt (JObj filters) w)) =
       requests w ++
         [plainRequest GET "/bids/active" JUndefined (ObjectParams o)] /\
     forall k v, o !! k = Some v <->
                 filters !! k = Some v /\ truthy v = true /\ v <> JStr "ALL") /\
  requests (snd (getFilteredBids rt JUndefined w)) =
    requests w ++
      [plainRequest GET "/bids/active" JUndefined (ObjectParams ∅)] /\
  fst (getFilteredBids rt JNull w) =
    Throw (new_Error "Cannot convert undefined or null to object") /\
  requests (snd (getFilteredBids rt JNull w)) = requests w.
Proof.
  unfold plainRequest. repeat apply conj.
  - eexists. split.
    + unfold getFilteredBids, axios_get. run. wire rt.
    + intros k v. rewrite map_lookup_filter_Some. cbn.
      by rewrite keepFilter_iff.
  - unfold getFilteredBids, axios_get. run. wire rt.
  - unfold getFilteredBids. run. rewrite handleError_eq. reflexivity.
  - unfold getFilteredBids. run. rewrite handleError_eq. reflexivity.
Qed.

(** ** The query of [getAllBids] in full *)

(** X11.  A date range that is set but does not start with a number (such
    as "all" or "week") makes [getAllBids] fail with "Invalid time value"
    before anything is sent: the day count is [NaN], the date it is
    subtracted from becomes invalid, and printing it throws. *)
Theorem getAllBids_rejects_non_numeric_dateRange
    (rt : Runtime) (arg : gmap string JsVal) :
  truthy (prop arg "dateRange") = true ->
  parseInt (prop arg "dateRange") = None ->
  fails_before_network (getAllBids rt (JObj arg)) "Invalid time value".
Proof.
  intros Hset Hnan w. unfold getAllBids. cbn [ownProps getPropOpt getProp].
  unfold getAllBids_body. run. rewrite !prop_delete_ne by done.
  rewrite Hset, Hnan.
  assert (JsDate.setDate (LocalTZA rt) (new_Date_now rt)
            (JsDate.getDate (LocalTZA rt) (new_Date_now rt) ≫=
               (fun d => None ≫= (fun n : Z => Some (d - n)))) = None) as ->.
  { destruct (new_Date_now rt); reflexivity. }
  cbn. rewrite handleError_eq. cbn. done.
Qed.

(** X12.  The query [getAllBids] sends is, in this order: [status] with the
    filter's value as it prints, when that is truthy and not "all";
    [fromDate], when the date range is set, the ISO string of the instant
    [n] local calendar days before now for a range that parses to [n]; and
    [searchTerm] as it prints when truthy.  The caller's [signal] is handed
    to the transport as it is, and is never sent as a parameter. *)
Theorem getAllBids_query
    (rt : Runtime) (arg : gmap string JsVal) (w : World) (n : Z) :
  let statusPart :=
    if truthy (prop arg "status") && negb (strict_eq_str (prop arg "status") "all")
    then [("status", ToString (prop arg "status"))] else [] in
  let searchPart :=
    if truthy (prop arg "searchTerm")
    then [("searchTerm", ToString (prop arg "searchTerm"))] else [] in
  let from :=
    JsDate.UTC (LocalTZA rt)
      (JsDate.LocalTime (LocalTZA rt) (now rt) - n * JsDate.msPerDay) in
  (truthy (prop arg "dateRange") = false ->
   requests (snd (getAllBids rt (JObj arg) w)) =
     requests w ++
       [{| method := GET; url := "/bids/admin/all"; body := JUndefined;
           params := SearchParams (statusPart ++ searchPart);
           signal := prop arg "signal" |}]) /\
  (truthy (prop arg "dateRange") = true ->
   parseInt (prop arg "dateRange") = Some n ->
   in_range (now rt) -> in_range from ->
   requests (snd (getAllBids rt (JObj arg) w)) =
     requests w ++
       [{| method := GET; url := "/bids/admin/all"; body := JUndefined;
           params :=
             SearchParams
               (statusPart ++ [("fromDate", JsDate.isoString from)]
                  ++ searchPart);
           signal := prop arg "signal" |}]).
Proof.
  cbv zeta. split.
  - intros Hunset. unfold getAllBids. cbn [ownProps getPropOpt getProp].
    unfold getAllBids_body, axios_get. run. rewrite !prop_delete_ne by done.
    rewrite Hunset. cbn.
    destruct (truthy (prop arg "status")
              && negb (strict_eq_str (prop arg "status") "all"));
      destruct (truthy (prop arg "searchTerm")); cbn;
      finish_call rt ltac:(reflexivity).
  - intros Hset Hdays Hnow Hfrom.
    unfold getAllBids. cbn [ownProps getPropOpt getProp].
    unfold getAllBids_body, axios_get. run. rewrite !prop_delete_ne by done.
    rewrite Hset, Hdays. unfold new_Date_now.
    rewrite (TimeClip_in_range _ Hnow). cbn.
    rewrite MakeDay_shift, (TimeClip_in_range _ Hfrom). cbn.
    destruct (truthy (prop arg "status")
              && negb (strict_eq_str (prop arg "status") "all"));
      destruct (truthy (prop arg "searchTerm")); cbn;
      finish_call rt ltac:(reflexivity).
Qed.

(** ** All records or none *)

Lemma mapM_decorate_nullish rt bids w :
  JNull ∈ bids \/ JUndefined ∈ bids ->
  exists e, mapM (decorateBid rt) bids w = (Throw e, w).
Proof.
  induction bids as [|bid bids IH]; intros Hin.
  { destruct Hin as [Hin|Hin]; by apply elem_of_nil in Hin. }
  rewrite mapM_cons. unfold bind at 1.
  destruct (decorateBid_pure rt bid w) as [c Hc]. rewrite Hc.
  destruct c as [out|e]; [|eauto].
  assert (JNull ∈ bids \/ JUndefined ∈ bids) as Hrest.
  { destruct Hin as [Hin|Hin]; apply elem_of_cons in Hin as [<-|Hin];
      try (cbn in Hc; discriminate Hc); auto. }
  destruct (IH Hrest) as [e He]. unfold bind. rewrite He. eauto.
Qed.

(** X13.  [getAllBids] returns all records or none: when the body of the
    answer is not an array, or is an array in which some record is [null] or
    [undefined], the operation fails, after its one request, with a
    normalized error, and no partial list is returned. *)
Theorem getAllBids_all_or_nothing
    (rt : Runtime) (arg : JsVal) (w : World) (rq : Request)
    (resp : AxiosResponse) :
  requests (snd (getAllBids rt arg w)) = requests w ++ [rq] ->
  backend rt rq = inr resp ->
  (forall bids, data resp = JArr bids ->
                JNull ∈ bids \/ JUndefined ∈ bids) ->
  exists m, fst (getAllBids rt arg w) = Throw (new_Error m).
Proof.
  intros Hsent Hback Hbad. revert Hsent.
  assert (forall w', exists e, map_data rt (data resp) w' = (Throw e, w'))
    as Hfails.
  { intros w'. destruct (data resp) as [| | | | |bids|] eqn:Hd; cbn;
      try (eexists; reflexivity).
    destruct (mapM_decorate_nullish rt bids w' (Hbad bids eq_refl)) as [e He].
    unfold bind. rewrite He. eauto. }
  unfold getAllBids.
  destruct arg; try (cbn; by intros []%nothing_sent).
  all: unfold getAllBids_body, axios_get; run; guards.
  all: step_call rt;
    [|rewrite ?handleError_eq; cbn; intros <-%one_sent; congruence].
  all: match goal with
       | |- context [map_data ?r ?d ?w] =>
           destruct (map_data_pure r d w) as [c Hc]; rewrite Hc;
           destruct c; cbn; rewrite ?handleError_eq; cbn;
           intros <-%one_sent;
           assert (resp0 = resp) as -> by congruence
       end.
  all: try (match type of Hc with
            | map_data _ _ ?w' = _ =>
                destruct (Hfails w') as [e He]; rewrite He in Hc;
                discriminate Hc
            end).
  all: apply normalized_plain_thrown.
Qed.

(** ** The allocation table *)

(** X14.  The status badge tells the four known labels apart: the class is
    the grey fallback exactly for a label that is none of PENDING, READY,
    COLLECTED and EXPIRED (the comparison is by exact spelling, so a
    lower-case label is unknown), and two known labels never share a
    class. *)
Theorem getStatusColor_tells_labels_apart (s s' : string) :
  let known := ["PENDING"; "READY"; "COLLECTED"; "EXPIRED"] in
  (AllocationList.getStatusColor s = "bg-gray-100 text-gray-800" <->
     s ∉ known) /\
  (s ∈ known -> s' ∈ known ->
   AllocationList.getStatusColor s = AllocationList.getStatusColor s' ->
   s = s').
Proof.
  cbv zeta. unfold AllocationList.getStatusColor.
  rewrite !elem_of_cons, !elem_of_nil. split.
  - destruct (String.eqb_spec s "PENDING") as [->|?]; [split; [done|tauto]|].
    destruct (String.eqb_spec s "READY") as [->|?]; [split; [done|tauto]|].
    destruct (String.eqb_spec s "COLLECTED") as [->|?]; [split; [done|tauto]|].
    destruct (String.eqb_spec s "EXPIRED") as [->|?]; [split; [done|tauto]|].
    split; [tauto|done].
  - intros [->|[->|[->|[->|[]]]]] [->|[->|[->|[->|[]]]]]; cbn; done.
Qed.

(** X15.  For integer pages up to 2^53 in absolute value and lists that
    render, the two controls undo each other: Next followed by Previous
    leads back to the page, except from -1 (Previous is disabled on page 0)
    and from 2^53 (where Next hands on the same page, so that Previous leads
    to the page before); Previous followed by Next leads back, except from
    -2^53 (where Previous hands on the same page); on page 0 Previous does
    nothing. *)
Theorem pagination_round_trip
    (rt : Runtime) (formatted : Z -> string)
    (allocations allocations' : option (list AllocationList.Allocation))
    (n : Z) (q : Number) (view view' : AllocationList.View) :
  Z.abs n <= 2 ^ 53 ->
  AllocationList.AllocationList rt formatted allocations
    (Some (JsNumber.Int n)) = Normal view ->
  AllocationList.AllocationList rt formatted allocations' (Some q) =
    Normal view' ->
  (AllocationList.click (AllocationList.next view) = Some q ->
   AllocationList.click (AllocationList.previous view') =
     if n =? -1 then None
     else Some (JsNumber.Int (if n =? 2 ^ 53 then n - 1 else n))) /\
  (AllocationList.click (AllocationList.previous view) = Some q ->
   n <> 0 /\
   AllocationList.click (AllocationList.next view') =
     Some (JsNumber.Int (if n =? - 2 ^ 53 then n + 1 else n))) /\
  (n = 0 -> AllocationList.click (AllocationList.previous view) = None).
Proof.
  intros Hn Hview Hview'.
  apply AllocationList_controls in Hview as [-> ->].
  apply AllocationList_controls in Hview' as [-> ->].
  change (default (JsNumber.Int 0) (Some (JsNumber.Int n)))
    with (JsNumber.Int n).
  change (default (JsNumber.Int 0) (Some q)) with q.
  rewrite click_next_safe, click_previous_safe by done.
  repeat apply conj.
  - intros [= <-].
    destruct (Z.eqb_spec n (2 ^ 53)) as [->|Hmax]; [by vm_compute|].
    rewrite click_previous_safe by lia.
    destruct (Z.eqb_spec n (-1)) as [->|Hm1]; [done|].
    destruct (Z.eqb_spec (n + 1) 0); [lia|].
    destruct (Z.eqb_spec (n + 1) (- 2 ^ 53)); [lia|]. do 2 f_equal. lia.
  - destruct (Z.eqb_spec n 0) as [->|Hz]; [discriminate|].
    intros [= <-]. split; [done|].
    destruct (Z.eqb_spec n (- 2 ^ 53)) as [->|Hmin]; [by vm_compute|].
    rewrite click_next_safe by lia.
    destruct (Z.eqb_spec (n - 1) (2 ^ 53)); [lia|]. do 2 f_equal. lia.
  - by intros ->.
Qed.

(** ** Rendering the allocation list *)

Lemma row_cases rt formatted allocation :
  if unreadable rt allocation
  then AllocationList.row rt formatted allocation =
         Throw (RangeError "Invalid time value")
  else exists r,
         AllocationList.row rt formatted allocation = Normal r /\
         AllocationList.key r = AllocationList.id allocation /\
         AllocationList.cells r !! 3%nat =
           date_cell rt formatted allocation.
Proof.
  unfold unreadable, date_cell, AllocationList.row.
  destruct (AllocationList.distributionDate allocation) as [d|];
    [destruct (String.eqb d ""); destruct (new_Date rt (JStr d))|];
    cbn; try reflexivity;
    (eexists; split; [reflexivity|]; split; reflexivity).
Qed.

Lemma map_rows_cases rt formatted allocations :
  if existsb (unreadable rt) allocations
  then AllocationList.map_rows rt formatted allocations =
         Throw (RangeError "Invalid time value")
  else exists rs,
         AllocationList.map_rows rt formatted allocations = Normal rs /\
         Forall2
           (fun allocation r =>
              AllocationList.key r = AllocationList.id allocation /\
              AllocationList.cells r !! 3%nat =
                date_cell rt formatted allocation)
           allocations rs.
Proof.
  induction allocations as [|allocation rest IH]; cbn; [eauto|].
  pose proof (row_cases rt formatted allocation) as Hrow.
  destruct (unreadable rt allocation); cbn.
  - by rewrite Hrow.
  - destruct Hrow as (r & Hr & Hkey & Hcell). rewrite Hr.
    destruct (existsb (unreadable rt) rest).
    + by rewrite IH.
    + destruct IH as (rs & -> & Hall). eauto.
Qed.

(** X21.  The list renders exactly when every distribution date that is set
    (present and not empty) parses as a date: then there is one row per
    allocation, in order, keyed by the allocation's id and showing the
    formatted date, or "Not Set" for a date left out or empty, and the two
    buttons are those of the current page (page 0 when it is left out).
    With a date that does not parse, date-fns throws the RangeError
    "Invalid time value" and nothing is rendered, neither rows nor
    buttons. *)
Theorem AllocationList_renders_or_throws
    (rt : Runtime) (formatted : Z -> string)
    (allocations : option (list AllocationList.Allocation))
    (currentPage : option Number) :
  if existsb (unreadable rt) (default [] allocations)
  then AllocationList.AllocationList rt formatted allocations currentPage =
         Throw (RangeError "Invalid time value")
  else exists view,
         AllocationList.AllocationList rt formatted allocations currentPage =
           Normal view /\
         AllocationList.previous view =
           AllocationList.previousButton
             (default (JsNumber.Int 0) currentPage) /\
         AllocationList.next view =
           AllocationList.nextButton (default (JsNumber.Int 0) currentPage) /\
         Forall2
           (fun allocation r =>
              AllocationList.key r = AllocationList.id allocation /\
              AllocationList.cells r !! 3%nat =
                date_cell rt formatted allocation)
           (default [] allocations) (AllocationList.rows view).
Proof.
  unfold AllocationList.AllocationList. cbv zeta.
  pose proof (map_rows_cases rt formatted (default [] allocations)) as Hrows.
  destruct (existsb (unreadable rt) (default [] allocations)) eqn:Hbad.
  - by rewrite Hrows.
  - destruct Hrows as (rs & -> & Hall). eexists.
    split; [reflexivity|]. cbn. by repeat apply conj.
Qed.

(** ** The fertilizer routes *)

(** X16.  Whatever [useAuth] returns as the user, also [undefined] or
    [null], the route table is built without an error and has the paths
    [dashboard], [allocations] and [*] in this order, the last one
    redirecting to [dashboard].  An admin page is among the elements exactly
    when the user's [role] is the string "ADMIN"; every other user, a
    missing one included, gets the two farmer pages. *)
Theorem FertilizerRoutes_by_role (user : JsVal) :
  let routes := FertilizerRoutes.FertilizerRoutes user in
  map FertilizerRoutes.path routes = ["dashboard"; "allocations"; "*"] /\
  last routes =
    Some {| FertilizerRoutes.path := "*";
            FertilizerRoutes.element :=
              FertilizerRoutes.Navigate "dashboard" true |} /\
  ((exists r, r ∈ routes /\
              FertilizerRoutes.is_admin_element
                (FertilizerRoutes.element r) = true) <->
   getPropOpt user "role" = JStr "ADMIN") /\
  (getPropOpt user "role" <> JStr "ADMIN" ->
   map FertilizerRoutes.element routes =
     [FertilizerRoutes.FarmerFertilizerDashboard;
      FertilizerRoutes.FarmerFertilizerAllocations;
      FertilizerRoutes.Navigate "dashboard" true]).
Proof.
  cbv zeta. unfold FertilizerRoutes.FertilizerRoutes.
  assert (strict_eq_str (getPropOpt user "role") "ADMIN" = true <->
          getPropOpt user "role" = JStr "ADMIN") as Hrole.
  { unfold strict_eq_str. destruct (getPropOpt user "role"); try done.
    destruct (String.eqb_spec s "ADMIN") as [->|Hne]; [done|].
    split; [done|]. by intros [= ->]. }
  destruct (strict_eq_str (getPropOpt user "role") "ADMIN"); cbn.
  - split; [done|]. split; [done|]. split.
    + split; [intros _; by apply Hrole|]. intros _.
      eexists. split; [apply elem_of_cons; by left|]. reflexivity.
    + intros Hne. destruct Hne. by apply Hrole.
  - split; [done|]. split; [done|]. split; [|done]. split.
    + intros (r & Hin & Hadmin).
      rewrite !elem_of_cons, elem_of_nil in Hin.
      destruct Hin as [->|[->|[->|[]]]]; discriminate Hadmin.
    + intros Hadmin. apply Hrole in Hadmin. discriminate Hadmin.
Qed.

(** ** Formatting a bid for display *)

(** X17.  [formatBidData] adds to a bid its two display fields and leaves
    every other field as it is; the formatted date is the empty string when
    the bid has no [createdAt], and the price is whatever the currency
    formatter makes of [minimumPrice], also when that is missing.  Only a
    bid that is [null] or [undefined] makes it throw, a [TypeError]. *)
Theorem formatBidData_fields
    (rt : Runtime) (formatCurrency : JsVal -> string) (bid : JsVal) :
  (bid = JUndefined \/ bid = JNull ->
   exists e, formatBidData rt formatCurrency bid = Throw e /\
             name e = "TypeError") /\
  (bid <> JUndefined -> bid <> JNull ->
   exists o,
     formatBidData rt formatCurrency bid = Normal (JObj o) /\
     (forall k, k <> "formattedDate" -> k <> "formattedPrice" ->
                o !! k = ownProps bid !! k) /\
     o !! "formattedPrice" =
       Some (JStr (formatCurrency (prop (ownProps bid) "minimumPrice"))) /\
     (truthy (prop (ownProps bid) "createdAt") = false ->
      o !! "formattedDate" = Some (JStr EmptyString)) /\
     (truthy (prop (ownProps bid) "createdAt") = true ->
      o !! "formattedDate" =
        Some (JStr (toLocaleDateString rt
                      (new_Date rt (prop (ownProps bid) "createdAt")))))).
Proof.
  split.
  - intros [-> | ->]; eexists; split; reflexivity.
  - intros Hu Hn.
    assert (formatBidData rt formatCurrency bid =
            formatBidData rt formatCurrency (JObj (ownProps bid))) as ->
      by (by destruct bid).
    unfold formatBidData. cbn. eexists. split; [reflexivity|].
    repeat apply conj.
    + intros k H1 H2. by rewrite !lookup_insert_ne.
    + apply lookup_insert_eq.
    + intros Hc. rewrite lookup_insert_ne, lookup_insert_eq by done.
      by rewrite Hc.
    + intros Hc. rewrite lookup_insert_ne, lookup_insert_eq by done.
      by rewrite Hc.
Qed.

(** X18.  Formatting a record that [getAllBids] reshaped: for a bid without
    a posted date the reshaped [createdAt] is the text "Invalid Date", which
    is truthy, so [formatBidData] parses it as a date; in a runtime that
    does not read that text as a date the formatted date is "Invalid Date"
    again, not the empty string a missing date would give. *)
Theorem formatBidData_after_decorateBid
    (rt : Runtime) (formatCurrency : JsVal -> string)
    (bid out : JsVal) (w : World) :
  fst (decorateBid rt bid w) = Normal out ->
  truthy (prop (ownProps bid) "postedDate") = false ->
  dateParse rt "Invalid Date" = None ->
  exists o,
    formatBidData rt formatCurrency out = Normal (JObj o) /\
    o !! "formattedDate" = Some (JStr "Invalid Date") /\
    o !! "createdAt" = Some (JStr "Invalid Date").
Proof.
  intros Hrun Hposted Hparse.
  destruct (decorateBid_fields rt bid out w Hrun)
    as (d & -> & _ & _ & _ & _ & Hcreated).
  specialize (Hcreated (or_introl Hposted)).
  destruct (formatBidData_fields rt formatCurrency (JObj d))
    as (_ & Hformat).
  destruct (Hformat ltac:(done) ltac:(done))
    as (o & Hrun' & Hframe & _ & _ & Hdate).
  exists o. split; [exact Hrun'|].
  cbn [ownProps] in *. unfold prop in Hdate. rewrite Hcreated in Hdate.
  cbn in Hdate. rewrite Hparse in Hdate. cbn in Hdate.
  split; [by apply Hdate|]. by rewrite Hframe.
Qed.

(** ** Two more compositions *)

(** X19.  Normalizing is idempotent: [handleError] applied to an error it
    produced returns that error again, so an error that crosses two
    [catch] blocks of this kind reads the same.  (As before, a backend
    [message] that is an array is set aside.) *)
Theorem handleError_idempotent (e : JsError) :
  (forall l, backendMessage e <> JArr l) ->
  normalized (normalized e) = normalized e.
Proof.
  intros Harr.
  pose proof (normalized_message_never_empty e Harr) as Hne.
  destruct (normalized_plain e) as [m Hm]. rewrite Hm in *. cbn in Hne.
  pose proof (handleError_validation m world0 Hne) as Hrun.
  unfold normalized at 1. by rewrite Hrun.
Qed.

(** X20.  The request [createBid] sends depends on the harvest date only
    through its local calendar day: two requests that agree on every other
    field and whose harvest dates fall on the same local day run
    identically, with the same request sent and the same outcome. *)
Theorem createBid_same_local_day
    (rt : Runtime) (req1 req2 : gmap string JsVal) (w : World) (t1 t2 : Z) :
  delete "harvestDate" req1 = delete "harvestDate" req2 ->
  new_Date rt (prop req1 "harvestDate") = Some t1 ->
  new_Date rt (prop req2 "harvestDate") = Some t2 ->
  JsDate.Day (JsDate.LocalTime (LocalTZA rt) t1) =
    JsDate.Day (JsDate.LocalTime (LocalTZA rt) t2) ->
  createBid rt (JObj req1) w = createBid rt (JObj req2) w.
Proof.
  intros Hrest Ht1 Ht2 Hday.
  assert (prop req1 "farmerNic" = prop req2 "farmerNic") as Hnic.
  { unfold prop.
    rewrite <- (lookup_delete_ne req1 "harvestDate" "farmerNic") by done.
    rewrite <- (lookup_delete_ne req2 "harvestDate" "farmerNic") by done.
    by rewrite Hrest. }
  assert (forall iso : JsVal,
            <["harvestDate" := iso]> req1 = <["harvestDate" := iso]> req2)
    as Hbody.
  { intros iso. rewrite <- (insert_delete_eq req1), <- (insert_delete_eq req2).
    by rewrite Hrest. }
  unfold createBid. unfold try_catch, bind, lift. cbn [getProp].
  rewrite Hnic, Ht1, Ht2. cbn [JsDate.setHours]. rewrite Hday.
  destruct (negb (truthy (prop req2 "farmerNic"))); [reflexivity|].
  destruct (JsDate.TimeClip _) as [u|]; cbn; [|reflexivity].
  by rewrite Hbody.
Qed.

(** ** The further properties at concrete inputs *)

Lemma thrown_errors_witness :
  exists m, httpErrorThrown = new_Error m.
Proof.
  destruct (thrown_errors_are_normalized
              (colomboRuntime 0 (failing 404 JNull))
              (GetBidDetails (JNum 99)) world0 httpErrorThrown)
    as [Hplain _].
  - vm_compute. reflexivity.
  - apply Hplain. discriminate.
Defined.

Lemma success_returns_witness :
  fst (invoke (colomboRuntime 0 (fun _ => ok (JStr "cancelled")))
         (CancelBid (JNum 7)) world0) = Normal (JStr "cancelled").
Proof.
  rewrite (success_returns_backend_data
             (colomboRuntime 0 (fun _ => ok (JStr "cancelled")))
             (CancelBid (JNum 7)) world0
             (plainRequest POST "/bids/7/cancel" JUndefined NoParams)
             {| status := 200; data := JStr "cancelled" |}).
  - reflexivity.
  - discriminate.
  - vm_compute. reflexivity.
  - reflexivity.
Defined.

Lemma normalized_message_witness :
  exists m,
    message (normalized (httpError 503 (JObj {[ "message" := JStr "" ]})
                           "/bids/active")) = m /\
    m <> EmptyString.
Proof.
  eexists. split; [reflexivity|].
  apply (normalized_message_never_empty
           (httpError 503 (JObj {[ "message" := JStr "" ]}) "/bids/active")).
  intros l. vm_compute. discriminate.
Defined.

Lemma transport_code_witness :
  normalized {| name := "AxiosError"; message := "timeout of 10000ms exceeded";
                code := Some "ECONNABORTED"; config := Some "/bids/active";
                response := None |} =
    new_Error "Request timeout - please try again.".
Proof.
  destruct (transport_code_precedes_status
              {| name := "AxiosError";
                 message := "timeout of 10000ms exceeded";
                 code := Some "ECONNABORTED"; config := Some "/bids/active";
                 response := None |})
    as (_ & Htimeout & _).
  - reflexivity.
  - apply Htimeout; reflexivity.
Defined.

Lemma interceptor_logs_witness :
  snd (onRejected
         {| name := "AxiosError"; message := "timeout of 10000ms exceeded";
            code := Some "ECONNABORTED"; config := Some "/bids/active";
            response := None |} world0) = world0.
Proof.
  destruct (interceptor_logs_at_most_one_line
              {| name := "AxiosError";
                 message := "timeout of 10000ms exceeded";
                 code := Some "ECONNABORTED"; config := Some "/bids/active";
                 response := None |} world0)
    as (_ & Hsilent).
  - unfold axios_raised. simpl. intros H. by destruct H.
  - apply Hsilent; reflexivity.
Defined.

Lemma decorateBid_idempotent_witness :
  decorateBid (colomboRuntime 0 (fun _ => ok JNull)) decoratedSample world0 =
    (Normal decoratedSample, world0).
Proof.
  apply (decorateBid_idempotent
           (colomboRuntime 0 (fun _ => ok JNull))
           (JObj {[ "id" := JNum 3 ]}) decoratedSample world0).
  vm_compute. reflexivity.
Defined.

Lemma decorateBid_fields_witness :
  exists o, decoratedSample = JObj o /\ o !! "id" = Some (JNum 3) /\
            o !! "winningBidPrice" = Some JNull.
Proof.
  destruct (decorateBid_fields
              (colomboRuntime 0 (fun _ => ok JNull))
              (JObj {[ "id" := JNum 3 ]}) decoratedSample world0)
    as (o & Hout & Hframe & _ & Hprice & _).
  - vm_compute. reflexivity.
  - exists o. split; [exact Hout|]. split.
    + rewrite Hframe; [reflexivity|].
      rewrite !elem_of_cons, elem_of_nil. intros [H|[H|[H|[H|[]]]]];
        discriminate H.
    + apply Hprice. reflexivity.
Defined.

Lemma non_numeric_dateRange_witness :
  fst (getAllBids (colomboRuntime 1700000000000 (fun _ => ok (JArr [])))
         (JObj {[ "dateRange" := JStr "week" ]}) world0) =
    Throw (new_Error "Invalid time value").
Proof.
  apply (getAllBids_rejects_non_numeric_dateRange
           (colomboRuntime 1700000000000 (fun _ => ok (JArr [])))
           {[ "dateRange" := JStr "week" ]}).
  - reflexivity.
  - vm_compute. reflexivity.
Defined.

Lemma all_or_nothing_witness :
  exists m,
    fst (getAllBids
           (colomboRuntime 0
              (fun _ => ok (JArr [JObj {[ "id" := JNum 1 ]}; JNull])))
           JUndefined world0) = Throw (new_Error m).
Proof.
  apply (getAllBids_all_or_nothing
           (colomboRuntime 0
              (fun _ => ok (JArr [JObj {[ "id" := JNum 1 ]}; JNull])))
           JUndefined world0 (listRequest [])
           {| status := 200;
              data := JArr [JObj {[ "id" := JNum 1 ]}; JNull] |}).
  - vm_compute. reflexivity.
  - reflexivity.
  - intros bids [= <-]. left. apply elem_of_cons. right.
    apply elem_of_cons. by left.
Defined.

Lemma formatBidData_after_witness :
  exists o,
    formatBidData (colomboRuntime 0 (fun _ => ok JNull)) ToString
      decoratedSample = Normal (JObj o) /\
    o !! "formattedDate" = Some (JStr "Invalid Date").
Proof.
  destruct (formatBidData_after_decorateBid
              (colomboRuntime 0 (fun _ => ok JNull)) ToString
              (JObj {[ "id" := JNum 3 ]}) decoratedSample world0)
    as (o & Hrun & Hdate & _).
  - vm_compute. reflexivity.
  - reflexivity.
  - reflexivity.
  - exists o. split; assumption.
Defined.

Lemma handleError_idempotent_witness :
  normalized (normalized (httpError 404 JNull "/bids/99")) =
    normalized (httpError 404 JNull "/bids/99").
Proof.
  apply (handleError_idempotent (httpError 404 JNull "/bids/99")).
  intros l. vm_compute. discriminate.
Defined.

Lemma createBid_same_day_witness :
  createBid (colomboRuntime 0 (fun _ => ok JNull))
    (JObj sampleCreateRequest) world0 =
  createBid (colomboRuntime 0 (fun _ => ok JNull))
    (JObj (<["harvestDate" := JNum 1700030000000]> sampleCreateRequest))
    world0.
Proof.
  apply (createBid_same_local_day
           (colomboRuntime 0 (fun _ => ok JNull))
           sampleCreateRequest
           (<["harvestDate" := JNum 1700030000000]> sampleCreateRequest)
           world0 1700000000000 1700030000000).
  - vm_compute. reflexivity.
  - vm_compute. reflexivity.
  - vm_compute. reflexivity.
  - vm_compute. reflexivity.
Defined.

Lemma pagination_round_trip_witness :
  let view3 :=
    {| AllocationList.rows := [];
       AllocationList.previous := AllocationList.previousButton 3;
       AllocationList.next := AllocationList.nextButton 3 |} in
  let view4 :=
    {| AllocationList.rows := [];
       AllocationList.previous := AllocationList.previousButton 4;
       AllocationList.next := AllocationList.nextButton 4 |} in
  AllocationList.click (AllocationList.next view3) = Some (JsNumber.Int 4) /\
  AllocationList.click (AllocationList.previous view4) =
    Some (JsNumber.Int 3).
Proof.
  cbv zeta.
  destruct (pagination_round_trip
              (utcRuntime 0 (fun _ => ok JNull)) (fun _ => EmptyString)
              (Some []) None 3 (JsNumber.Int 4)
              {| AllocationList.rows := [];
                 AllocationList.previous := AllocationList.previousButton 3;
                 AllocationList.next := AllocationList.nextButton 3 |}
              {| AllocationList.rows := [];
                 AllocationList.previous := AllocationList.previousButton 4;
                 AllocationList.next := AllocationList.nextButton 4 |})
    as (Hback & _).
  - vm_compute. discriminate.
  - reflexivity.
  - reflexivity.
  - split; [by vm_compute|]. apply Hback. by vm_compute.
Defined.
